(** * ADAgent: opponent model and learning model

    A shallow embedding of [agents/ada_agent/opponent_model.py] and
    [agents/ada_agent/learning_model.py].

    - Python [float] is IEEE-754 binary64 with round-to-nearest-even, which
      is exactly Rocq's primitive [float]; [x / y] additionally raises
      [ZeroDivisionError] when [y == 0]. Every arithmetic fact below is
      proved about binary64, through the specification [SpecFloat] of the
      primitive operations.
    - A Python [dict] whose iteration order matters (the issue table and
      the value weights, both summed or scanned in insertion order) is an
      association list; the Q-table, only read and written by key, is a
      [gmap].
    - Methods that mutate [self] and may raise midway are state
      transformers returning a [Result] together with the state reached.
    - [get_time(self.progress)] is defined in [agents/ada_agent/utils.py];
      the time fraction it returns is the parameter [t] of the methods
      that read it.
    - The geniusweb types ([Bid], [Domain], [Value]) and Python's file and
      pickle operations are external; they are modelled by the behaviour
      the two classes rely on. *)

From Stdlib Require Import ZArith Floats Lia Ascii.
From stdpp Require Import gmap strings list.

#[local] Set Warnings "-inexact-float".
#[local] Open Scope float_scope.

(** ** Python runtime *)

(** The exception classes the two modules can raise, all built-in; any
    other class is named by [OtherError]. *)
Inductive PyExc : Type :=
  | KeyError
  | ValueError
  | IndexError
  | AttributeError
  | ZeroDivisionError
  | FileNotFoundError
  | IsADirectoryError
  | NotADirectoryError
  | UnpicklingError
  | EOFError
  | OtherError (class_name : string).

Inductive Result (A : Type) : Type :=
  | Ok (a : A)
  | Raise (e : PyExc).
Arguments Ok {A} a.
Arguments Raise {A} e.

(** A method body: reads and writes the state [St], returns or raises.
    The state reached is kept when an exception propagates. *)
Definition Py (St A : Type) : Type := St -> Result A * St.

Definition py_ret {St A} (a : A) : Py St A := fun s => (Ok a, s).
Definition py_raise {St A} (e : PyExc) : Py St A := fun s => (Raise e, s).
Definition py_lift {St A} (r : Result A) : Py St A := fun s => (r, s).
Definition py_bind {St A B} (c : Py St A) (k : A -> Py St B) : Py St B :=
  fun s =>
    match c s with
    | (Ok a, s') => k a s'
    | (Raise e, s') => (Raise e, s')
    end.
Definition py_get {St} : Py St St := fun s => (Ok s, s).
Definition py_modify {St} (f : St -> St) : Py St unit := fun s => (Ok tt, f s).

Declare Scope py_scope.
Delimit Scope py_scope with py.
Notation "x <- c ;; k" := (py_bind c (fun x => k))
  (at level 100, c at next level, right associativity) : py_scope.
Notation "c ;;; k" := (py_bind c (fun _ => k))
  (at level 100, right associativity) : py_scope.

(** [x / y] on floats. *)
Definition py_truediv (x y : float) : Result float :=
  if y =? 0 then Raise ZeroDivisionError else Ok (x / y).

(** [max(iterable)]: the first item, replaced by each later item that
    compares greater; [ValueError] on an empty iterable. *)
Definition py_max_step (best item : float) : float :=
  if best <? item then item else best.

Definition py_max (items : list float) : Result float :=
  match items with
  | [] => Raise ValueError
  | first :: rest => Ok (fold_left py_max_step rest first)
  end.

(** [math.isfinite(x)]: neither an infinity nor a NaN. *)
Definition isfinite (x : float) : bool :=
  match Prim2SF x with
  | S754_zero _ | S754_finite _ _ _ => true
  | S754_infinity _ | S754_nan => false
  end.

(** [list[i]] at index 0. *)
Definition py_first {A} (l : list A) : Result A :=
  match l with
  | [] => Raise IndexError
  | x :: _ => Ok x
  end.

(** Insertion-ordered dictionaries. *)
Section Dict.
Context {K V : Type} `{EqDecision K}.

Definition dict : Type := list (K * V).

Fixpoint dict_get (d : dict) (k : K) : option V :=
  match d with
  | [] => None
  | (k', v) :: rest => if decide (k = k') then Some v else dict_get rest k
  end.

(** [d[k] = v]: an existing key keeps its position. *)
Fixpoint dict_set (d : dict) (k : K) (v : V) : dict :=
  match d with
  | [] => [(k, v)]
  | (k', v') :: rest =>
      if decide (k = k') then (k', v) :: rest else (k', v') :: dict_set rest k v
  end.

(** [d[k]] as an expression. *)
Definition dict_getitem (d : dict) (k : K) : Result V :=
  match dict_get d k with
  | Some v => Ok v
  | None => Raise KeyError
  end.

(** [for k, v in d.items(): body], where the body may update the local
    accumulator, mutate the value object in place, or raise (which ends
    the loop with the entries visited so far already mutated). *)
Fixpoint dict_for {A} (body : K -> V -> A -> Result A * V) (d : dict) (acc : A)
  : Result A * dict :=
  match d with
  | [] => (Ok acc, [])
  | (k, v) :: rest =>
      match body k v acc with
      | (Raise e, v') => (Raise e, (k, v') :: rest)
      | (Ok acc', v') =>
          let '(r, rest') := dict_for body rest acc' in
          (r, (k, v') :: rest')
      end
  end.
End Dict.
Arguments dict : clear implicits.

(** ** The negotiation domain (external collaborators) *)

Section Model.
(** Modelled from the spec: geniusweb's [Value] is an opaque, comparable
    and hashable domain value. *)
Context {Value : Type} `{Countable Value}.

(** Modelled from the spec: geniusweb's [Bid] is an immutable mapping
    from issue name to value with a value accessor by issue name;
    [getValue] answers [None] for an issue the bid does not mention. *)
Definition Bid : Type := gmap string Value.
Definition getValue (bid : Bid) (issue : string) : option Value := bid !! issue.

(** Modelled from the spec: geniusweb's [Domain] enumerates its issue
    names in a stable order, each with an enumerable discrete value set;
    [getValues] indexes the underlying dictionary. *)
Definition Domain : Type := dict string (list Value).
Definition getIssuesValues (domain : Domain) : dict string (list Value) := domain.
Definition getIssues (domain : Domain) : list string := domain.*1.
Definition getValues (domain : Domain) (issue : string) : Result (list Value) :=
  dict_getitem domain issue.

(** ** class Issue *)

Record Issue : Type := mkIssue {
  weight : float;
  value_weights : dict Value float
}.

Definition set_weight (w : float) (i : Issue) : Issue :=
  mkIssue w (value_weights i).
Definition set_value_weights (vw : dict Value float) (i : Issue) : Issue :=
  mkIssue (weight i) vw.

(** [Issue.__init__]: [weight] is the class default 1.0. *)
Definition Issue_init (values : list Value) : Issue :=
  mkIssue 1.0 (fold_left (fun d value => dict_set d value (0.0 + 1e-10)) values []).

(** [Issue.update]. *)
Definition Issue_update (value : option Value) : Py Issue unit :=
  match value with
  | None => py_ret tt
  | Some v =>
      (self <- py_get ;;
       old <- py_lift (dict_getitem (value_weights self) v) ;;
       py_modify (set_value_weights (dict_set (value_weights self) v (old + 1.0))))%py
  end.

(** [Issue.get_utility]. *)
Definition Issue_get_utility (self : Issue) (value : option Value) : Result float :=
  match value with
  | None => Ok 0.0
  | Some v =>
      match dict_getitem (value_weights self) v with
      | Ok vw => Ok (weight self * vw)
      | Raise e => Raise e
      end
  end.

(** ** class OpponentModel *)

(** Q-learning state: the bid's values on "price" and "quantity". *)
Definition QState : Type := option Value * option Value.
Definition QKey : Type := QState * option Value.

Record OpponentModel : Type := mkOpponentModel {
  domain : Domain;
  alpha : float;
  gamma : float;
  offers : list Bid;
  issues : dict string Issue;
  q_table : gmap QKey float
}.

Definition set_offers (o : list Bid) (m : OpponentModel) : OpponentModel :=
  mkOpponentModel (domain m) (alpha m) (gamma m) o (issues m) (q_table m).
Definition set_issues (i : dict string Issue) (m : OpponentModel) : OpponentModel :=
  mkOpponentModel (domain m) (alpha m) (gamma m) (offers m) i (q_table m).
Definition set_q_table (q : gmap QKey float) (m : OpponentModel) : OpponentModel :=
  mkOpponentModel (domain m) (alpha m) (gamma m) (offers m) (issues m) q.

(** [for issue_name, issue_obj in self.issues.items(): body]. *)
Definition for_issues {A} (body : string -> Issue -> A -> Result A * Issue) (acc : A)
  : Py OpponentModel A :=
  fun self =>
    let '(r, issues') := dict_for body (issues self) acc in
    (r, set_issues issues' self).

(** [normalize], inner loop:
    [issue_obj.value_weights[value_name] /= max_val]. *)
Definition normalize_value_weight (max_val : float)
  (_ : Value) (w : float) (_ : unit) : Result unit * float :=
  match py_truediv w max_val with
  | Ok w' => (Ok tt, w')
  | Raise e => (Raise e, w)
  end.

(** [normalize], body of the first loop. *)
Definition normalize_values (_ : string) (issue_obj : Issue) (total_issue_weight : float)
  : Result float * Issue :=
  let total_issue_weight := total_issue_weight + weight issue_obj in
  match py_max (value_weights issue_obj).*2 with
  | Raise e => (Raise e, issue_obj)
  | Ok max_val =>
      match dict_for (normalize_value_weight max_val) (value_weights issue_obj) tt with
      | (Ok _, vw) => (Ok total_issue_weight, set_value_weights vw issue_obj)
      | (Raise e, vw) => (Raise e, set_value_weights vw issue_obj)
      end
  end.

(** [normalize], body of the second loop:
    [issue_obj.weight /= total_issue_weight]. *)
Definition normalize_issue_weight (total_issue_weight : float)
  (_ : string) (issue_obj : Issue) (_ : unit) : Result unit * Issue :=
  match py_truediv (weight issue_obj) total_issue_weight with
  | Ok w => (Ok tt, set_weight w issue_obj)
  | Raise e => (Raise e, issue_obj)
  end.

Definition normalize : Py OpponentModel unit :=
  (total_issue_weight <- for_issues normalize_values 0.0 ;;
   for_issues (normalize_issue_weight total_issue_weight) tt)%py.

(** [OpponentModel.__init__]; [alpha] and [gamma] default to 0.1 and
    0.9 at the call site. An exception leaves no object behind. *)
Definition OpponentModel_init (domain : Domain) (alpha gamma : float)
  : Result OpponentModel :=
  let issues :=
    fold_left (fun d '(issue, values) => dict_set d issue (Issue_init values))
              (getIssuesValues domain) [] in
  let self := mkOpponentModel domain alpha gamma [] issues ∅ in
  match normalize self with
  | (Ok _, self) => Ok (set_q_table ∅ self)
  | (Raise e, _) => Raise e
  end.

(** [update_issue_weights]; [t] is what [get_time(self.progress)]
    returns during the call. The loop body compares
    [last_two_bids[0]] and [last_two_bids[1]] on the issue. *)
Definition update_issue_weight (alpha t : float) (last_two_bids : list Bid)
  (issue_name : string) (issue_obj : Issue) (_ : unit) : Result unit * Issue :=
  match last_two_bids !! 0%nat, last_two_bids !! 1%nat with
  | Some b0, Some b1 =>
      if decide (getValue b0 issue_name = getValue b1 issue_name)
      then (Ok tt, set_weight (weight issue_obj + alpha * (1.0 - t * 3)) issue_obj)
      else (Ok tt, issue_obj)
  | _, _ => (Raise IndexError, issue_obj)
  end.

(** [l[-2:]]. *)
Definition py_last_two {A} (l : list A) : list A := drop (length l - 2) l.

Definition update_issue_weights (t : float) : Py OpponentModel unit :=
  (self <- py_get ;;
   if decide (length (offers self) < 2)%nat then py_ret tt
   else
     let last_two_bids := py_last_two (offers self) in
     for_issues (update_issue_weight (alpha self) t last_two_bids) tt)%py.

(** [get_state_representation]. *)
Definition get_state_representation (bid : option Bid) : Result QState :=
  match bid with
  | None => Raise AttributeError
  | Some bid => Ok (getValue bid "price", getValue bid "quantity")
  end.

(** [bid.getValue(list(self.domain.getIssues())[0]) if bid else None]:
    a bid object is always truthy. *)
Definition first_issue_value (domain : Domain) (bid : option Bid)
  : Result (option Value) :=
  match bid with
  | None => Ok None
  | Some bid =>
      match py_first (getIssues domain) with
      | Ok issue => Ok (getValue bid issue)
      | Raise e => Raise e
      end
  end.

(** [self.q_table.get(key, 0.0)]. *)
Definition q_get (q : gmap QKey float) (key : QKey) : float := default 0.0 (q !! key).

Definition q_learning_update (prev_bid curr_bid : option Bid)
  (reward learning_rate discount_factor : float) : Py OpponentModel unit :=
  (self <- py_get ;;
   prev_state <- py_lift (get_state_representation prev_bid) ;;
   prev_action <- py_lift (first_issue_value (domain self) prev_bid) ;;
   curr_state <- py_lift (get_state_representation curr_bid) ;;
   curr_action <- py_lift (first_issue_value (domain self) curr_bid) ;;
   let prev_q_value := q_get (q_table self) (prev_state, prev_action) in
   issue_name <- py_lift (py_first (getIssues (domain self))) ;;
   values <- py_lift (getValues (domain self) issue_name) ;;
   max_q_value <-
     py_lift (py_max (map (fun a => q_get (q_table self) (curr_state, Some a)) values)) ;;
   let new_q_value :=
     (1 - learning_rate) * prev_q_value
     + learning_rate * (reward + discount_factor * max_q_value) in
   py_modify (set_q_table (<[(prev_state, prev_action) := new_q_value]> (q_table self))))%py.

(** [update]. *)
Definition update (t : float) (prev_bid curr_bid : option Bid)
  (reward learning_rate discount_factor : float) : Py OpponentModel unit :=
  match prev_bid, curr_bid with
  | Some _, Some curr =>
      (py_modify (fun self => set_offers (offers self ++ [curr]) self) ;;;
       update_issue_weights t ;;;
       q_learning_update prev_bid curr_bid reward learning_rate discount_factor)%py
  | _, _ => py_ret tt
  end.

(** [get_utility]. *)
Definition add_issue_utility (bid : Bid)
  (issue_name : string) (issue_obj : Issue) (total : float) : Result float * Issue :=
  match Issue_get_utility issue_obj (getValue bid issue_name) with
  | Ok u => (Ok (total + u), issue_obj)
  | Raise e => (Raise e, issue_obj)
  end.

Definition get_utility (bid : option Bid) : Py OpponentModel float :=
  match bid with
  | None => py_ret 0.0
  | Some bid => for_issues (add_issue_utility bid) 0.0
  end.

(** ** Quantities the properties speak of *)

(** The maximum [normalize] computes for an issue; 0.0 stands in when
    the mapping is empty and [max] raises. *)
Definition max_value_weight (issue_obj : Issue) : float :=
  match py_max (value_weights issue_obj).*2 with
  | Ok max_val => max_val
  | Raise _ => 0.0
  end.

(** The sum [normalize] accumulates: the issue weights added in issue
    order, starting from 0.0. *)
Definition sum_issue_weights (table : dict string Issue) : float :=
  fold_left (fun total '(_, issue_obj) => total + weight issue_obj) table 0.0.

(** An issue record after a successful [normalize]. *)
Definition normalized_issue (total_issue_weight : float) (issue_obj : Issue) : Issue :=
  mkIssue (weight issue_obj / total_issue_weight)
          (map (fun '(value, w) => (value, w / max_value_weight issue_obj))
               (value_weights issue_obj)).

(** Every value weight of every issue is exactly 1.0. *)
Definition unit_value_weights (table : dict string Issue) : Prop :=
  Forall (fun '(_, issue_obj) =>
            Forall (fun '(_, w) => w = 1.0) (value_weights issue_obj))
         table.

(** Every issue record belongs to an issue of the domain and holds a
    weight for each value the domain declares for it. *)
Definition declared_values_weighted (domain : Domain) (table : dict string Issue) : Prop :=
  Forall (fun '(issue_name, issue_obj) =>
            exists values,
              (issue_name, values) ∈ domain /\
              forall v, v ∈ values -> v ∈ (value_weights issue_obj).*1)
         table.

(** The bid gives every issue of the domain one of its declared values. *)
Definition assigns_declared_values (domain : Domain) (bid : Bid) : Prop :=
  forall issue_name values,
    (issue_name, values) ∈ domain ->
    exists v, getValue bid issue_name = Some v /\ v ∈ values.

(** What holds of a model from the end of its constructor onward. *)
Definition constructed (self : OpponentModel) : Prop :=
  unit_value_weights (issues self) /\
  declared_values_weighted (domain self) (issues self).
End Model.

(** ** class LearningModel, with the file system it persists to

    Python's [open], [os.path.exists] and [pickle] act on a disk that is
    a finite map from path strings to nodes; a file can be created only
    in a directory that exists, and [pickle.load] gives back the object
    [pickle.dump] wrote. The disk knows a file by the one path string
    used for it; a file name that the operating system accepts and a
    mapping that [pickle] can serialise are taken for granted, so what a
    call of [save_data] leaves on disk is stated, in the properties below,
    from the call having returned. *)

(** The directory part of a path that contains a slash: the text before
    the last one. *)
Fixpoint rsplit_slash (path : string) : option (string * string) :=
  match path with
  | EmptyString => None
  | String c rest =>
      match rsplit_slash rest with
      | Some (head, tail) => Some (String c head, tail)
      | None => if Ascii.eqb c "/"%char then Some (EmptyString, rest) else None
      end
  end.

Definition dirname (path : string) : string :=
  match rsplit_slash path with
  | Some (head, _) => head
  | None => EmptyString
  end.

(** [f"{storage_dir}/{opponent_agent}_data.pkl"]. *)
Definition snapshot_path (storage_dir opponent_agent : string) : string :=
  storage_dir +:+ "/" +:+ opponent_agent +:+ "_data.pkl".

Section Learning.
(** Modelled from the spec: a LearnedData mapping is an opaque mapping
    of session-derived facts; what it holds is never inspected. *)
Context {Value PyObject : Type}.

Definition LearnedData : Type := gmap string PyObject.

(** A file holds the pickle stream of some mapping, or bytes that
    [pickle.load] rejects with the exception given: none at all, which it
    rejects with [EOFError], right after [open(path, "wb")] truncated the
    file. A stream that unpickles to something other than a mapping is
    outside this model. *)
Inductive Blob : Type :=
  | PickleOf (obj : LearnedData)
  | OtherBytes (rejected_with : PyExc).

Inductive Node : Type :=
  | RegularFile (content : Blob)
  | Directory.

(** Path strings name nodes literally. *)
Definition FileSystem : Type := gmap string Node.

Record LearningModel : Type := mkLearningModel {
  received_bids : list (@Bid Value);
  my_bids : list (option (@Bid Value));
  data : LearnedData
}.

Definition set_data (d : LearnedData) (m : LearningModel) : LearningModel :=
  mkLearningModel (received_bids m) (my_bids m) d.

(** The object and the disk it runs against. *)
Record World : Type := mkWorld {
  self_of : LearningModel;
  fs_of : FileSystem
}.

Definition on_self (f : LearningModel -> LearningModel) : Py World unit :=
  py_modify (fun w => mkWorld (f (self_of w)) (fs_of w)).
Definition on_fs {A} (c : Py FileSystem A) : Py World A :=
  fun w => let '(r, fs') := c (fs_of w) in (r, mkWorld (self_of w) fs').

(** [os.path.exists(path)]. *)
Definition os_path_exists (path : string) : Py FileSystem bool :=
  fun fs => (Ok (bool_decide (is_Some (fs !! path))), fs).

(** [open(path, "wb")]: creates the file, or truncates it, when the
    directory that is to hold it exists. *)
Definition open_wb (path : string) : Py FileSystem unit :=
  fun fs =>
    match fs !! path with
    | Some Directory => (Raise IsADirectoryError, fs)
    | Some (RegularFile _) => (Ok tt, <[path := RegularFile (OtherBytes EOFError)]> fs)
    | None =>
        match fs !! dirname path with
        | Some Directory => (Ok tt, <[path := RegularFile (OtherBytes EOFError)]> fs)
        | Some (RegularFile _) => (Raise NotADirectoryError, fs)
        | None => (Raise FileNotFoundError, fs)
        end
    end.

(** [open(path, "rb")] and reading the whole stream. *)
Definition open_rb (path : string) : Py FileSystem Blob :=
  fun fs =>
    match fs !! path with
    | Some (RegularFile content) => (Ok content, fs)
    | Some Directory => (Raise IsADirectoryError, fs)
    | None => (Raise FileNotFoundError, fs)
    end.

(** [pickle.dump(obj, f)] on the file opened at [path]. *)
Definition pickle_dump (obj : LearnedData) (path : string) : Py FileSystem unit :=
  py_modify (fun fs => <[path := RegularFile (PickleOf obj)]> fs).

(** [pickle.load(f)]. *)
Definition pickle_load (content : Blob) : Result LearnedData :=
  match content with
  | PickleOf obj => Ok obj
  | OtherBytes rejected_with => Raise rejected_with
  end.

(** [receive_bid]. *)
Definition receive_bid (curr_bid : option (@Bid Value)) : Py World unit :=
  match curr_bid with
  | Some b =>
      on_self (fun m => mkLearningModel (received_bids m ++ [b]) (my_bids m) (data m))
  | None => py_ret tt
  end.

(** [save_bid]. *)
Definition save_bid (bid : option (@Bid Value)) : Py World unit :=
  on_self (fun m => mkLearningModel (received_bids m) (my_bids m ++ [bid]) (data m)).

(** [save_data]. *)
Definition save_data (storage_dir opponent_agent : option string) : Py World unit :=
  match opponent_agent, storage_dir with
  | Some opponent_agent, Some storage_dir =>
      let path := snapshot_path storage_dir opponent_agent in
      (on_fs (open_wb path) ;;;
       w <- py_get ;;
       on_fs (pickle_dump (data (self_of w)) path))%py
  | _, _ => py_ret tt
  end.

(** [load_data]. *)
Definition load_data (storage_dir opponent_agent : option string)
  : Py World LearnedData :=
  (on_self (set_data ∅) ;;;
   match storage_dir, opponent_agent with
   | Some storage_dir, Some opponent_agent =>
       let path := snapshot_path storage_dir opponent_agent in
       (found <- on_fs (os_path_exists path) ;;
        (if found : bool then
           (content <- on_fs (open_rb path) ;;
            obj <- py_lift (pickle_load content) ;;
            on_self (set_data obj))
         else py_ret tt) ;;;
        w <- py_get ;;
        py_ret (data (self_of w)))
   | _, _ =>
       (w <- py_get ;;
        py_ret (data (self_of w)))
   end)%py.
End Learning.

(** ** Binary64 predicates the properties speak of *)

(** A number that is not above 1: a zero, a negative number, or a
    positive finite one whose canonical form does not exceed that of 1. *)
Definition at_most_one (x : spec_float) : Prop :=
  match x with
  | S754_zero _ => True
  | S754_finite s m e =>
      s = true \/ (e < -52)%Z \/ ((e = -52)%Z /\ (m <= 4503599627370496)%positive)
  | S754_infinity s => s = true
  | S754_nan => False
  end.

(** A positive number: finite and above zero, or [+infinity]. *)
Definition is_positive (x : spec_float) : Prop :=
  match x with
  | S754_finite false _ _ | S754_infinity false => True
  | _ => False
  end.

(** ** Scenarios

    The domain of the specification's examples, with integer values. *)

Definition trade_domain : @Domain Z :=
  [("price", [10; 20; 30]%Z); ("quantity", [1; 2; 3]%Z)].

Definition bid_20_2 : @Bid Z := {[ "price" := 20%Z; "quantity" := 2%Z ]}.
Definition bid_10_1 : @Bid Z := {[ "price" := 10%Z; "quantity" := 1%Z ]}.
Definition bid_30_2 : @Bid Z := {[ "price" := 30%Z; "quantity" := 2%Z ]}.

(** The model the constructor builds on that domain with the default
    [alpha] and [gamma]: both issue weights 0.5, all value weights 1.0. *)
Definition fresh_model : @OpponentModel Z _ _ :=
  mkOpponentModel trade_domain 0.1 0.9 []
    [("price", mkIssue 0.5 [(10%Z, 1.0); (20%Z, 1.0); (30%Z, 1.0)]);
     ("quantity", mkIssue 0.5 [(1%Z, 1.0); (2%Z, 1.0); (3%Z, 1.0)])]
    ∅.

(** The same model after two offers were logged and one Q-entry learnt. *)
Definition trained_model : @OpponentModel Z _ _ :=
  mkOpponentModel trade_domain 0.1 0.9 [bid_20_2; bid_30_2]
    [("price", mkIssue 0.5 [(10%Z, 1.0); (20%Z, 1.0); (30%Z, 1.0)]);
     ("quantity", mkIssue 0.5 [(1%Z, 1.0); (2%Z, 1.0); (3%Z, 1.0)])]
    {[ ((Some 20%Z, Some 2%Z), Some 30%Z) := 0.25 ]}.

(** A bid whose price the domain does not declare. *)
Definition bid_40_2 : @Bid Z := {[ "price" := 40%Z; "quantity" := 2%Z ]}.

(** A model built with [alpha = 0.25] that received the same offer twice
    at the deadline ([t = 1.0]): each issue weight went from 0.5 to
    [0.5 + 0.25 * (1.0 - 1.0 * 3)], which is 0.0. *)
Definition stalled_model : @OpponentModel Z _ _ :=
  mkOpponentModel trade_domain 0.25 0.9 [bid_20_2; bid_20_2]
    [("price", mkIssue 0.0 [(10%Z, 1.0); (20%Z, 1.0); (30%Z, 1.0)]);
     ("quantity", mkIssue 0.0 [(1%Z, 1.0); (2%Z, 1.0); (3%Z, 1.0)])]
    {[ ((Some 20%Z, Some 2%Z), Some 20%Z) := 0.0 ]}.

(** A model whose Q-entry for the offer (20, 2) overflowed to infinity
    after two updates with reward 1e308, learning rate 1.0 and discount
    0.9. *)
Definition saturated_model : @OpponentModel Z _ _ :=
  mkOpponentModel trade_domain 0.1 0.9 [bid_20_2; bid_20_2]
    [("price", mkIssue (0.5 + 0.1 * (1.0 - 0.5 * 3))
                       [(10%Z, 1.0); (20%Z, 1.0); (30%Z, 1.0)]);
     ("quantity", mkIssue (0.5 + 0.1 * (1.0 - 0.5 * 3))
                          [(1%Z, 1.0); (2%Z, 1.0); (3%Z, 1.0)])]
    {[ ((Some 20%Z, Some 2%Z), Some 20%Z) := infinity ]}.

(** A learning model holding one learned fact, on a disk where the
    storage directory exists, and on an empty disk. *)
Definition learned_facts : @LearnedData Z := {[ "agreements" := 3%Z ]}.

Definition stored_world : @World Z Z :=
  mkWorld (mkLearningModel [] [] learned_facts) {[ "/srv/store" := Directory ]}.

Definition bare_world : @World Z Z :=
  mkWorld (mkLearningModel [] [] learned_facts) ∅.

(** ** A negotiation session, as the two models see it *)

Section Updates.
Context {Value : Type} `{Countable Value}.

(** One call of [update], with the time [get_time] reports during it. *)
Record UpdateCall : Type := mkUpdateCall {
  call_time : float;
  call_prev_bid : option (@Bid Value);
  call_curr_bid : option (@Bid Value);
  call_reward : float;
  call_learning_rate : float;
  call_discount_factor : float
}.

(** The calls of a session in order; a call that raises keeps what it
    changed before raising, and the session goes on. *)
Definition run_updates (calls : list UpdateCall) (self : @OpponentModel Value _ _)
  : @OpponentModel Value _ _ :=
  fold_left
    (fun self call =>
       (update (call_time call) (call_prev_bid call) (call_curr_bid call)
               (call_reward call) (call_learning_rate call) (call_discount_factor call)
               self).2)
    calls self.
End Updates.

Section Session.
Context {Value PyObject : Type}.

(** [LearningModel.__init__]: empty logs and an empty data mapping; the
    [profile] and [progress] it also keeps are read by none of the methods
    embedded here. *)
Definition LearningModel_init : @LearningModel Value PyObject :=
  mkLearningModel [] [] ∅.

(** The calls a session makes on the model between loading and saving. *)
Inductive Call : Type :=
  | ReceiveBid (curr_bid : option (@Bid Value))
  | SaveBid (bid : option (@Bid Value)).

Definition run_call (call : Call) : Py (@World Value PyObject) unit :=
  match call with
  | ReceiveBid curr_bid => receive_bid curr_bid
  | SaveBid bid => save_bid bid
  end.

(** The calls of a session in order. *)
Definition session (calls : list Call) (w : @World Value PyObject) : @World Value PyObject :=
  fold_left (fun w call => (run_call call w).2) calls w.
End Session.

(** ** Further scenarios *)

(** A domain with a third issue, and two bids that differ on it only. *)
Definition shipping_domain : @Domain Z :=
  [("price", [10; 20]%Z); ("quantity", [1; 2]%Z); ("delivery", [1; 7]%Z)].

Definition bid_10_1_fast : @Bid Z :=
  {[ "price" := 10%Z; "quantity" := 1%Z; "delivery" := 1%Z ]}.
Definition bid_10_1_slow : @Bid Z :=
  {[ "price" := 10%Z; "quantity" := 1%Z; "delivery" := 7%Z ]}.
Definition bid_20_2_fast : @Bid Z :=
  {[ "price" := 20%Z; "quantity" := 2%Z; "delivery" := 1%Z ]}.

Definition shipping_model : @OpponentModel Z _ _ :=
  mkOpponentModel shipping_domain 0.1 0.9 []
    [("price", mkIssue (1.0 / (0.0 + 1.0 + 1.0 + 1.0)) [(10%Z, 1.0); (20%Z, 1.0)]);
     ("quantity", mkIssue (1.0 / (0.0 + 1.0 + 1.0 + 1.0)) [(1%Z, 1.0); (2%Z, 1.0)]);
     ("delivery", mkIssue (1.0 / (0.0 + 1.0 + 1.0 + 1.0)) [(1%Z, 1.0); (7%Z, 1.0)])]
    ∅.

(** The model the constructor builds on a domain without issues. *)
Definition empty_model : @OpponentModel Z _ _ := mkOpponentModel [] 0.1 0.9 [] [] ∅.

(** A domain whose second issue declares no value. *)
Definition hollow_domain : @Domain Z := [("price", [10; 20]%Z); ("quantity", [])].

(** The fresh model after outside code counted offers with [Issue.update]. *)
Definition counted_model : @OpponentModel Z _ _ :=
  mkOpponentModel trade_domain 0.1 0.9 []
    [("price", mkIssue 0.5 [(10%Z, 1.0); (20%Z, 3.0); (30%Z, 2.0)]);
     ("quantity", mkIssue 0.5 [(1%Z, 1.0); (2%Z, 4.0); (3%Z, 1.0)])]
    ∅.

(** The fresh model after two calls of [update] at a tenth of the
    session: from the offer (10, 1) to the offer (20, 2) with reward 0.5,
    then from (20, 2) to (30, 2) with reward 1.0, both with learning rate
    0.5 and discount 0.9. The two offers logged agree on the quantity. *)
Definition learned_model : @OpponentModel Z _ _ :=
  mkOpponentModel trade_domain 0.1 0.9 [bid_20_2; bid_30_2]
    [("price", mkIssue 0.5 [(10%Z, 1.0); (20%Z, 1.0); (30%Z, 1.0)]);
     ("quantity", mkIssue (0.5 + 0.1 * (1.0 - 0.1 * 3))
                          [(1%Z, 1.0); (2%Z, 1.0); (3%Z, 1.0)])]
    {[ ((Some 10%Z, Some 1%Z), Some 10%Z) := 0.25;
       ((Some 20%Z, Some 2%Z), Some 20%Z) := 0.5 ]}.

(** The counted model once both issue weights have been driven to 0.0,
    as in the stalled model. *)
Definition spent_model : @OpponentModel Z _ _ :=
  mkOpponentModel trade_domain 0.25 0.9 [bid_20_2; bid_20_2]
    [("price", mkIssue 0.0 [(10%Z, 1.0); (20%Z, 3.0); (30%Z, 2.0)]);
     ("quantity", mkIssue 0.0 [(1%Z, 1.0); (2%Z, 4.0); (3%Z, 1.0)])]
    {[ ((Some 20%Z, Some 2%Z), Some 20%Z) := 0.0 ]}.

(** A disk where a directory sits at the snapshot path itself. *)
Definition blocked_world : @World Z Z :=
  mkWorld (mkLearningModel [] [] learned_facts)
          {[ "/srv/store" := Directory; "/srv/store/bob_data.pkl" := Directory ]}.

(** A disk that already holds a snapshot for the opponent "bob". *)
Definition visited_world : @World Z Z :=
  mkWorld (mkLearningModel [] [] ∅)
          {[ "/srv/store" := Directory;
             "/srv/store/bob_data.pkl" := RegularFile (PickleOf learned_facts) ]}.

(** A learning model fresh from its constructor, on a disk where the
    storage directory exists. *)
Definition new_world : @World Z Z :=
  mkWorld LearningModel_init {[ "/srv/store" := Directory ]}.

(** * Properties *)

(** ** Loops over dictionaries *)

Section DictFacts.
Context {K V : Type} `{EqDecision K}.

(** A loop never adds, drops or reorders keys. *)
Lemma dict_for_keys {A} (body : K -> V -> A -> Result A * V) (d : dict K V) (acc : A) :
  (dict_for body d acc).2.*1 = d.*1.
Proof.
  revert acc. induction d as [|[k v] rest IH]; intros acc; simpl; [done|].
  destruct (body k v acc) as [[acc'|e] v']; simpl; [|done].
  specialize (IH acc'). destruct (dict_for body rest acc') as [r rest'].
  simpl in *. by f_equal.
Qed.

(** A body that never raises runs to the end: the values are mapped
    and the accumulator is folded, both in dictionary order. *)
Lemma dict_for_total {A} (body : K -> V -> A -> Result A * V)
    (step : A -> K * V -> A) (change : K * V -> K * V) (d : dict K V) (acc : A) :
  (forall k v a, body k v a = (Ok (step a (k, v)), (change (k, v)).2)) ->
  (forall k v, (change (k, v)).1 = k) ->
  dict_for body d acc = (Ok (fold_left step d acc), map change d).
Proof.
  intros Hbody Hkey. revert acc.
  induction d as [|[k v] rest IH]; intros acc; simpl; [done|].
  rewrite Hbody, IH. specialize (Hkey k v).
  destruct (change (k, v)) as [k' v']; simpl in *. by subst.
Qed.

(** A body that only reads leaves the dictionary as it was, whether
    the loop ends or raises. *)
Lemma dict_for_read_only {A} (body : K -> V -> A -> Result A * V) (d : dict K V) (acc : A) :
  (forall k v a, (body k v a).2 = v) ->
  (dict_for body d acc).2 = d.
Proof.
  intros Hbody. revert acc.
  induction d as [|[k v] rest IH]; intros acc; simpl; [done|].
  specialize (Hbody k v acc).
  destruct (body k v acc) as [[acc'|e] v']; simpl in *; subst; [|done].
  specialize (IH acc'). destruct (dict_for body rest acc'). simpl in *. by subst.
Qed.

Lemma dict_get_Some_elem_of (d : dict K V) (k : K) (v : V) :
  dict_get d k = Some v -> (k, v) ∈ d.
Proof.
  induction d as [|[k' v'] rest IH]; simpl; [done|].
  case_decide; intros Hg.
  - injection Hg as ->. subst. left.
  - right. by apply IH.
Qed.
(** A property of the values that every step of the body keeps is kept
    by the loop, whether it ends or raises. *)
Lemma dict_for_Forall {A} (P : K * V -> Prop)
    (body : K -> V -> A -> Result A * V) (d : dict K V) (acc : A) :
  (forall k v a, P (k, v) -> P (k, (body k v a).2)) ->
  Forall P d -> Forall P (dict_for body d acc).2.
Proof.
  intros Hbody. revert acc.
  induction d as [|[k v] rest IH]; intros acc Hall; simpl; [done|].
  apply Forall_cons in Hall as [Hv Hrest].
  specialize (Hbody k v acc Hv).
  destruct (body k v acc) as [[acc'|e] v']; simpl in *.
  - specialize (IH acc' Hrest). destruct (dict_for body rest acc'). by constructor.
  - by constructor.
Qed.

(** A loop that ran to its end established, on every value, what one
    successful step of the body establishes. *)
Lemma dict_for_Forall_ok {A} (P Q : K * V -> Prop)
    (body : K -> V -> A -> Result A * V) (d d' : dict K V) (acc r : A) :
  (forall k v a a' v', P (k, v) -> body k v a = (Ok a', v') -> Q (k, v')) ->
  Forall P d -> dict_for body d acc = (Ok r, d') -> Forall Q d'.
Proof.
  intros Hbody. revert acc d'.
  induction d as [|[k v] rest IH]; intros acc d' Hall; simpl.
  { intros [= _ <-]. constructor. }
  apply Forall_cons in Hall as [Hv Hrest].
  destruct (body k v acc) as [[acc'|e] v'] eqn:Hstep; [|done].
  destruct (dict_for body rest acc') as [r' rest'] eqn:Hloop.
  intros [= -> <-]. constructor; [by eapply Hbody|by eapply IH].
Qed.

(** A loop that ran to its end took a successful step on every entry. *)
Lemma dict_for_ok_steps {A} (body : K -> V -> A -> Result A * V)
    (d d' : dict K V) (acc r : A) :
  dict_for body d acc = (Ok r, d') ->
  Forall (fun entry => exists a a' v', body entry.1 entry.2 a = (Ok a', v')) d.
Proof.
  revert acc d'. induction d as [|[k v] rest IH]; intros acc d'; simpl; [done|].
  destruct (body k v acc) as [[acc'|e] v'] eqn:Hstep; [|done].
  destruct (dict_for body rest acc') as [r' rest'] eqn:Hloop.
  intros [= -> <-]. constructor; [by exists acc, acc', v'|by eapply IH].
Qed.

Lemma dict_set_Forall (P : K * V -> Prop) (d : dict K V) (k : K) (v : V) :
  P (k, v) -> Forall P d -> Forall P (dict_set d k v).
Proof.
  intros Hv. induction d as [|[k' v'] rest IH]; intros Hall; simpl.
  { by constructor. }
  apply Forall_cons in Hall as [Hhead Hrest].
  case_decide; [subst|]; constructor; auto.
Qed.

Lemma dict_set_keys (d : dict K V) (k k' : K) (v : V) :
  k' ∈ (dict_set d k v).*1 <-> k' = k \/ k' ∈ d.*1.
Proof.
  induction d as [|[k0 v0] rest IH]; simpl.
  - rewrite elem_of_cons. split; intros [Hk|Hk]; auto.
  - case_decide; simpl; rewrite !elem_of_cons; [subst; tauto|]. rewrite IH. tauto.
Qed.

Lemma dict_get_elem_of_keys (d : dict K V) (k : K) :
  k ∈ d.*1 -> exists v, dict_get d k = Some v.
Proof.
  induction d as [|[k0 v0] rest IH]; simpl.
  - intros Hin. by apply elem_of_nil in Hin.
  - intros Hin. case_decide; [by eexists|].
    apply elem_of_cons in Hin as [Hin|Hin]; [done|by apply IH].
Qed.
End DictFacts.

(** ** Binary64 arithmetic

    Facts about the primitive operations, each proved on their
    specification over [spec_float]: what is exact (products with 1.0, a
    number divided by itself), the order behind [<?], and how rounding
    bounds a quotient and a sum. *)

Module Binary64.

Section FloatOrder.
(** [SFltb] is a strict order on all of [spec_float]. *)
Lemma SFltb_irrefl (x : spec_float) : SFltb x x = false.
Proof.
  unfold SFltb, SFcompare.
  destruct x as [s|s| |s m e]; try done; destruct s; try done;
    rewrite Z.compare_refl, Pos.compare_cont_refl; done.
Qed.

Lemma SFltb_trans (x y z : spec_float) :
  SFltb x y = true -> SFltb y z = true -> SFltb x z = true.
Proof.
  unfold SFltb, SFcompare.
  destruct x as [sx|sx| |sx mx ex], y as [sy|sy| |sy my ey], z as [sz|sz| |sz mz ez];
    try done; destruct sx, sy, sz; try done;
    repeat match goal with
           | |- context [(?a ?= ?b)%Z] => destruct (Z.compare_spec a b)
           end; try done; try lia; subst;
    rewrite ?Pos.compare_cont_spec; unfold Pos.switch_Eq;
    repeat match goal with
           | |- context [(?a ?= ?b)%positive] => destruct (Pos.compare_spec a b)
           end; simpl; try done; try lia.
Qed.
End FloatOrder.

Section Rounding.
#[local] Open Scope Z_scope.

(** One shift halves a non-negative mantissa. *)
Lemma shr_1_m (r : shr_record) : 0 <= shr_m r -> shr_m (shr_1 r) = shr_m r / 2.
Proof.
  destruct r as [m rb sb]. simpl. intros Hm.
  rewrite <- Z.div2_div.
  destruct m as [|[p|p|]|p]; try done; lia.
Qed.

Lemma shr_1_nonneg (r : shr_record) : 0 <= shr_m r -> 0 <= shr_m (shr_1 r).
Proof. intros Hm. rewrite shr_1_m by done. by apply Z.div_pos. Qed.

(** [p] shifts divide it by [2^p]. *)
Lemma iter_shr_m (p : positive) (r : shr_record) :
  0 <= shr_m r ->
  0 <= shr_m (SpecFloat.iter_pos shr_1 p r) /\
  shr_m (SpecFloat.iter_pos shr_1 p r) = shr_m r / 2 ^ Z.pos p.
Proof.
  revert r. induction p as [p IH|p IH|]; intros r Hr; simpl.
  - destruct (IH (shr_1 r) (shr_1_nonneg r Hr)) as [Hn1 He1].
    destruct (IH _ Hn1) as [Hn2 He2]. split; [done|].
    rewrite He2, He1, shr_1_m by done.
    rewrite !Z.div_div by lia. f_equal.
    rewrite Pos2Z.inj_xI, Z.pow_add_r, Z.pow_mul_r by lia.
    change (2 ^ 2) with 4. change (2 ^ 1) with 2.
    replace (4 ^ Z.pos p) with (2 ^ Z.pos p * 2 ^ Z.pos p); [lia|].
    rewrite <- Z.pow_add_r by lia. replace (Z.pos p + Z.pos p) with (2 * Z.pos p) by lia.
    by rewrite Z.pow_mul_r by lia.
  - destruct (IH r Hr) as [Hn1 He1].
    destruct (IH _ Hn1) as [Hn2 He2]. split; [done|].
    rewrite He2, He1. rewrite Z.div_div by lia. f_equal.
    rewrite Pos2Z.inj_xO. rewrite <- Z.pow_add_r by lia. f_equal. lia.
  - split; [by apply shr_1_nonneg|]. by rewrite shr_1_m.
Qed.

Lemma shr_record_of_loc_m (m : Z) (l : location) : shr_m (shr_record_of_loc m l) = m.
Proof. by destruct l as [|[]]. Qed.

(** Shifting by [n] divides the mantissa by [2^n] and raises the exponent
    by [n]; a non-positive [n] changes nothing. *)
Lemma shr_spec (m e n : Z) (l : location) :
  0 <= m ->
  let '(mrs, e') := shr (shr_record_of_loc m l) e n in
  shr_m mrs = m / 2 ^ Z.max 0 n /\ e' = e + Z.max 0 n.
Proof.
  intros Hm. unfold shr. destruct n as [|p|p].
  - rewrite shr_record_of_loc_m. simpl. rewrite Z.div_1_r. lia.
  - destruct (iter_shr_m p (shr_record_of_loc m l)) as [_ He].
    { by rewrite shr_record_of_loc_m. }
    rewrite He, shr_record_of_loc_m. rewrite Z.max_r by lia. done.
  - rewrite shr_record_of_loc_m. rewrite Z.max_l by lia. simpl. rewrite Z.div_1_r. lia.
Qed.

(** A mantissa of [d] binary digits lies in [[2^(d-1), 2^d)]. *)
Lemma digits2_pos_bounds (m : positive) :
  2 ^ (Z.pos (digits2_pos m) - 1) <= Z.pos m < 2 ^ Z.pos (digits2_pos m).
Proof.
  induction m as [m IH|m IH|]; simpl digits2_pos.
  - rewrite Pos2Z.inj_succ. replace (Z.succ (Z.pos (digits2_pos m)) - 1)
      with (Z.succ (Z.pos (digits2_pos m) - 1)) by lia.
    rewrite !Z.pow_succ_r by lia. lia.
  - rewrite Pos2Z.inj_succ. replace (Z.succ (Z.pos (digits2_pos m)) - 1)
      with (Z.succ (Z.pos (digits2_pos m) - 1)) by lia.
    rewrite !Z.pow_succ_r by lia. lia.
  - simpl. lia.
Qed.

(** A non-negative mantissa below [2^k] has at most [k] digits. *)
Lemma Zdigits2_le (m k : Z) : 0 <= m -> 0 <= k -> m < 2 ^ k -> Zdigits2 m <= k.
Proof.
  intros Hm Hk Hlt. destruct m as [|p|p]; [simpl; lia| |lia].
  simpl. destruct (digits2_pos_bounds p) as [Hlo _].
  destruct (Z_le_gt_dec (Z.pos (digits2_pos p)) k) as [|Hgt]; [done|].
  assert (2 ^ k <= 2 ^ (Z.pos (digits2_pos p) - 1)) by (apply Z.pow_le_mono_r; lia).
  lia.
Qed.
End Rounding.

Section RoundBelowOne.
#[local] Open Scope Z_scope.

(** The exponent binary64 gives a number of magnitude [2^x]. *)
Lemma fexp_unfold (x : Z) : fexp prec emax x = Z.max (x - 53) (-1074).
Proof. reflexivity. Qed.

(** Rounding to nearest keeps the mantissa or adds one. *)
Lemma round_nearest_even_bounds (m : Z) (l : location) :
  m <= round_nearest_even m l <= m + 1.
Proof. destruct l as [|[]]; simpl; try lia. destruct (Z.even m); lia. Qed.

(** Rounding a non-negative mantissa whose value [q * 2^e] is below 1
    yields a zero or a finite number that is at most 1. *)
Lemma binary_round_aux_below_one (s : bool) (q e : Z) (l : location) :
  0 <= q -> e <= -53 -> q < 2 ^ (- e) ->
  match binary_round_aux prec emax s q e l with
  | S754_zero s' => s' = s
  | S754_finite s' m e3 => s' = s /\ (e3 < -52 \/ (e3 = -52 /\ Z.pos m <= 2 ^ 52))
  | _ => False
  end.
Proof.
  intros Hq He Hlt. unfold binary_round_aux, shr_fexp.
  pose proof (Zdigits2_le q (- e) Hq ltac:(lia) Hlt) as Hdq.
  pose proof (shr_spec q e (fexp prec emax (Zdigits2 q + e) - e) l Hq) as Hshr1.
  destruct (shr (shr_record_of_loc q l) e (fexp prec emax (Zdigits2 q + e) - e))
    as [mrs1 e1].
  destruct Hshr1 as [Hm1 He1]. rewrite fexp_unfold in Hm1, He1.
  set (n1 := Z.max 0 (Z.max (Zdigits2 q + e - 53) (-1074) - e)) in *.
  assert (Hn1 : 0 <= n1) by lia.
  assert (He1' : e1 <= -53) by lia.
  assert (Hq1 : 0 <= shr_m mrs1) by (rewrite Hm1; apply Z.div_pos; lia).
  assert (Hq1lt : shr_m mrs1 < 2 ^ (- e1)).
  { rewrite Hm1. apply Z.div_lt_upper_bound; [lia|].
    rewrite <- Z.pow_add_r by lia. by replace (n1 + - e1) with (- e) by lia. }
  pose proof (round_nearest_even_bounds (shr_m mrs1) (loc_of_shr_record mrs1)) as Hrne.
  set (m2 := round_nearest_even (shr_m mrs1) (loc_of_shr_record mrs1)) in *.
  assert (Hm2 : 0 <= m2) by lia.
  assert (Hm2le : m2 <= 2 ^ (- e1)) by lia.
  assert (Hd2 : Zdigits2 m2 <= - e1 + 1).
  { apply Zdigits2_le; [done|lia|]. rewrite Z.pow_add_r by lia. lia. }
  pose proof (shr_spec m2 e1 (fexp prec emax (Zdigits2 m2 + e1) - e1) loc_Exact Hm2) as Hshr2.
  destruct (shr (shr_record_of_loc m2 loc_Exact) e1 (fexp prec emax (Zdigits2 m2 + e1) - e1))
    as [mrs3 e3].
  destruct Hshr2 as [Hm3 He3]. rewrite fexp_unfold in Hm3, He3.
  set (n3 := Z.max 0 (Z.max (Zdigits2 m2 + e1 - 53) (-1074) - e1)) in *.
  assert (Hn3 : 0 <= n3) by lia.
  assert (He3' : e3 <= -52) by lia.
  assert (Hm3le : shr_m mrs3 <= 2 ^ (- e3)).
  { rewrite Hm3. replace (- e3) with (- e1 - n3) by lia.
    rewrite Z.pow_sub_r by lia. apply Z.div_le_mono; [lia|done]. }
  assert (Hm3nn : 0 <= shr_m mrs3) by (rewrite Hm3; apply Z.div_pos; lia).
  destruct (shr_m mrs3) as [|m3|m3]; [done| |lia].
  change (emax - prec) with 971. rewrite (proj2 (Z.leb_le e3 971)) by lia.
  split; [done|].
  destruct (Z.eq_dec e3 (-52)) as [->|Hne]; [|left; lia].
  right. split; [done|]. exact Hm3le.
Qed.
End RoundBelowOne.

Section DivBelowOne.
#[local] Open Scope Z_scope.

(** A valid finite float is in canonical form. *)
Lemma bounded_unfold (m : positive) (e : Z) :
  bounded prec emax m e = true ->
  Z.max (Z.pos (digits2_pos m) + e - 53) (-1074) = e /\ e <= 971.
Proof.
  unfold bounded, canonical_mantissa. rewrite fexp_unfold. intros Hb.
  apply andb_true_iff in Hb as [Hc He].
  apply Z.eqb_eq in Hc. apply Z.leb_le in He. done.
Qed.

(** The quotient of two positive finite numbers, the first smaller than
    the second, rounds to at most 1. *)
Lemma SFdiv_smaller_below_one (s : bool) (mv mm : positive) (ev em : Z) :
  bounded prec emax mv ev = true -> bounded prec emax mm em = true ->
  ev < em \/ (ev = em /\ Z.pos mv < Z.pos mm) ->
  match SFdiv prec emax (S754_finite s mv ev) (S754_finite false mm em) with
  | S754_zero s' => s' = s
  | S754_finite s' m e3 => s' = s /\ (e3 < -52 \/ (e3 = -52 /\ Z.pos m <= 2 ^ 52))
  | _ => False
  end.
Proof.
  intros Hbv Hbm Hlt.
  apply bounded_unfold in Hbv as [Hcv _]. apply bounded_unfold in Hbm as [Hcm _].
  pose proof (digits2_pos_bounds mv) as [Hvlo Hvhi].
  pose proof (digits2_pos_bounds mm) as [Hmlo Hmhi].
  unfold SFdiv, SFdiv_core_binary. rewrite xorb_false_r.
  unfold Zdigits2. rewrite fexp_unfold.
  set (dv := Z.pos (digits2_pos mv)) in *. set (dm := Z.pos (digits2_pos mm)) in *.
  assert (Hdv : 0 < dv) by (unfold dv; lia). assert (Hdm : 0 < dm) by (unfold dm; lia).
  assert (HX : dv + ev - (dm + em) <= 0).
  { destruct Hlt as [Hlt|[-> Hlt]]; [lia|].
    assert (dv <= dm); [|lia].
    apply (Zdigits2_le (Z.pos mv) dm); lia. }
  set (e' := Z.min (Z.max (dv + ev - (dm + em) - 53) (-1074)) (ev - em)).
  assert (He' : e' <= -53) by (unfold e'; lia).
  assert (Hs : 0 <= ev - em - e') by (unfold e'; lia).
  set (m' := match ev - em - e' with
             | 0 => Z.pos mv
             | Z.pos _ => Z.shiftl (Z.pos mv) (ev - em - e')
             | Z.neg _ => 0
             end).
  assert (Hm' : m' = Z.pos mv * 2 ^ (ev - em - e')).
  { unfold m'. destruct (ev - em - e') as [|p|p] eqn:Hsp; [simpl; lia| |lia].
    by rewrite Z.shiftl_mul_pow2. }
  assert (Hbound : m' < Z.pos mm * 2 ^ (- e')).
  { rewrite Hm'. destruct Hlt as [Hlt|[-> Hlt]].
    - assert (dm = 53) by lia. assert (dv <= 53) by lia.
      assert (Z.pos mv < 2 ^ 53).
      { eapply Z.lt_le_trans; [exact Hvhi|]. apply Z.pow_le_mono_r; lia. }
      assert (2 ^ 52 <= Z.pos mm) by (replace 52 with (dm - 1) by lia; done).
      apply Z.lt_le_trans with (2 ^ 53 * 2 ^ (ev - em - e')).
      { apply Z.mul_lt_mono_pos_r; [apply Z.pow_pos_nonneg; lia|done]. }
      apply Z.le_trans with (2 ^ 52 * 2 ^ (- e')).
      { rewrite <- !Z.pow_add_r by lia. apply Z.pow_le_mono_r; lia. }
      apply Z.mul_le_mono_nonneg_r; [apply Z.pow_nonneg; lia|done].
    - replace (em - em - e') with (- e') by lia.
      apply Z.mul_lt_mono_pos_r; [apply Z.pow_pos_nonneg; lia|done]. }
  assert (Hm'nn : 0 <= m') by (rewrite Hm'; apply Z.mul_nonneg_nonneg; [lia|apply Z.pow_nonneg; lia]).
  pose proof (Z.div_pos m' (Z.pos mm) Hm'nn ltac:(lia)) as Hqnn.
  pose proof (Z.div_lt_upper_bound m' (Z.pos mm) (2 ^ (- e')) ltac:(lia) Hbound) as Hqlt.
  unfold Z.div in Hqnn, Hqlt.
  destruct (Z.div_eucl m' (Z.pos mm)) as [q r].
  by apply binary_round_aux_below_one.
Qed.
End DivBelowOne.

Section AtMostOne.
Lemma Zpos_le_inv (p q : positive) : (Z.pos p <= Z.pos q)%Z -> (p <= q)%positive.
Proof. intros Hle. exact Hle. Qed.

(** A number that is at most 1 and not below 1 is 1. *)
Lemma at_most_one_eq (x : spec_float) :
  at_most_one x -> SFltb x (Prim2SF 1) = false -> x = Prim2SF 1.
Proof.
  change (Prim2SF 1) with (S754_finite false 4503599627370496 (-52)).
  destruct x as [s|s| |s m e]; cbn [at_most_one].
  - by destruct s.
  - by intros ->.
  - done.
  - intros [->|Hle]; [done|]. destruct s; [done|].
    unfold SFltb, SFcompare.
    destruct (Z.compare_spec e (-52)) as [->|Hlt|Hgt].
    + rewrite Pos.compare_cont_spec. unfold Pos.switch_Eq.
      destruct (Pos.compare_spec m 4503599627370496) as [->|Hlt|Hgt].
      * reflexivity.
      * intros; discriminate.
      * intros _. exfalso. destruct Hle as [Hle|[_ Hle]]; [lia|].
        exact (Pos.lt_irrefl _ (Pos.le_lt_trans _ _ _ Hle Hgt)).
    + intros; discriminate.
    + intros _. exfalso. destruct Hle as [Hle|[Hle _]]; lia.
Qed.

(** Rounding a non-negative mantissa keeps the sign it is given and
    never yields a NaN. *)
Lemma binary_round_aux_sign (s : bool) (q e : Z) (l : location) :
  (0 <= q)%Z ->
  match binary_round_aux prec emax s q e l with
  | S754_zero s' | S754_finite s' _ _ | S754_infinity s' => s' = s
  | S754_nan => False
  end.
Proof.
  intros Hq. unfold binary_round_aux, shr_fexp.
  pose proof (shr_spec q e (fexp prec emax (Zdigits2 q + e) - e) l Hq) as Hshr1.
  destruct (shr (shr_record_of_loc q l) e (fexp prec emax (Zdigits2 q + e) - e))
    as [mrs1 e1].
  destruct Hshr1 as [Hm1 _].
  assert (Hq1 : (0 <= shr_m mrs1)%Z) by (rewrite Hm1; apply Z.div_pos; lia).
  pose proof (round_nearest_even_bounds (shr_m mrs1) (loc_of_shr_record mrs1)) as Hrne.
  set (m2 := round_nearest_even (shr_m mrs1) (loc_of_shr_record mrs1)) in *.
  assert (Hm2 : (0 <= m2)%Z) by lia.
  pose proof (shr_spec m2 e1 (fexp prec emax (Zdigits2 m2 + e1) - e1) loc_Exact Hm2) as Hshr2.
  destruct (shr (shr_record_of_loc m2 loc_Exact) e1 (fexp prec emax (Zdigits2 m2 + e1) - e1))
    as [mrs3 e3].
  destruct Hshr2 as [Hm3 _].
  assert (Hm3nn : (0 <= shr_m mrs3)%Z) by (rewrite Hm3; apply Z.div_pos; lia).
  destruct (shr_m mrs3) as [|m3|m3]; [done| |lia].
  by destruct (e3 <=? emax - prec)%Z.
Qed.

(** A finite number divided by itself is 1. *)
Lemma SFdiv_diag (s : bool) (m : positive) (e : Z) :
  SFdiv prec emax (S754_finite s m e) (S754_finite s m e) = Prim2SF 1.
Proof.
  cbn [SFdiv]. unfold SFdiv_core_binary.
  rewrite !Z.sub_diag.
  change (Z.min (fexp prec emax 0) 0) with (-53)%Z.
  change (0 - -53)%Z with 53%Z. cbv beta iota zeta.
  rewrite Z.shiftl_mul_pow2 by lia.
  assert (Hdiv : Z.div_eucl (Z.pos m * 2 ^ 53) (Z.pos m) = ((2 ^ 53)%Z, 0%Z)).
  { assert (Hq : (Z.pos m * 2 ^ 53 / Z.pos m = 2 ^ 53)%Z)
      by (rewrite Z.mul_comm; apply Z.div_mul; lia).
    assert (Hr : ((Z.pos m * 2 ^ 53) mod Z.pos m = 0)%Z)
      by (rewrite Z.mul_comm; apply Z.mod_mul; lia).
    unfold Z.div, Z.modulo in Hq, Hr.
    destruct (Z.div_eucl (Z.pos m * 2 ^ 53) (Z.pos m)) as [q r]. by subst. }
  rewrite Hdiv.
  assert (Hl : new_location (Z.pos m) 0 = loc_Exact)
    by (unfold new_location; destruct (Z.even (Z.pos m)); reflexivity).
  rewrite Hl. by destruct s.
Qed.

(** Dividing a finite float by a positive finite float that is not
    smaller gives a float that is at most 1, and never a NaN. *)
Lemma fdiv_at_most_one (v m : float) :
  isfinite v = true -> isfinite m = true ->
  (0 <? m) = true -> (m <? v) = false ->
  at_most_one (Prim2SF (v / m)).
Proof.
  unfold isfinite. rewrite !ltb_spec, div_spec.
  change (Prim2SF 0) with (S754_zero false).
  pose proof (Prim2SF_valid v) as Hvv. pose proof (Prim2SF_valid m) as Hvm.
  destruct (Prim2SF m) as [sm|sm| |sm mm em]; try done.
  destruct sm; [done|]. intros Hfv _ _.
  destruct (Prim2SF v) as [sv|sv| |sv mv ev]; try done.
  destruct sv.
  - intros _. unfold SF64div, SFdiv.
    destruct (SFdiv_core_binary prec emax (Z.pos mv) ev (Z.pos mm) em) as [[mz ez] lz] eqn:Hcore.
    assert (0 <= mz)%Z as Hmz.
    { unfold SFdiv_core_binary in Hcore.
      match type of Hcore with
      | (let '(q, r) := Z.div_eucl ?a ?b in _) = _ =>
          assert (0 <= a)%Z as Ha;
          [|pose proof (Z.div_pos a b Ha ltac:(lia)) as Hq; unfold Z.div in Hq;
            destruct (Z.div_eucl a b) as [q r]; by injection Hcore as <- _ _]
      end.
      match goal with |- (0 <= match ?s with _ => _ end)%Z => destruct s end;
        [lia|apply Z.shiftl_nonneg; lia|lia]. }
    pose proof (binary_round_aux_sign true mz ez lz Hmz) as Hsign.
    change (xorb true false) with true.
    destruct (binary_round_aux prec emax true mz ez lz); cbn [at_most_one]; auto.
  - unfold SFltb, SFcompare.
    destruct (Z.compare_spec em ev) as [->|Hlt|Hgt]; [|done|].
    + rewrite Pos.compare_cont_spec. unfold Pos.switch_Eq.
      destruct (Pos.compare_spec mm mv) as [->|Hlt|Hgt]; [|done|].
      * intros _. unfold SF64div. rewrite SFdiv_diag.
        change (Prim2SF 1) with (S754_finite false 4503599627370496 (-52)).
        cbn [at_most_one]. right. right. split; [done|apply Pos.le_refl].
      * intros _.
        pose proof (SFdiv_smaller_below_one false mv mm ev ev Hvv Hvm
                      ltac:(right; lia)) as Hdiv.
        unfold SF64div. destruct (SFdiv prec emax _ _); cbn [at_most_one]; try done.
        destruct Hdiv as [-> [Hle|[Hle Hm]]]; right; [by left|right].
        split; [done|].
        change (2 ^ 52)%Z with (Z.pos 4503599627370496) in Hm. by apply Zpos_le_inv.
    + intros _.
      pose proof (SFdiv_smaller_below_one false mv mm ev em Hvv Hvm
                    ltac:(left; lia)) as Hdiv.
      unfold SF64div. destruct (SFdiv prec emax _ _); cbn [at_most_one]; try done.
      destruct Hdiv as [-> [Hle|[Hle Hm]]]; right; [by left|right].
      split; [done|].
        change (2 ^ 52)%Z with (Z.pos 4503599627370496) in Hm. by apply Zpos_le_inv.
Qed.
End AtMostOne.

Section Positive.
#[local] Open Scope Z_scope.

(** Rounding a positive mantissa at an exponent the format reaches never
    gives a zero. *)
Lemma binary_round_aux_positive (q e : Z) (l : location) :
  0 < q -> -1074 <= e ->
  is_positive (binary_round_aux prec emax false q e l).
Proof.
  intros Hq He. unfold binary_round_aux, shr_fexp.
  pose proof (shr_spec q e (fexp prec emax (Zdigits2 q + e) - e) l ltac:(lia)) as Hshr1.
  destruct (shr (shr_record_of_loc q l) e (fexp prec emax (Zdigits2 q + e) - e))
    as [mrs1 e1].
  destruct Hshr1 as [Hm1 He1]. rewrite fexp_unfold in Hm1, He1.
  destruct q as [|q|q]; try lia. simpl Zdigits2 in *.
  pose proof (digits2_pos_bounds q) as [Hqlo _].
  set (d := Z.pos (digits2_pos q)) in *.
  set (n1 := Z.max 0 (Z.max (d + e - 53) (-1074) - e)) in *.
  assert (Hd : 0 < d) by (unfold d; lia).
  assert (Hn1 : 0 <= n1 <= d - 1) by lia.
  assert (Hq1 : 0 < shr_m mrs1).
  { rewrite Hm1. apply Z.div_str_pos. split; [apply Z.pow_pos_nonneg; lia|].
    eapply Z.le_trans; [|exact Hqlo]. apply Z.pow_le_mono_r; lia. }
  pose proof (round_nearest_even_bounds (shr_m mrs1) (loc_of_shr_record mrs1)) as Hrne.
  set (m2 := round_nearest_even (shr_m mrs1) (loc_of_shr_record mrs1)) in *.
  assert (Hm2 : 0 < m2) by lia.
  pose proof (shr_spec m2 e1 (fexp prec emax (Zdigits2 m2 + e1) - e1) loc_Exact
                ltac:(lia)) as Hshr2.
  destruct (shr (shr_record_of_loc m2 loc_Exact) e1 (fexp prec emax (Zdigits2 m2 + e1) - e1))
    as [mrs3 e3].
  destruct Hshr2 as [Hm3 He3]. rewrite fexp_unfold in Hm3, He3.
  destruct m2 as [|p2|p2]; try lia. simpl Zdigits2 in *.
  pose proof (digits2_pos_bounds p2) as [Hplo _].
  set (d2 := Z.pos (digits2_pos p2)) in *.
  set (n3 := Z.max 0 (Z.max (d2 + e1 - 53) (-1074) - e1)) in *.
  assert (Hd2 : 0 < d2) by (unfold d2; lia).
  assert (Hn3 : 0 <= n3 <= d2 - 1) by lia.
  assert (Hm3pos : 0 < shr_m mrs3).
  { rewrite Hm3. apply Z.div_str_pos. split; [apply Z.pow_pos_nonneg; lia|].
    eapply Z.le_trans; [|exact Hplo]. apply Z.pow_le_mono_r; lia. }
  destruct (shr_m mrs3) as [|m3|m3]; try lia.
  by destruct (e3 <=? emax - prec).
Qed.

(** Aligning a mantissa never raises its exponent. *)
Lemma shl_align_spec (m : positive) (e e' : Z) :
  (shl_align m e e').2 = Z.min e e'.
Proof.
  unfold shl_align. destruct (e' - e) as [|p|p] eqn:Hd; simpl; lia.
Qed.

(** The sum of two positive numbers is positive. *)
Lemma SFadd_positive (x y : spec_float) :
  valid_binary x = true -> valid_binary y = true ->
  is_positive x -> is_positive y -> is_positive (SFadd prec emax x y).
Proof.
  intros Hvx Hvy Hx Hy.
  destruct x as [sx|[]| |[] mx ex], y as [sy|[]| |[] my ey]; try done.
  apply bounded_unfold in Hvx as [Hcx _]. apply bounded_unfold in Hvy as [Hcy _].
  unfold SFadd. cbv [cond_Zopp].
  destruct (shl_align mx ex (Z.min ex ey)) as [a ea].
  destruct (shl_align my ey (Z.min ex ey)) as [b eb]. cbn [fst].
  change (Z.pos a + Z.pos b) with (Z.pos (a + b)).
  unfold binary_normalize, binary_round.
  pose proof (shl_align_spec (a + b) (Z.min ex ey)
                (fexp prec emax (Z.pos (digits2_pos (a + b)) + Z.min ex ey))) as Hez.
  destruct (shl_align (a + b) (Z.min ex ey)
              (fexp prec emax (Z.pos (digits2_pos (a + b)) + Z.min ex ey))) as [mz ez].
  simpl in Hez. rewrite fexp_unfold in Hez.
  apply binary_round_aux_positive; lia.
Qed.
End Positive.

Lemma fadd_positive (x y : float) :
  is_positive (Prim2SF x) -> is_positive (Prim2SF y) -> is_positive (Prim2SF (x + y)).
Proof. rewrite add_spec. apply SFadd_positive; apply Prim2SF_valid. Qed.

Lemma is_positive_nonzero (x : float) : is_positive (Prim2SF x) -> (x =? 0) = false.
Proof.
  rewrite FloatAxioms.eqb_spec. change (Prim2SF 0) with (S754_zero false).
  by destruct (Prim2SF x) as [s|[]| |[] m e].
Qed.

Section FloatFacts.
Lemma Prim2SF_one : Prim2SF 1 = S754_finite false 4503599627370496 (-52).
Proof. reflexivity. Qed.

Lemma bounded_canonical (m : positive) (e : Z) :
  bounded prec emax m e = true ->
  fexp prec emax (Z.pos (digits2_pos m) + e) = e /\ (e <=? emax - prec)%Z = true.
Proof.
  unfold bounded, canonical_mantissa. intros Hb.
  apply andb_true_iff in Hb as [Hc He]. split; [by apply Z.eqb_eq|exact He].
Qed.

Lemma Zdigits2_xO (p : positive) :
  Z.pos (digits2_pos p~0) = (Z.pos (digits2_pos p) + 1)%Z.
Proof. change (digits2_pos p~0) with (Pos.succ (digits2_pos p)). lia. Qed.

(** Rounding a representable mantissa scaled by 2^52, at an exponent
    lowered by 52, gives the number itself. *)
Lemma round_scaled_exact (s : bool) (m : positive) (e : Z) :
  bounded prec emax m e = true ->
  binary_round_aux prec emax s (Z.pos (4503599627370496 * m)) (e - 52) loc_Exact
  = S754_finite s m e.
Proof.
  intros Hb. destruct (bounded_canonical m e Hb) as [Hc He].
  unfold binary_round_aux, shr_fexp.
  let shifted := eval cbv [Pos.mul] in (4503599627370496 * m)%positive in
  change (4503599627370496 * m)%positive with shifted.
  unfold Zdigits2 at 1. rewrite !Zdigits2_xO.
  match goal with
  | |- context [fexp prec emax ?a] =>
      replace a with (Z.pos (digits2_pos m) + e)%Z by lia
  end.
  rewrite Hc. replace (e - (e - 52))%Z with 52%Z by lia.
  cbv [shr shr_record_of_loc SpecFloat.iter_pos shr_1 shr_m loc_of_shr_record
       round_nearest_even orb].
  replace (e - 52 + 52)%Z with e by lia.
  unfold Zdigits2. rewrite Hc, Z.sub_diag. cbv [shr shr_m shr_record_of_loc].
  by rewrite He.
Qed.

(** Multiplying by 1.0 is exact, for every float. *)
Lemma fmul_1_r (x : float) : x * 1 = x.
Proof.
  apply Prim2SF_inj. rewrite mul_spec, Prim2SF_one.
  pose proof (Prim2SF_valid x) as Hv.
  destruct (Prim2SF x) as [s|s| |s m e]; cbn [SF64mul SFmul];
    rewrite ?xorb_false_r; try reflexivity.
  rewrite Pos.mul_comm. replace (e + -52)%Z with (e - 52)%Z by lia.
  by apply round_scaled_exact.
Qed.


(** Multiplication commutes. *)
Lemma fmul_comm (x y : float) : x * y = y * x.
Proof.
  apply Prim2SF_inj. rewrite !mul_spec.
  destruct (Prim2SF x) as [sx|sx| |sx mx ex], (Prim2SF y) as [sy|sy| |sy my ey];
    cbn [SF64mul SFmul]; rewrite ?(xorb_comm sy sx); try reflexivity.
  by rewrite (Pos.mul_comm my mx), (Z.add_comm ey ex).
Qed.

(** A finite non-zero float divided by itself is exactly 1.0. *)
Lemma fdiv_diag (x : float) :
  isfinite x = true -> (x =? 0) = false -> x / x = 1.
Proof.
  unfold isfinite. rewrite FloatAxioms.eqb_spec.
  change (Prim2SF 0) with (S754_zero false).
  intros Hfin Hnz. apply Prim2SF_inj. rewrite div_spec.
  destruct (Prim2SF x) as [s|s| |s m e]; try discriminate.
  apply SFdiv_diag.
Qed.



End FloatFacts.

End Binary64.
Import Binary64.

(** ** [max] over floats *)

Section MaxFacts.
Lemma fltb_irrefl (x : float) : (x <? x) = false.
Proof. rewrite ltb_spec. apply SFltb_irrefl. Qed.

Lemma fltb_trans (x y z : float) :
  (x <? y) = true -> (y <? z) = true -> (x <? z) = true.
Proof. rewrite !ltb_spec. apply SFltb_trans. Qed.

Lemma positive_nonzero (x : float) : (0 <? x) = true -> (x =? 0) = false.
Proof.
  rewrite ltb_spec, FloatAxioms.eqb_spec. change (Prim2SF 0) with (S754_zero false).
  by destruct (Prim2SF x) as [s|[]| |[] m e].
Qed.

Lemma py_max_step_cases (best item : float) :
  py_max_step best item = best \/ py_max_step best item = item.
Proof. unfold py_max_step. destruct (best <? item); auto. Qed.

(** The scan keeps an item of the sequence that no item seen so far
    compares greater than. *)
Lemma py_max_scan (rest seen : list float) (best : float) :
  best ∈ seen ->
  Forall (fun x => (best <? x) = false) seen ->
  let m := fold_left py_max_step rest best in
  m ∈ seen ++ rest /\ Forall (fun x => (m <? x) = false) (seen ++ rest).
Proof.
  revert seen best. induction rest as [|item rest IH]; intros seen best Hin Hub; simpl.
  { by rewrite app_nil_r. }
  replace (seen ++ item :: rest) with ((seen ++ [item]) ++ rest)
    by (by rewrite <- app_assoc).
  apply IH.
  - apply elem_of_app.
    destruct (py_max_step_cases best item) as [->| ->]; [by left|right; left].
  - unfold py_max_step. destruct (best <? item) eqn:Hlt.
    + apply Forall_app. split; [|constructor; [apply fltb_irrefl|constructor]].
      eapply Forall_impl; [exact Hub|]. intros x Hx. simpl in Hx.
      destruct (item <? x) eqn:Hix; [|done].
      by rewrite (fltb_trans best item x) in Hx.
    + apply Forall_app. split; [done|]. by constructor.
Qed.

(** [max] returns an item of the sequence, and no item compares greater. *)
Lemma py_max_spec (items : list float) (m : float) :
  py_max items = Ok m ->
  m ∈ items /\ Forall (fun x => (m <? x) = false) items.
Proof.
  destruct items as [|first rest]; [done|]. intros [= <-].
  apply (py_max_scan rest [first] first); [left|].
  constructor; [apply fltb_irrefl|constructor].
Qed.

(** Finite floats with a positive maximum, each divided by that maximum,
    have maximum exactly 1.0. *)
Lemma py_max_normalized (items : list float) (m : float) :
  py_max items = Ok m ->
  Forall (fun x => isfinite x = true) items ->
  (0 <? m) = true ->
  py_max (map (fun x => x / m) items) = Ok 1.
Proof.
  intros Hmax Hfin Hpos.
  destruct (py_max_spec items m Hmax) as [Hin Hub].
  assert (Hmfin : isfinite m = true) by (by apply (proj1 (Forall_forall _ _) Hfin)).
  destruct (py_max (map (fun x => x / m) items)) as [r|e] eqn:Hnew.
  2:{ destruct items; [done|discriminate]. }
  destruct (py_max_spec _ r Hnew) as [Hrin Hrub].
  f_equal. apply Prim2SF_inj. apply at_most_one_eq.
  - apply list_elem_of_fmap in Hrin as (v & -> & Hv).
    apply fdiv_at_most_one; [by apply (proj1 (Forall_forall _ _) Hfin)|done|done|].
    by apply (proj1 (Forall_forall _ _) Hub).
  - rewrite <- ltb_spec.
    apply (proj1 (Forall_forall _ _) Hrub).
    apply list_elem_of_fmap. exists m. split; [|done].
    symmetry. apply fdiv_diag; [done|by apply positive_nonzero].
Qed.
End MaxFacts.

(** ** The opponent model *)

Section OpponentModelFacts.
Context {Value : Type} `{Countable Value}.
Implicit Types (self : @OpponentModel Value _ _) (bid : @Bid Value).

(** One run of [q_learning_update] on two bids, over a domain whose
    first issue declares the values [a0 :: more]. *)
Lemma q_learning_update_eval self (prev_bid curr_bid : @Bid Value)
    (reward learning_rate discount_factor : float)
    (issue : string) (a0 : Value) (more : list Value) (others : @Domain Value) :
  domain self = (issue, a0 :: more) :: others ->
  let prev_key :=
    ((getValue prev_bid "price", getValue prev_bid "quantity"), getValue prev_bid issue) in
  let curr_state := (getValue curr_bid "price", getValue curr_bid "quantity") in
  let read key := default 0.0 (q_table self !! key) in
  let max_q_value :=
    fold_left py_max_step (map (fun a => read (curr_state, Some a)) more)
              (read (curr_state, Some a0)) in
  q_learning_update (Some prev_bid) (Some curr_bid)
                    reward learning_rate discount_factor self
  = (Ok tt,
     set_q_table
       (<[prev_key :=
            (1 - learning_rate) * read prev_key
            + learning_rate * (reward + discount_factor * max_q_value)]>
          (q_table self))
       self).
Proof.
  intros Hdom prev_key curr_state read max_q_value.
  unfold q_learning_update, py_bind, py_get, py_lift, py_modify,
    first_issue_value, get_state_representation, getValues, getIssues, dict_getitem.
  rewrite Hdom. simpl. by rewrite decide_True.
Qed.

(** C1. With both bids present, [q_learning_update] returns normally
    and sets one Q-table entry, the one keyed by the previous bid's
    (price, quantity) pair and its value on the domain's first issue, to
    [(1 - lr) * Q[prev] + lr * (reward + df * max_a Q[curr_state, a])]:
    the model it leaves is the one it was given with that entry stored,
    a look-up of the entry gives the new value and every other key reads
    as before. The maximum runs over every value the domain declares for
    that first issue, an entry missing from the table reading as 0.0: it
    is one of these candidates, no candidate compares greater, and it is
    what a left-to-right scan keeps when it replaces its best candidate
    only by a strictly greater one. The domain must have a first issue
    with at least one value. *)
Theorem q_learning_update_rule self (prev_bid curr_bid : @Bid Value)
    (reward learning_rate discount_factor : float)
    (issue : string) (values : list Value) (others : @Domain Value) :
  domain self = (issue, values) :: others ->
  values <> [] ->
  let prev_state := (getValue prev_bid "price", getValue prev_bid "quantity") in
  let prev_action := getValue prev_bid issue in
  let curr_state := (getValue curr_bid "price", getValue curr_bid "quantity") in
  let read key := default 0.0 (q_table self !! key) in
  let candidates := map (fun a => read (curr_state, Some a)) values in
  exists max_q_value,
    max_q_value ∈ candidates /\
    Forall (fun q => (max_q_value <? q) = false) candidates /\
    match candidates with
    | [] => False
    | first :: rest =>
        max_q_value = fold_left (fun best q => if best <? q then q else best) rest first
    end /\
    let new_q_value :=
      (1 - learning_rate) * read (prev_state, prev_action)
      + learning_rate * (reward + discount_factor * max_q_value) in
    let self' :=
      mkOpponentModel (domain self) (alpha self) (gamma self) (offers self) (issues self)
                      (<[(prev_state, prev_action) := new_q_value]> (q_table self)) in
    q_learning_update (Some prev_bid) (Some curr_bid)
                      reward learning_rate discount_factor self
    = (Ok tt, self') /\
    q_table self' !! (prev_state, prev_action) = Some new_q_value /\
    (forall key, key <> (prev_state, prev_action) ->
                 q_table self' !! key = q_table self !! key).
Proof.
  intros Hdom Hne prev_state prev_action curr_state read candidates.
  destruct values as [|a0 more]; [done|].
  assert (Hmax : py_max candidates
                 = Ok (fold_left py_max_step (map (fun a => read (curr_state, Some a)) more)
                                 (read (curr_state, Some a0)))) by reflexivity.
  destruct (py_max_spec _ _ Hmax) as [Hin Hub].
  eexists. split; [exact Hin|]. split; [exact Hub|]. split; [reflexivity|].
  cbv zeta. split; [|split].
  - by erewrite q_learning_update_eval.
  - simpl. apply lookup_insert_eq.
  - intros key Hkey. simpl. by apply lookup_insert_ne.
Qed.


(** The entry written is the only one that changes. *)
Lemma q_learning_update_frame self (prev_bid curr_bid : option (@Bid Value))
    (reward learning_rate discount_factor : float) (prev_state : QState)
    (prev_action : option Value) (key : QKey) :
  get_state_representation prev_bid = Ok prev_state ->
  first_issue_value (domain self) prev_bid = Ok prev_action ->
  key <> (prev_state, prev_action) ->
  let self' :=
    (q_learning_update prev_bid curr_bid reward learning_rate discount_factor self).2 in
  q_table self' !! key = q_table self !! key.
Proof.
  intros Hs Ha Hkey. unfold q_learning_update, py_bind, py_get, py_lift, py_modify.
  rewrite Hs, Ha.
  repeat match goal with
         | |- context [match ?r with Ok _ => _ | Raise _ => _ end] => destruct r
         end; simpl; try done.
  by rewrite lookup_insert_ne.
Qed.

(** C10. [update] with a missing previous or current bid returns at
    once: the offer log, the issue records and the Q-table are the ones
    it was called with. *)
Theorem update_without_both_bids self (t reward learning_rate discount_factor : float) :
  (forall curr_bid,
      update t None curr_bid reward learning_rate discount_factor self = (Ok tt, self)) /\
  (forall prev_bid,
      update t prev_bid None reward learning_rate discount_factor self = (Ok tt, self)).
Proof. split; [done|]. by intros [b|]. Qed.
(** The two-element tail of a log that ends in [b0; b1]. *)
Lemma py_last_two_app {A} (earlier : list A) (b0 b1 : A) :
  py_last_two (earlier ++ [b0; b1]) = [b0; b1].
Proof.
  unfold py_last_two. rewrite length_app. simpl.
  replace (length earlier + 2 - 2)%nat with (length earlier) by lia.
  by rewrite drop_app_length.
Qed.

Lemma set_issues_id self : set_issues (issues self) self = self.
Proof. by destruct self. Qed.

(** C3. With at least two logged offers, [update_issue_weights] returns
    normally and leaves the model it was given with a new issue table:
    the weight of each issue on which the last two offers agree has grown
    by [alpha * (1 - 3*t)], every other issue record is as it was, and no
    value weight, offer or Q-table entry has changed; with fewer than two
    offers logged it returns without changing anything. *)
Theorem update_issue_weights_spec self (t : float) :
  ((length (offers self) < 2)%nat ->
   update_issue_weights t self = (Ok tt, self)) /\
  (forall (earlier : list (@Bid Value)) (b0 b1 : @Bid Value),
      offers self = earlier ++ [b0; b1] ->
      update_issue_weights t self
      = (Ok tt,
         mkOpponentModel (domain self) (alpha self) (gamma self) (offers self)
           (map (fun '(issue_name, issue_obj) =>
                   (issue_name,
                    if decide (getValue b0 issue_name = getValue b1 issue_name)
                    then mkIssue (weight issue_obj + alpha self * (1 - 3 * t))
                                 (value_weights issue_obj)
                    else issue_obj))
                (issues self))
           (q_table self))).
Proof.
  split.
  - intros Hlen. unfold update_issue_weights, py_bind, py_get. simpl.
    by rewrite decide_True.
  - intros earlier b0 b1 Hoffers.
    unfold update_issue_weights, py_bind, py_get. simpl.
    rewrite decide_False by (rewrite Hoffers, length_app; simpl; lia).
    rewrite Hoffers, py_last_two_app. unfold for_issues.
    erewrite (dict_for_total _ (fun _ _ => tt)
                (fun '(issue_name, issue_obj) =>
                   (issue_name,
                    if decide (getValue b0 issue_name = getValue b1 issue_name)
                    then mkIssue (weight issue_obj + alpha self * (1 - 3 * t))
                                 (value_weights issue_obj)
                    else issue_obj))).
    + unfold set_issues. rewrite Hoffers. f_equal. by induction (issues self).
    + intros k v []. unfold update_issue_weight. simpl.
      case_decide; [|done]. unfold set_weight.
      by rewrite (fmul_comm t 3).
    + done.
Qed.

(** The loop of [get_utility] over a table whose every issue holds a
    weight for the bid's value. *)
Lemma get_utility_loop (bid : @Bid Value) (table : dict string (@Issue Value)) (total : float) :
  (forall issue_name issue_obj,
      (issue_name, issue_obj) ∈ table ->
      exists v w, getValue bid issue_name = Some v /\
                  dict_get (value_weights issue_obj) v = Some w) ->
  dict_for (add_issue_utility bid) table total
  = (Ok (fold_left
           (fun total '(issue_name, issue_obj) =>
              total + weight issue_obj
                      * default 0.0 (getValue bid issue_name
                                     ≫= dict_get (value_weights issue_obj)))
           table total),
     table).
Proof.
  revert total. induction table as [|[name obj] rest IH]; intros total Hall; [done|].
  destruct (Hall name obj) as (v & w & Hv & Hw); [left|].
  simpl. unfold add_issue_utility at 1, Issue_get_utility, dict_getitem.
  rewrite !Hv. simpl. rewrite !Hw. simpl. rewrite IH; [done|].
  intros n o Hin. apply Hall. by right.
Qed.

(** C4. [get_utility(None)] is 0.0; for a bid that gives every issue a
    value the issue holds a weight for, [get_utility] returns the sum, in
    issue order from 0.0, of [issue.weight * issue.value_weights[value]];
    in both cases the model is left exactly as it was. *)
Theorem get_utility_spec self :
  get_utility None self = (Ok 0.0, self) /\
  (forall bid,
      (forall issue_name issue_obj,
          (issue_name, issue_obj) ∈ issues self ->
          exists v w, getValue bid issue_name = Some v /\
                      dict_get (value_weights issue_obj) v = Some w) ->
      get_utility (Some bid) self
      = (Ok (fold_left
               (fun total '(issue_name, issue_obj) =>
                  total + weight issue_obj
                          * default 0.0 (getValue bid issue_name
                                         ≫= dict_get (value_weights issue_obj)))
               (issues self) 0.0),
         self)).
Proof.
  split; [done|]. intros bid Hall. unfold get_utility, for_issues.
  rewrite get_utility_loop by done. by rewrite set_issues_id.
Qed.

(** [get_utility] never changes the model, whether it returns or raises. *)
Lemma get_utility_pure self (bid : option (@Bid Value)) :
  (get_utility bid self).2 = self.
Proof.
  destruct bid as [bid|]; [|done]. unfold get_utility, for_issues.
  pose proof (dict_for_read_only (add_issue_utility bid) (issues self) 0.0) as Hro.
  destruct (dict_for (add_issue_utility bid) (issues self) 0.0) as [r table].
  simpl in *. rewrite Hro; [apply set_issues_id|].
  intros k v a. unfold add_issue_utility. by destruct (Issue_get_utility v (getValue bid k)).
Qed.

Lemma get_utility_loop_KeyError (bid : @Bid Value) (table : dict string (@Issue Value)) (total : float) :
  (exists issue_name issue_obj v,
      (issue_name, issue_obj) ∈ table /\
      getValue bid issue_name = Some v /\
      dict_get (value_weights issue_obj) v = None) ->
  (dict_for (add_issue_utility bid) table total).1 = Raise KeyError.
Proof.
  revert total. induction table as [|[name obj] rest IH]; intros total (n & o & v & Hin & Hv & Hw).
  { by apply elem_of_nil in Hin. }
  simpl. unfold add_issue_utility at 1, Issue_get_utility, dict_getitem.
  destruct (getValue bid name) as [v'|] eqn:Hname.
  - destruct (dict_get (value_weights obj) v') as [w'|] eqn:Hlook; [|done].
    apply elem_of_cons in Hin as [Heq|Hin]; [congruence|].
    specialize (IH (total + weight obj * w') (ex_intro _ n (ex_intro _ o (ex_intro _ v
                      (conj Hin (conj Hv Hw)))))).
    by destruct (dict_for (add_issue_utility bid) rest (total + weight obj * w')).
  - apply elem_of_cons in Hin as [Heq|Hin]; [congruence|].
    specialize (IH (total + 0.0) (ex_intro _ n (ex_intro _ o (ex_intro _ v
                      (conj Hin (conj Hv Hw)))))).
    by destruct (dict_for (add_issue_utility bid) rest (total + 0.0)).
Qed.

(** C8, as the code has it. A bid that carries, on some issue, a value
    the issue holds no weight for makes [get_utility] raise the built-in
    [KeyError] of the failed dictionary lookup, which propagates to the
    caller uncaught; the model is left as it was and no value is
    returned. *)
Theorem get_utility_unknown_value self (bid : @Bid Value) :
  (exists issue_name issue_obj v,
      (issue_name, issue_obj) ∈ issues self /\
      getValue bid issue_name = Some v /\
      dict_get (value_weights issue_obj) v = None) ->
  get_utility (Some bid) self = (Raise KeyError, self).
Proof.
  intros Hbad.
  pose proof (get_utility_pure self (Some bid)) as Hpure.
  pose proof (get_utility_loop_KeyError bid (issues self) 0.0 Hbad) as Hraise.
  unfold get_utility, for_issues in *.
  destruct (dict_for (add_issue_utility bid) (issues self) 0.0) as [r table].
  simpl in *. subst r. by rewrite Hpure.
Qed.
(** *** [normalize] *)

Lemma normalize_value_weights_loop (max_val : float) (vw : dict Value float) :
  (max_val =? 0) = false ->
  dict_for (normalize_value_weight max_val) vw tt
  = (Ok tt, map (fun '(value, w) => (value, w / max_val)) vw).
Proof.
  intros Hnz.
  rewrite (dict_for_total _ (fun _ _ => tt) (fun '(value, w) => (value, w / max_val))).
  - f_equal. by induction vw.
  - intros k v []. unfold normalize_value_weight, py_truediv. by rewrite Hnz.
  - done.
Qed.

Lemma normalize_values_ok (name : string) (issue_obj : @Issue Value) (total : float) :
  value_weights issue_obj <> [] ->
  (max_value_weight issue_obj =? 0) = false ->
  normalize_values name issue_obj total
  = (Ok (total + weight issue_obj),
     mkIssue (weight issue_obj)
             (map (fun '(value, w) => (value, w / max_value_weight issue_obj))
                  (value_weights issue_obj))).
Proof.
  unfold normalize_values, max_value_weight. intros Hne Hnz.
  destruct (py_max (value_weights issue_obj).*2) as [max_val|e] eqn:Hmax.
  - by rewrite normalize_value_weights_loop.
  - destruct (value_weights issue_obj); [done|discriminate].
Qed.

Lemma normalize_first_loop (table : dict string (@Issue Value)) (total : float) :
  Forall (fun '(_, issue_obj) =>
            value_weights issue_obj <> [] /\
            (max_value_weight issue_obj =? 0) = false) table ->
  dict_for normalize_values table total
  = (Ok (fold_left (fun total '(_, issue_obj) => total + weight issue_obj) table total),
     map (fun '(name, issue_obj) =>
            (name,
             mkIssue (weight issue_obj)
                     (map (fun '(value, w) => (value, w / max_value_weight issue_obj))
                          (value_weights issue_obj))))
         table).
Proof.
  revert total. induction table as [|[name obj] rest IH]; intros total Hall; [done|].
  apply Forall_cons in Hall as [[Hne Hnz] Hall]. simpl.
  rewrite normalize_values_ok by done. by rewrite IH.
Qed.

Lemma normalize_second_loop (total : float) (table : dict string (@Issue Value)) :
  table = [] \/ (total =? 0) = false ->
  dict_for (normalize_issue_weight total) table tt
  = (Ok tt,
     map (fun '(name, issue_obj) =>
            (name, mkIssue (weight issue_obj / total) (value_weights issue_obj)))
         table).
Proof.
  intros [->|Hnz]; [done|].
  rewrite (dict_for_total _ (fun _ _ => tt)
             (fun '(name, issue_obj) =>
                (name, mkIssue (weight issue_obj / total) (value_weights issue_obj)))).
  - f_equal. by induction table.
  - intros k v []. unfold normalize_issue_weight, py_truediv. by rewrite Hnz.
  - done.
Qed.

(** What a run of [normalize] that meets no zero divisor and no empty
    mapping does. *)
Lemma normalize_eval self :
  Forall (fun '(_, issue_obj) =>
            value_weights issue_obj <> [] /\
            (max_value_weight issue_obj =? 0) = false) (issues self) ->
  issues self = [] \/ (sum_issue_weights (issues self) =? 0) = false ->
  normalize self
  = (Ok tt,
     set_issues
       (map (fun '(name, issue_obj) =>
               (name, normalized_issue (sum_issue_weights (issues self)) issue_obj))
            (issues self))
       self).
Proof.
  intros Hall Htotal. unfold normalize, py_bind, for_issues.
  rewrite normalize_first_loop by done. simpl.
  rewrite normalize_second_loop.
  - unfold set_issues. simpl. f_equal. f_equal.
    rewrite map_map. apply map_ext. by intros [name obj].
  - destruct Htotal as [Hnil|Hnz]; [left; by rewrite Hnil|by right].
Qed.
(** *** Value weights are all 1.0 *)

Lemma py_max_constant (c : float) (items : list float) :
  (c <? c) = false -> Forall (fun x => x = c) items ->
  fold_left py_max_step items c = c.
Proof.
  intros Hirr. induction items as [|x rest IH]; intros Hall; [done|].
  apply Forall_cons in Hall as [-> Hrest]. simpl.
  unfold py_max_step at 2. rewrite Hirr. by apply IH.
Qed.

Lemma Forall_values_constant (c : float) (vw : dict Value float) :
  Forall (fun '(_, w) => w = c) vw -> Forall (fun x => x = c) vw.*2.
Proof. induction 1 as [|[v w] rest Hw _ IH]; simpl; constructor; auto. Qed.

Lemma Forall_divided_constant (c : float) (vw : dict Value float) :
  c / c = 1.0 ->
  Forall (fun '(_, w) => w = c) vw ->
  Forall (fun '(_, w) => w = 1.0) (map (fun '(value, w) => (value, w / c)) vw).
Proof.
  intros Hdiv. induction 1 as [|[v w] rest Hw _ IH]; simpl; constructor; auto.
  by subst.
Qed.

(** The first loop of [normalize] turns value weights that all equal
    one finite non-zero [c] into 1.0. *)
Lemma normalize_values_constant (c : float) (name : string) (issue_obj : @Issue Value)
    (total total' : float) (issue_obj' : @Issue Value) :
  (c <? c) = false -> (c =? 0) = false -> c / c = 1.0 ->
  Forall (fun '(_, w) => w = c) (value_weights issue_obj) ->
  normalize_values name issue_obj total = (Ok total', issue_obj') ->
  Forall (fun '(_, w) => w = 1.0) (value_weights issue_obj').
Proof.
  intros Hirr Hnz Hdiv Hall. unfold normalize_values.
  destruct (value_weights issue_obj) as [|[v0 w0] vw] eqn:Hvw; [done|].
  apply Forall_cons in Hall as [-> Hrest].
  assert (Hmax : py_max ((v0, c) :: vw).*2 = Ok c).
  { simpl. f_equal. apply py_max_constant; [done|].
    by apply Forall_values_constant. }
  rewrite Hmax, normalize_value_weights_loop by done.
  intros [= _ <-]. simpl. constructor; [done|].
  by apply Forall_divided_constant.
Qed.

Lemma Issue_init_value_weights (values : list Value) :
  Forall (fun '(_, w) => w = 0.0 + 1e-10) (value_weights (Issue_init values)).
Proof.
  unfold Issue_init. simpl.
  assert (Hgen : forall d : dict Value float,
             Forall (fun '(_, w) => w = 0.0 + 1e-10) d ->
             Forall (fun '(_, w) => w = 0.0 + 1e-10)
                    (fold_left (fun d value => dict_set d value (0.0 + 1e-10)) values d)).
  { induction values as [|v rest IH]; intros d Hd; [done|].
    simpl. apply IH. by apply dict_set_Forall. }
  apply Hgen. constructor.
Qed.

Lemma normalize_values_keeps_unit (name : string) (issue_obj : @Issue Value) (total : float) :
  Forall (fun '(_, w) => w = 1.0) (value_weights issue_obj) ->
  Forall (fun '(_, w) => w = 1.0) (value_weights (normalize_values name issue_obj total).2).
Proof.
  intros Hall. unfold normalize_values.
  destruct (value_weights issue_obj) as [|[v0 w0] vw] eqn:Hvw.
  { simpl. by rewrite Hvw. }
  pose proof Hall as Hall'. apply Forall_cons in Hall' as [-> Hrest].
  assert (Hmax : py_max ((v0, 1.0) :: vw).*2 = Ok 1.0).
  { simpl. f_equal. apply py_max_constant; [done|].
    by apply Forall_values_constant. }
  rewrite Hmax, normalize_value_weights_loop by done. simpl.
  constructor; [done|].
  by apply Forall_divided_constant.
Qed.

(** [normalize] keeps value weights that are all 1.0, whether it
    returns or raises. *)
Lemma normalize_keeps_unit_value_weights self :
  unit_value_weights (issues self) -> unit_value_weights (issues (normalize self).2).
Proof.
  intros Hunit. unfold normalize, py_bind, for_issues.
  pose proof (dict_for_Forall
                (fun entry : string * @Issue Value =>
                   Forall (fun '(_, w) => w = 1.0) (value_weights entry.2))
                normalize_values (issues self) 0.0) as Hfirst.
  assert (Hunit' : Forall (fun entry : string * @Issue Value =>
                             Forall (fun '(_, w) => w = 1.0) (value_weights entry.2))
                          (issues self)).
  { eapply Forall_impl; [exact Hunit|by intros [name obj]]. }
  specialize (Hfirst (fun k v a Hv => normalize_values_keeps_unit k v a Hv) Hunit').
  destruct (dict_for normalize_values (issues self) 0.0) as [[total|e] table1]; simpl in *.
  - pose proof (dict_for_Forall
                  (fun entry : string * @Issue Value =>
                     Forall (fun '(_, w) => w = 1.0) (value_weights entry.2))
                  (normalize_issue_weight total) table1 tt) as Hsecond.
    destruct (dict_for (normalize_issue_weight total) table1 tt) as [r table2]; simpl in *.
    unfold unit_value_weights.
    eapply Forall_impl; [apply Hsecond; [|done]|by intros [name obj]].
    intros k v a Hv. unfold normalize_issue_weight.
    by destruct (py_truediv (weight v) total).
  - unfold unit_value_weights.
    eapply Forall_impl; [exact Hfirst|by intros [name obj]].
Qed.
Lemma update_issue_weights_keeps_unit_value_weights self (t : float) :
  unit_value_weights (issues self) ->
  unit_value_weights (issues (update_issue_weights t self).2).
Proof.
  intros Hunit. unfold update_issue_weights, py_bind, py_get. simpl.
  case_decide; [done|]. unfold for_issues.
  pose proof (dict_for_Forall
                (fun entry : string * @Issue Value =>
                   Forall (fun '(_, w) => w = 1.0) (value_weights entry.2))
                (update_issue_weight (alpha self) t (py_last_two (offers self)))
                (issues self) tt) as Hloop.
  destruct (dict_for _ (issues self) tt) as [r table]. simpl in *.
  unfold unit_value_weights.
  eapply Forall_impl; [apply Hloop|by intros [name obj]].
  - intros k v a Hv. unfold update_issue_weight.
    destruct (py_last_two (offers self) !! 0%nat); [|done].
    destruct (py_last_two (offers self) !! 1%nat); [|done].
    by case_decide.
  - eapply Forall_impl; [exact Hunit|by intros [name obj]].
Qed.

(** [q_learning_update] touches nothing but the Q-table. *)
Lemma q_learning_update_frame_rest self (prev_bid curr_bid : option (@Bid Value))
    (reward learning_rate discount_factor : float) :
  let self' :=
    (q_learning_update prev_bid curr_bid reward learning_rate discount_factor self).2 in
  issues self' = issues self /\ offers self' = offers self /\
  domain self' = domain self /\ alpha self' = alpha self /\ gamma self' = gamma self.
Proof.
  unfold q_learning_update, py_bind, py_get, py_lift, py_modify.
  repeat match goal with
         | |- context [match ?r with Ok _ => _ | Raise _ => _ end] => destruct r
         end; simpl; done.
Qed.

Lemma update_keeps_unit_value_weights self (t : float) (prev_bid curr_bid : option (@Bid Value))
    (reward learning_rate discount_factor : float) :
  unit_value_weights (issues self) ->
  unit_value_weights
    (issues (update t prev_bid curr_bid reward learning_rate discount_factor self).2).
Proof.
  intros Hunit. destruct prev_bid as [prev|], curr_bid as [curr|]; try done.
  unfold update, py_bind, py_modify. simpl.
  pose proof (update_issue_weights_keeps_unit_value_weights
                (set_offers (offers self ++ [curr]) self) t Hunit) as Hweights.
  destruct (update_issue_weights t (set_offers (offers self ++ [curr]) self))
    as [[[]|e] self1]; simpl in *; [|done].
  pose proof (q_learning_update_frame_rest self1 (Some prev) (Some curr)
                reward learning_rate discount_factor) as (Hissues & _).
  simpl in Hissues. by rewrite Hissues.
Qed.

(** The constructor, when it returns an object, leaves every value
    weight at [(0.0 + 1e-10) / (0.0 + 1e-10)], which is 1.0. *)
Lemma OpponentModel_init_unit_value_weights (domain : @Domain Value)
    (alpha gamma : float) self :
  OpponentModel_init domain alpha gamma = Ok self -> unit_value_weights (issues self).
Proof.
  unfold OpponentModel_init, normalize, py_bind, for_issues. simpl.
  match goal with
  | |- context [fold_left ?f (getIssuesValues domain) []] =>
      set (table0 := fold_left f (getIssuesValues domain) [])
  end.
  assert (Hinit : Forall (fun entry : string * @Issue Value =>
                            Forall (fun '(_, w) => w = 0.0 + 1e-10) (value_weights entry.2))
                         table0).
  { unfold table0. generalize (@nil (string * @Issue Value)) (Forall_nil_2
      (fun entry : string * @Issue Value =>
         Forall (fun '(_, w) => w = 0.0 + 1e-10) (value_weights entry.2))).
    induction (getIssuesValues domain) as [|[issue values] rest IH]; intros d Hd; [done|].
    simpl. apply IH. apply dict_set_Forall; [|done].
    apply Issue_init_value_weights. }
  destruct (dict_for normalize_values table0 0.0) as [[total|e] table1] eqn:Hfirst;
    simpl; [|done].
  assert (Hone : Forall (fun entry : string * @Issue Value =>
                           Forall (fun '(_, w) => w = 1.0) (value_weights entry.2))
                        table1).
  { eapply (dict_for_Forall_ok _ _ normalize_values table0 table1 0.0 total);
      [|exact Hinit|exact Hfirst].
    intros k v a a' v' Hv Hstep. simpl in *.
    by eapply (normalize_values_constant (0.0 + 1e-10)). }
  pose proof (dict_for_Forall
                (fun entry : string * @Issue Value =>
                   Forall (fun '(_, w) => w = 1.0) (value_weights entry.2))
                (normalize_issue_weight total) table1 tt) as Hsecond.
  destruct (dict_for (normalize_issue_weight total) table1 tt) as [[[]|e] table2];
    simpl in *; [|done].
  intros [= <-]. simpl. unfold unit_value_weights.
  eapply Forall_impl; [apply Hsecond; [|done]|by intros [name obj]].
  intros k v a Hv. unfold normalize_issue_weight.
  by destruct (py_truediv (weight v) total).
Qed.

(** With unit value weights, the utility of a bid is the sum of the
    issue weights. *)
Lemma unit_utility_sum (bid : @Bid Value) (table : dict string (@Issue Value)) (total : float) :
  unit_value_weights table ->
  (forall issue_name issue_obj,
      (issue_name, issue_obj) ∈ table ->
      exists v w, getValue bid issue_name = Some v /\
                  dict_get (value_weights issue_obj) v = Some w) ->
  fold_left
    (fun total '(issue_name, issue_obj) =>
       total + weight issue_obj
               * default 0.0 (getValue bid issue_name ≫= dict_get (value_weights issue_obj)))
    table total
  = fold_left (fun total '(_, issue_obj) => total + weight issue_obj) table total.
Proof.
  revert total. induction table as [|[name obj] rest IH]; intros total Hunit Hall; [done|].
  apply Forall_cons in Hunit as [Hobj Hrest].
  destruct (Hall name obj) as (v & w & Hv & Hw); [left|].
  simpl. rewrite Hv. simpl. rewrite Hw. simpl.
  assert (w = 1.0) as ->.
  { apply dict_get_Some_elem_of in Hw.
    by apply (proj1 (Forall_forall _ _) Hobj (v, w)). }
  rewrite fmul_1_r. apply IH; [done|].
  intros n o Hin. apply Hall. by right.
Qed.

(** *** Declared values keep their weights *)

Lemma for_issues_keeps_declared {A} (body : string -> @Issue Value -> A -> Result A * @Issue Value)
    (acc : A) self :
  (forall k v a, (value_weights (body k v a).2).*1 = (value_weights v).*1) ->
  declared_values_weighted (domain self) (issues self) ->
  domain (for_issues body acc self).2 = domain self /\
  declared_values_weighted (domain self) (issues (for_issues body acc self).2).
Proof.
  intros Hkeys Hdecl. unfold for_issues.
  pose proof (dict_for_Forall
                (fun entry : string * @Issue Value =>
                   exists values,
                     (entry.1, values) ∈ domain self /\
                     forall v, v ∈ values -> v ∈ (value_weights entry.2).*1)
                body (issues self) acc) as Hloop.
  destruct (dict_for body (issues self) acc) as [r table]. simpl in *.
  split; [done|]. unfold declared_values_weighted.
  eapply Forall_impl; [apply Hloop|by intros [name obj]].
  - intros k v a (values & Hin & Hall). exists values. split; [done|].
    simpl. by rewrite Hkeys.
  - eapply Forall_impl; [exact Hdecl|by intros [name obj]].
Qed.

Lemma normalize_values_keys (name : string) (issue_obj : @Issue Value) (total : float) :
  (value_weights (normalize_values name issue_obj total).2).*1
  = (value_weights issue_obj).*1.
Proof.
  unfold normalize_values.
  destruct (py_max (value_weights issue_obj).*2) as [max_val|e]; [|done].
  pose proof (dict_for_keys (normalize_value_weight max_val) (value_weights issue_obj) tt)
    as Hkeys.
  by destruct (dict_for (normalize_value_weight max_val) (value_weights issue_obj) tt)
    as [[[]|e] vw].
Qed.

Lemma normalize_issue_weight_keys (total : float) (name : string)
    (issue_obj : @Issue Value) (u : unit) :
  (value_weights (normalize_issue_weight total name issue_obj u).2).*1
  = (value_weights issue_obj).*1.
Proof.
  unfold normalize_issue_weight. by destruct (py_truediv (weight issue_obj) total).
Qed.

Lemma update_issue_weight_keys (a t : float) (last_two_bids : list (@Bid Value))
    (name : string) (issue_obj : @Issue Value) (u : unit) :
  (value_weights (update_issue_weight a t last_two_bids name issue_obj u).2).*1
  = (value_weights issue_obj).*1.
Proof.
  unfold update_issue_weight.
  destruct (last_two_bids !! 0%nat); [|done].
  destruct (last_two_bids !! 1%nat); [|done].
  by case_decide.
Qed.

Lemma normalize_keeps_declared self :
  declared_values_weighted (domain self) (issues self) ->
  domain (normalize self).2 = domain self /\
  declared_values_weighted (domain self) (issues (normalize self).2).
Proof.
  intros Hdecl. unfold normalize, py_bind.
  destruct (for_issues_keeps_declared normalize_values 0.0 self normalize_values_keys Hdecl)
    as [Hdom1 Hdecl1].
  destruct (for_issues normalize_values 0.0 self) as [[total|e] self1]; simpl in *; [|done].
  rewrite <- Hdom1 in Hdecl1.
  destruct (for_issues_keeps_declared (normalize_issue_weight total) tt self1
              (normalize_issue_weight_keys total) Hdecl1) as [Hdom2 Hdecl2].
  rewrite Hdom2, Hdom1 in *. done.
Qed.

Lemma update_issue_weights_keeps_declared self (t : float) :
  declared_values_weighted (domain self) (issues self) ->
  domain (update_issue_weights t self).2 = domain self /\
  declared_values_weighted (domain self) (issues (update_issue_weights t self).2).
Proof.
  intros Hdecl. unfold update_issue_weights, py_bind, py_get. simpl.
  case_decide; [done|].
  apply for_issues_keeps_declared; [|done].
  apply update_issue_weight_keys.
Qed.

Lemma Issue_init_keys (values : list Value) (v : Value) :
  v ∈ values -> v ∈ (value_weights (Issue_init values)).*1.
Proof.
  unfold Issue_init. simpl.
  assert (Hgen : forall d : dict Value float,
             v ∈ values \/ v ∈ d.*1 ->
             v ∈ (fold_left (fun d value => dict_set d value (0.0 + 1e-10)) values d).*1).
  { induction values as [|v0 rest IH]; intros d [Hin|Hin]; simpl.
    - by apply elem_of_nil in Hin.
    - done.
    - apply IH. apply elem_of_cons in Hin as [->|Hin]; [right|by left].
      apply dict_set_keys. by left.
    - apply IH. right. apply dict_set_keys. by right. }
  intros Hin. apply Hgen. by left.
Qed.

Lemma OpponentModel_init_constructed (domain0 : @Domain Value) (a g : float) self :
  OpponentModel_init domain0 a g = Ok self -> domain self = domain0 /\ constructed self.
Proof.
  intros Hinit.
  pose proof (OpponentModel_init_unit_value_weights domain0 a g self Hinit) as Hunit.
  unfold OpponentModel_init in Hinit.
  match type of Hinit with
  | context [normalize ?s0] => set (self0 := s0) in Hinit
  end.
  assert (Hdecl0 : declared_values_weighted (domain self0) (issues self0)).
  { simpl. unfold declared_values_weighted.
    generalize (@nil (string * @Issue Value))
               (Forall_nil_2 (fun '(issue_name, issue_obj) =>
                                exists values,
                                  (issue_name, values) ∈ domain0 /\
                                  forall v, v ∈ values -> v ∈ (value_weights issue_obj).*1)).
    assert (Hsub : forall entry, entry ∈ getIssuesValues domain0 -> entry ∈ domain0) by done.
    revert Hsub. generalize (getIssuesValues domain0). intros entries.
    induction entries as [|[issue values] rest IH]; intros Hsub d Hd; [done|].
    simpl. apply IH.
    - intros entry Hin. apply Hsub. by right.
    - apply dict_set_Forall; [|done].
      exists values. split; [apply Hsub; left|]. apply Issue_init_keys. }
  pose proof (normalize_keeps_declared self0 Hdecl0) as [Hdom Hdecl].
  destruct (normalize self0) as [[[]|e] s]; [|done].
  injection Hinit as <-. simpl in *. split; [done|]. split; [done|].
  simpl. by rewrite Hdom.
Qed.

(** *** The constructor returns *)

Lemma sum_unit_weights_positive (table : dict string (@Issue Value)) (acc : float) :
  Forall (fun '(_, issue_obj) => weight issue_obj = 1.0) table ->
  (acc = 0.0 /\ table <> []) \/ is_positive (Prim2SF acc) ->
  is_positive
    (Prim2SF (fold_left (fun total '(_, issue_obj) => total + weight issue_obj) table acc)).
Proof.
  revert acc. induction table as [|[name obj] rest IH]; intros acc Hall Hacc.
  { by destruct Hacc as [[_ ?]|?]. }
  apply Forall_cons in Hall as [Hw Hrest]. simpl. rewrite Hw.
  apply IH; [done|]. right.
  destruct Hacc as [[-> _]|Hpos]; [done|].
  by apply fadd_positive.
Qed.

Lemma Issue_init_nonempty (values : list Value) :
  values <> [] -> value_weights (Issue_init values) <> [].
Proof.
  destruct values as [|v rest]; [done|]. intros _ Hnil.
  pose proof (Issue_init_keys (v :: rest) v ltac:(left)) as Hin.
  rewrite Hnil in Hin. by apply elem_of_nil in Hin.
Qed.

Lemma Issue_init_max (values : list Value) :
  values <> [] -> max_value_weight (Issue_init values) = 0.0 + 1e-10.
Proof.
  intros Hne. unfold max_value_weight.
  pose proof (Issue_init_value_weights values) as Hall.
  pose proof (Issue_init_nonempty values Hne) as Hnonempty.
  destruct (value_weights (Issue_init values)) as [|[v w] vw]; [done|].
  apply Forall_cons in Hall as [-> Hrest]. simpl.
  apply py_max_constant; [done|]. by apply Forall_values_constant.
Qed.

(** On a domain whose every issue declares at least one value, the
    constructor returns a model: [max] finds an item in every mapping, the
    largest value weight is [0.0 + 1e-10], not zero, and the weights, all
    1.0, add up to a positive total. *)
Lemma OpponentModel_init_returns (domain0 : @Domain Value) (a g : float) :
  Forall (fun '(_, values) => values <> []) domain0 ->
  exists self, OpponentModel_init domain0 a g = Ok self.
Proof.
  intros Hdom. unfold OpponentModel_init.
  match goal with
  | |- context [normalize ?s0] => set (self0 := s0)
  end.
  assert (Hinit : Forall (fun entry : string * @Issue Value =>
                            exists values, values <> [] /\ entry.2 = Issue_init values)
                         (issues self0)).
  { simpl.
    generalize (@nil (string * @Issue Value))
               (Forall_nil_2 (fun entry : string * @Issue Value =>
                                exists values, values <> [] /\ entry.2 = Issue_init values)).
    unfold getIssuesValues.
    induction Hdom as [|[issue values] rest Hne _ IH]; intros d Hd; [done|].
    simpl. apply IH. apply dict_set_Forall; [|done]. by exists values. }
  rewrite (normalize_eval self0).
  - by eexists.
  - eapply Forall_impl; [exact Hinit|]. intros [name obj] (values & Hne & Hobj).
    simpl in Hobj. subst obj.
    split; [by apply Issue_init_nonempty|]. by rewrite Issue_init_max.
  - destruct (issues self0) as [|entry rest] eqn:Htable; [by left|]. right.
    apply is_positive_nonzero. unfold sum_issue_weights.
    apply sum_unit_weights_positive; [|by left].
    eapply Forall_impl; [exact Hinit|]. intros [name obj] (values & _ & Hobj).
    simpl in Hobj. by subst obj.
Qed.

(** In a constructed model every issue holds a weight for the value a
    bid of declared values gives it. *)
Lemma constructed_bid_covered self (bid : @Bid Value) :
  constructed self -> assigns_declared_values (domain self) bid ->
  forall issue_name issue_obj,
    (issue_name, issue_obj) ∈ issues self ->
    exists v w, getValue bid issue_name = Some v /\
                dict_get (value_weights issue_obj) v = Some w.
Proof.
  intros [_ Hdecl] Hbid name obj Hin.
  destruct (proj1 (Forall_forall _ _) Hdecl _ Hin) as (values & Hdom & Hkeys).
  destruct (Hbid name values Hdom) as (v & Hv & Hvin).
  destruct (dict_get_elem_of_keys (value_weights obj) v (Hkeys v Hvin)) as [w Hw].
  by exists v, w.
Qed.

(** C9. On a domain whose every issue declares at least one value the
    constructor returns a model. When it returns a model, every value
    weight of every issue is exactly 1.0 and every issue holds a weight for
    each value the domain declares; [update], [update_issue_weights],
    [q_learning_update], [normalize] and [get_utility] each keep both
    facts, whether they return or raise; and in such a model the utility
    of a bid that gives every issue a declared value is the sum of the
    issue weights. *)
Theorem value_weights_stay_one :
  (forall (domain0 : @Domain Value) (a g : float),
      Forall (fun '(_, values) => values <> []) domain0 ->
      exists self, OpponentModel_init domain0 a g = Ok self) /\
  (forall (domain0 : @Domain Value) (a g : float) self,
      OpponentModel_init domain0 a g = Ok self -> domain self = domain0 /\ constructed self) /\
  (forall self,
      constructed self ->
      (forall t prev_bid curr_bid reward learning_rate discount_factor,
          constructed (update t prev_bid curr_bid reward learning_rate discount_factor self).2) /\
      (forall t, constructed (update_issue_weights t self).2) /\
      (forall prev_bid curr_bid reward learning_rate discount_factor,
          constructed (q_learning_update prev_bid curr_bid
                                         reward learning_rate discount_factor self).2) /\
      constructed (normalize self).2 /\
      (forall bid : option (@Bid Value), constructed (get_utility bid self).2) /\
      (forall bid : @Bid Value,
          assigns_declared_values (domain self) bid ->
          get_utility (Some bid) self = (Ok (sum_issue_weights (issues self)), self))).
Proof.
  split; [apply OpponentModel_init_returns|].
  split; [apply OpponentModel_init_constructed|].
  intros self Hcons. pose proof Hcons as [Hunit Hdecl].
  assert (Hupdate_weights : forall t self0,
             constructed self0 -> constructed (update_issue_weights t self0).2).
  { intros t self0 [Hunit0 Hdecl0]. split.
    - by apply update_issue_weights_keeps_unit_value_weights.
    - destruct (update_issue_weights_keeps_declared self0 t Hdecl0) as [Hdom Hd].
      by rewrite Hdom. }
  assert (Hq : forall prev_bid curr_bid reward learning_rate discount_factor self0,
             constructed self0 ->
             constructed (q_learning_update prev_bid curr_bid
                                            reward learning_rate discount_factor self0).2).
  { intros prev_bid curr_bid reward learning_rate discount_factor self0 Hcons0.
    pose proof (q_learning_update_frame_rest self0 prev_bid curr_bid
                  reward learning_rate discount_factor) as (Hissues & _ & Hdom & _).
    simpl in Hissues, Hdom. unfold constructed. by rewrite Hissues, Hdom. }
  repeat split.
  - intros. by apply update_keeps_unit_value_weights.
  - destruct prev_bid as [prev|], curr_bid as [curr|]; try done.
    unfold update, py_bind, py_modify. simpl.
    pose proof (Hupdate_weights t (set_offers (offers self ++ [curr]) self) Hcons) as Hw.
    destruct (update_issue_weights t (set_offers (offers self ++ [curr]) self))
      as [[[]|e] self1]; simpl in *; [|apply Hw].
    apply (Hq (Some prev) (Some curr) reward learning_rate discount_factor self1 Hw).
  - by apply Hupdate_weights.
  - by apply Hupdate_weights.
  - by apply Hq.
  - by apply Hq.
  - by apply normalize_keeps_unit_value_weights.
  - destruct (normalize_keeps_declared self Hdecl) as [Hdom Hd]. by rewrite Hdom.
  - by rewrite get_utility_pure.
  - by rewrite get_utility_pure.
  - intros bid Hbid. unfold get_utility, for_issues.
    pose proof (constructed_bid_covered self bid Hcons Hbid) as Hcov.
    rewrite get_utility_loop by done. rewrite set_issues_id.
    unfold sum_issue_weights. by rewrite unit_utility_sum.
Qed.

(** A step of the first loop of [normalize] succeeds only on an issue
    that holds a value weight and whose largest value weight is not zero. *)
Lemma normalize_values_ok_inv (name : string) (issue_obj issue_obj' : @Issue Value)
    (total total' : float) :
  normalize_values name issue_obj total = (Ok total', issue_obj') ->
  value_weights issue_obj <> [] /\ (max_value_weight issue_obj =? 0) = false.
Proof.
  unfold normalize_values, max_value_weight.
  destruct (value_weights issue_obj) as [|[v0 w0] vw] eqn:Hvw; [done|].
  destruct (py_max ((v0, w0) :: vw).*2) as [max_val|e]; [|done].
  intros Hstep. split; [done|].
  simpl in Hstep. unfold normalize_value_weight at 1, py_truediv in Hstep.
  by destruct (max_val =? 0).
Qed.

(** [normalize] returns normally exactly in the states its divisions are
    defined in. *)
Lemma normalize_returns_iff self :
  (normalize self).1 = Ok tt <->
  Forall (fun '(_, issue_obj) =>
            value_weights issue_obj <> [] /\
            (max_value_weight issue_obj =? 0) = false) (issues self) /\
  (issues self = [] \/ (sum_issue_weights (issues self) =? 0) = false).
Proof.
  split; [|intros [Hall Htotal]; by rewrite normalize_eval].
  unfold normalize, py_bind, for_issues.
  destruct (dict_for normalize_values (issues self) 0.0) as [[total|e] table1] eqn:Hfirst;
    simpl; [|done].
  assert (Hall : Forall (fun '(_, issue_obj) =>
                           value_weights issue_obj <> [] /\
                           (max_value_weight issue_obj =? 0) = false) (issues self)).
  { eapply Forall_impl; [exact (dict_for_ok_steps _ _ _ _ _ Hfirst)|].
    intros [name obj] (a & a' & v' & Hstep). by eapply normalize_values_ok_inv. }
  rewrite normalize_first_loop in Hfirst by done.
  fold (sum_issue_weights (issues self)) in Hfirst.
  injection Hfirst as Htotal Htable.
  destruct (dict_for (normalize_issue_weight total) table1 tt) as [[[]|e] table2] eqn:Hsecond;
    simpl; [|done].
  intros _. split; [done|]. rewrite Htotal.
  apply dict_for_ok_steps in Hsecond. subst table1.
  destruct (issues self) as [|[name obj] rest]; [by left|right].
  apply Forall_cons in Hsecond as [(a & a' & v' & Hstep) _].
  simpl in Hstep. unfold normalize_issue_weight, py_truediv in Hstep.
  by destruct (total =? 0).
Qed.

(** What [normalize] does, state by state. It returns normally exactly
    when every issue holds at least one value weight, no issue's largest
    value weight is zero, and the issue weights add up (in issue order,
    from 0.0) to something other than zero; otherwise it raises. When it
    returns it has divided every value weight by the largest value weight
    of its issue and every issue weight by that sum of the weights as they
    were before the call, and every issue whose value weights are all
    finite, the largest positive, has largest value weight exactly 1.0. *)
Theorem normalize_spec self :
  let total := sum_issue_weights (issues self) in
  let defined :=
    Forall (fun '(_, issue_obj) =>
              value_weights issue_obj <> [] /\
              (max_value_weight issue_obj =? 0) = false) (issues self) /\
    (issues self = [] \/ (total =? 0) = false) in
  ((normalize self).1 = Ok tt <-> defined) /\
  (defined ->
   normalize self
   = (Ok tt,
      set_issues
        (map (fun '(name, issue_obj) => (name, normalized_issue total issue_obj))
             (issues self))
        self) /\
   (forall name (issue_obj : @Issue Value),
       (name, issue_obj) ∈ issues self ->
       Forall (fun '(_, w) => isfinite w = true) (value_weights issue_obj) ->
       (0 <? max_value_weight issue_obj) = true ->
       py_max (value_weights (normalized_issue total issue_obj)).*2 = Ok 1.0)).
Proof.
  intros total defined. split; [apply normalize_returns_iff|].
  intros [Hall Htotal]. split; [by apply normalize_eval|].
  intros name issue_obj Hin Hfin Hpos.
  pose proof (proj1 (Forall_forall _ _) Hall _ Hin) as [Hne _]. simpl in Hne.
  unfold normalized_issue. simpl.
  replace ((map (fun '(value, w) => (value, w / max_value_weight issue_obj))
                (value_weights issue_obj)).*2)
    with (map (fun x => x / max_value_weight issue_obj) (value_weights issue_obj).*2).
  2:{ clear. generalize (max_value_weight issue_obj). intros c.
      induction (value_weights issue_obj) as [|[v w] rest IH]; [done|].
      simpl. f_equal. exact IH. }
  apply py_max_normalized; [| |done].
  - unfold max_value_weight.
    destruct (py_max (value_weights issue_obj).*2) eqn:Hmax; [done|].
    destruct (value_weights issue_obj); [done|discriminate].
  - clear -Hfin. induction Hfin as [|[v w] rest Hw _ IH]; simpl; constructor; auto.
Qed.
End OpponentModelFacts.

(** ** The learning model *)

Section LearningFacts.
Context {Value PyObject : Type}.
Implicit Types (w : @World Value PyObject).

(** C7. [save_data] without a storage directory or without an opponent
    name returns normally and leaves the disk and the object as they
    were; [load_data] without one of the two, or when nothing exists at the
    snapshot path, returns an empty mapping, having reset the object's
    data to empty, and raises nothing. *)
Theorem persistence_without_keys_or_snapshot w :
  (forall storage_dir, save_data storage_dir None w = (Ok tt, w)) /\
  (forall opponent_agent, save_data None opponent_agent w = (Ok tt, w)) /\
  (forall storage_dir opponent_agent,
      storage_dir = None \/ opponent_agent = None \/
      (exists dir name,
          storage_dir = Some dir /\ opponent_agent = Some name /\
          fs_of w !! snapshot_path dir name = None) ->
      load_data storage_dir opponent_agent w
      = (Ok ∅, mkWorld (set_data ∅ (self_of w)) (fs_of w))).
Proof.
  split; [|split].
  - by intros [dir|].
  - intros [name|]; [|done]. by destruct w.
  - intros storage_dir opponent_agent [->|[->|(dir & name & -> & -> & Hnone)]].
    + done.
    + by destruct storage_dir.
    + unfold load_data, py_bind, on_self, on_fs, py_modify, os_path_exists. simpl.
      rewrite Hnone. by rewrite bool_decide_eq_false_2 by (by intros [? ?]).
Qed.

(** C6, as the code has it. Whenever [save_data] with both keys
    returns normally, [load_data] with the same directory and opponent,
    called by any learning model that finds the disk as [save_data] left
    it, returns the mapping that was saved and stores it as the object's
    data, whatever data the object held before. *)
Theorem save_then_load w (storage_dir opponent_agent : string) w1 :
  save_data (Some storage_dir) (Some opponent_agent) w = (Ok tt, w1) ->
  let saved := data (self_of w) in
  forall w2,
    fs_of w2 = fs_of w1 ->
    load_data (Some storage_dir) (Some opponent_agent) w2
    = (Ok saved, mkWorld (set_data saved (self_of w2)) (fs_of w2)).
Proof.
  intros Hsave saved w2 Hfs.
  assert (Hnode : fs_of w1 !! snapshot_path storage_dir opponent_agent
                  = Some (RegularFile (PickleOf saved))).
  { revert Hsave.
    unfold save_data, py_bind, on_fs, open_wb, pickle_dump, py_modify, py_get. simpl.
    destruct (fs_of w !! snapshot_path storage_dir opponent_agent) as [[content|]|];
      simpl; [| done |].
    - intros [= <-]. simpl. unfold FileSystem. by rewrite lookup_insert_eq.
    - destruct (fs_of w !! dirname (snapshot_path storage_dir opponent_agent))
        as [[content|]|]; simpl; [done| |done].
      intros [= <-]. simpl. unfold FileSystem. by rewrite lookup_insert_eq. }
  rewrite <- Hfs in Hnode.
  unfold load_data, py_bind, on_self, on_fs, py_modify, os_path_exists, open_rb,
    py_lift, py_get, py_ret.
  simpl. rewrite Hnode.
  rewrite bool_decide_eq_true_2 by (by eexists). simpl.
  rewrite Hnode. simpl.
  by destruct (self_of w2).
Qed.
End LearningFacts.

(** * Further properties

    How the methods of the two classes compose, what they leave behind
    when they raise, and what they never touch. *)

(** ** Dictionary updates *)

Section DictUpdates.
Context {K V : Type} `{EqDecision K}.

Lemma dict_set_fresh (d : dict K V) (k : K) (v : V) :
  k ∉ d.*1 -> dict_set d k v = d ++ [(k, v)].
Proof.
  induction d as [|[k0 v0] rest IH]; simpl; [done|].
  intros Hnot. apply not_elem_of_cons in Hnot as [Hne Hrest].
  rewrite decide_False by done. by rewrite IH.
Qed.

Lemma dict_get_set_eq (d : dict K V) (k : K) (v : V) :
  dict_get (dict_set d k v) k = Some v.
Proof.
  induction d as [|[k0 v0] rest IH]; simpl.
  - by rewrite decide_True.
  - case_decide; simpl; [subst; by rewrite decide_True|by rewrite decide_False].
Qed.

Lemma dict_get_set_ne (d : dict K V) (k k' : K) (v : V) :
  k' <> k -> dict_get (dict_set d k v) k' = dict_get d k'.
Proof.
  intros Hne. induction d as [|[k0 v0] rest IH]; simpl.
  - by rewrite decide_False.
  - case_decide; simpl; [subst; by rewrite !decide_False|].
    case_decide; [done|exact IH].
Qed.

Lemma dict_set_present (d : dict K V) (k : K) (v : V) :
  k ∈ d.*1 -> (dict_set d k v).*1 = d.*1.
Proof.
  induction d as [|[k0 v0] rest IH]; simpl.
  - intros Hin. by apply elem_of_nil in Hin.
  - intros Hin. case_decide; simpl; [done|].
    apply elem_of_cons in Hin as [Hin|Hin]; [done|]. f_equal. by apply IH.
Qed.

Lemma dict_set_NoDup (d : dict K V) (k : K) (v : V) :
  NoDup d.*1 -> NoDup (dict_set d k v).*1.
Proof.
  intros Hnd. destruct (decide (k ∈ d.*1)) as [Hin|Hnot].
  - by rewrite dict_set_present.
  - rewrite dict_set_fresh, fmap_app by done. simpl.
    apply NoDup_app. split; [done|]. split; [|apply NoDup_singleton].
    intros x Hx Hk. apply list_elem_of_singleton in Hk. by subst.
Qed.

(** What a loop body never changes about a value, the loop never changes. *)
Lemma dict_for_preserves {A B} (f : V -> B) (body : K -> V -> A -> Result A * V)
    (d : dict K V) (acc : A) :
  (forall k v a, f (body k v a).2 = f v) ->
  map (fun entry => f entry.2) (dict_for body d acc).2 = map (fun entry => f entry.2) d.
Proof.
  intros Hbody. revert acc.
  induction d as [|[k v] rest IH]; intros acc; simpl; [done|].
  specialize (Hbody k v acc).
  destruct (body k v acc) as [[acc'|e] v']; simpl in *; [|by rewrite Hbody].
  specialize (IH acc'). destruct (dict_for body rest acc') as [r rest'].
  simpl in *. by rewrite Hbody, IH.
Qed.

(** An exception that ends a loop is one its body raised. *)
Lemma dict_for_raises {A} (P : PyExc -> Prop) (body : K -> V -> A -> Result A * V)
    (d : dict K V) (acc : A) (e : PyExc) :
  (forall k v a e, (body k v a).1 = Raise e -> P e) ->
  (dict_for body d acc).1 = Raise e -> P e.
Proof.
  intros Hbody. revert acc.
  induction d as [|[k v] rest IH]; intros acc; simpl; [done|].
  specialize (Hbody k v acc).
  destruct (body k v acc) as [[acc'|e'] v']; simpl in *.
  - specialize (IH acc'). by destruct (dict_for body rest acc') as [r rest'].
  - intros [= ->]. by apply Hbody.
Qed.
End DictUpdates.

(** ** Binary64: division by 1.0, quotients between 0.0 and 1.0 *)

Section DivByOne.
#[local] Open Scope Z_scope.

(** Rounding a representable number gives the number itself. *)
Lemma round_exact (s : bool) (m : positive) (e : Z) :
  bounded prec emax m e = true ->
  binary_round_aux prec emax s (Z.pos m) e loc_Exact = S754_finite s m e.
Proof.
  intros Hb. destruct (bounded_canonical m e Hb) as [Hc He].
  unfold binary_round_aux, shr_fexp. unfold Zdigits2.
  rewrite Hc, Z.sub_diag.
  cbv [shr shr_record_of_loc shr_m loc_of_shr_record round_nearest_even].
  rewrite Hc, Z.sub_diag. cbv [shr shr_m shr_record_of_loc].
  by rewrite He.
Qed.

(** The same at twice the mantissa, one exponent lower. *)
Lemma round_doubled_exact (s : bool) (m : positive) (e : Z) :
  bounded prec emax m e = true ->
  binary_round_aux prec emax s (Z.pos m~0) (e - 1) loc_Exact = S754_finite s m e.
Proof.
  intros Hb. destruct (bounded_canonical m e Hb) as [Hc He].
  unfold binary_round_aux, shr_fexp.
  unfold Zdigits2 at 1. rewrite Zdigits2_xO.
  replace (Z.pos (digits2_pos m) + 1 + (e - 1)) with (Z.pos (digits2_pos m) + e) by lia.
  rewrite Hc. replace (e - (e - 1)) with 1 by lia.
  cbv [shr shr_record_of_loc SpecFloat.iter_pos shr_1 shr_m loc_of_shr_record
       round_nearest_even orb].
  replace (e - 1 + 1) with e by lia.
  unfold Zdigits2. rewrite Hc, Z.sub_diag. cbv [shr shr_m shr_record_of_loc].
  by rewrite He.
Qed.

Lemma div_eucl_exact (q d : Z) : 0 < d -> Z.div_eucl (q * d) d = (q, 0).
Proof.
  intros Hd.
  pose proof (Z.div_mul q d ltac:(lia)) as Hq.
  pose proof (Z.mod_mul q d ltac:(lia)) as Hr.
  unfold Z.div, Z.modulo in Hq, Hr.
  destruct (Z.div_eucl (q * d) d) as [q' r']. by subst.
Qed.

(** A finite number divided by 1.0 is the number itself. *)
Lemma SFdiv_one (s : bool) (m : positive) (e : Z) :
  bounded prec emax m e = true ->
  SFdiv prec emax (S754_finite s m e) (Prim2SF 1) = S754_finite s m e.
Proof.
  intros Hb. destruct (bounded_canonical m e Hb) as [Hc He].
  rewrite Prim2SF_one. cbn [SFdiv]. rewrite xorb_false_r.
  unfold SFdiv_core_binary.
  change (Zdigits2 (Z.pos 4503599627370496)) with 53.
  unfold Zdigits2. rewrite fexp_unfold in Hc. rewrite fexp_unfold.
  set (d := Z.pos (digits2_pos m)) in *.
  set (one := Z.pos 4503599627370496).
  assert (Hone : one = 2 ^ 52) by reflexivity.
  assert (Hpos : 0 < one) by reflexivity.
  destruct (Z.eq_dec e (-1074)) as [Hmin|Hnorm].
  - replace (Z.min (Z.max (d + e - (53 + -52) - 53) (-1074)) (e - -52)) with e by lia.
    replace (e - -52 - e) with 52 by lia. cbv beta iota zeta.
    rewrite Z.shiftl_mul_pow2 by lia. rewrite <- Hone.
    rewrite div_eucl_exact by exact Hpos.
    assert (Hl : new_location one 0 = loc_Exact) by reflexivity.
    rewrite Hl. by apply round_exact.
  - replace (Z.min (Z.max (d + e - (53 + -52) - 53) (-1074)) (e - -52)) with (e - 1) by lia.
    replace (e - -52 - (e - 1)) with 53 by lia. cbv beta iota zeta.
    rewrite Z.shiftl_mul_pow2 by lia.
    replace (Z.pos m * 2 ^ 53) with (Z.pos m~0 * one).
    2:{ rewrite Hone. change (2 ^ 53) with (2 * 2 ^ 52).
        generalize (2 ^ 52). intros p. lia. }
    rewrite div_eucl_exact by exact Hpos.
    assert (Hl : new_location one 0 = loc_Exact) by reflexivity.
    rewrite Hl. by apply round_doubled_exact.
Qed.
End DivByOne.

(** Dividing by 1.0 is exact, for every float. *)
Lemma fdiv_1_r (x : float) : x / 1 = x.
Proof.
  apply Prim2SF_inj. rewrite div_spec.
  pose proof (Prim2SF_valid x) as Hv.
  destruct (Prim2SF x) as [s|s| |s m e] eqn:Hx.
  - rewrite Prim2SF_one. cbn [SF64div SFdiv]. by rewrite xorb_false_r.
  - rewrite Prim2SF_one. cbn [SF64div SFdiv]. by rewrite xorb_false_r.
  - done.
  - by apply SFdiv_one.
Qed.

Section UnitInterval.

(** A number that is at most 1 does not compare greater than 1. *)
Lemma at_most_one_not_above (x : spec_float) :
  at_most_one x -> SFltb (Prim2SF 1) x = false.
Proof.
  change (Prim2SF 1) with (S754_finite false 4503599627370496 (-52)).
  destruct x as [s|s| |s m e]; cbn [at_most_one].
  - reflexivity.
  - intros ->. reflexivity.
  - intros [].
  - intros Hle. unfold SFltb, SFcompare. destruct s; [reflexivity|].
    destruct Hle as [Hs|Hle]; [discriminate Hs|].
    destruct (Z.compare_spec (-52) e) as [Heq|Hlt|Hgt].
    + rewrite Pos.compare_cont_spec. unfold Pos.switch_Eq.
      destruct (Pos.compare_spec 4503599627370496 m) as [Hm|Hlt|Hgt];
        [reflexivity| |reflexivity].
      exfalso. destruct Hle as [Hle|[_ Hle]].
      * clear Hlt. lia.
      * exact (Pos.lt_irrefl _ (Pos.le_lt_trans _ _ _ Hle Hlt)).
    + exfalso. destruct Hle as [Hle|[Hle _]]; clear -Hle Hlt; lia.
    + reflexivity.
Qed.

(** The quotient of a number that is not negative by a positive one is
    not negative, and never a NaN. *)
Lemma SFdiv_nonneg (x y : spec_float) :
  match x with S754_zero _ | S754_finite false _ _ => True | _ => False end ->
  match y with S754_finite false _ _ => True | _ => False end ->
  match SFdiv prec emax x y with
  | S754_zero _ | S754_finite false _ _ | S754_infinity false => True
  | _ => False
  end.
Proof.
  destruct y as [sy|sy| |[] my ey]; try done.
  destruct x as [sx|sx| |[] mx ex]; try done. intros _ _.
  unfold SFdiv.
  destruct (SFdiv_core_binary prec emax (Z.pos mx) ex (Z.pos my) ey) as [[mz ez] lz] eqn:Hcore.
  assert (0 <= mz)%Z as Hmz.
  { unfold SFdiv_core_binary in Hcore.
    match type of Hcore with
    | (let '(q, r) := Z.div_eucl ?a ?b in _) = _ =>
        assert (0 <= a)%Z as Ha;
        [|pose proof (Z.div_pos a b Ha ltac:(lia)) as Hq; unfold Z.div in Hq;
          destruct (Z.div_eucl a b) as [q r]; by injection Hcore as <- _ _]
    end.
    match goal with |- (0 <= match ?s with _ => _ end)%Z => destruct s end;
      [lia|apply Z.shiftl_nonneg; lia|lia]. }
  pose proof (binary_round_aux_sign false mz ez lz Hmz) as Hsign.
  change (xorb false false) with false.
  destruct (binary_round_aux prec emax false mz ez lz) as [s|s| |s m e]; try done;
    by subst.
Qed.
End UnitInterval.

(** A finite float that is neither below zero nor zero is above zero. *)
Lemma fltb_positive (x : float) :
  isfinite x = true -> (x <? 0) = false -> (x =? 0) = false -> (0 <? x) = true.
Proof.
  unfold isfinite. rewrite !ltb_spec, FloatAxioms.eqb_spec.
  change (Prim2SF 0) with (S754_zero false).
  by destruct (Prim2SF x) as [s|s| |[] m e].
Qed.

(** A finite float that is not negative, divided by a positive finite
    float that is not smaller, lies between 0.0 and 1.0. *)
Lemma fdiv_unit_interval (v m : float) :
  isfinite v = true -> (v <? 0) = false ->
  isfinite m = true -> (0 <? m) = true -> (m <? v) = false ->
  isfinite (v / m) = true /\ (v / m <? 0) = false /\ (1 <? v / m) = false.
Proof.
  intros Hfv Hnn Hfm Hpos Hle.
  pose proof (fdiv_at_most_one v m Hfv Hfm Hpos Hle) as Hone.
  pose proof (at_most_one_not_above _ Hone) as Habove.
  assert (Hsign : match Prim2SF (v / m) with
                  | S754_zero _ | S754_finite false _ _ | S754_infinity false => True
                  | _ => False
                  end).
  { rewrite div_spec. apply SFdiv_nonneg.
    - revert Hfv Hnn. unfold isfinite. rewrite ltb_spec.
      change (Prim2SF 0) with (S754_zero false).
      by destruct (Prim2SF v) as [s|s| |[] mv ev].
    - revert Hfm Hpos. unfold isfinite. rewrite ltb_spec.
      change (Prim2SF 0) with (S754_zero false).
      by destruct (Prim2SF m) as [s|s| |[] mm em]. }
  split; [|split].
  - clear Habove. unfold isfinite.
    destruct (Prim2SF (v / m)) as [s|[]| |s mq eq]; cbn [at_most_one] in Hone;
      first [reflexivity|discriminate Hone|destruct Hsign].
  - clear Habove Hone. rewrite ltb_spec. change (Prim2SF 0) with (S754_zero false).
    destruct (Prim2SF (v / m)) as [s|[]| |[] mq eq]; first [reflexivity|destruct Hsign].
  - rewrite ltb_spec. exact Habove.
Qed.

(** ** [update] and [q_learning_update] *)

Section UpdateFacts.
Context {Value : Type} `{Countable Value}.
Implicit Types (self : @OpponentModel Value _ _).

Lemma update_issue_weights_two self (t : float) (earlier : list (@Bid Value))
    (b0 b1 : @Bid Value) :
  offers self = earlier ++ [b0; b1] ->
  update_issue_weights t self
  = (Ok tt,
     set_issues
       (map (fun '(issue_name, issue_obj) =>
               (issue_name,
                if decide (getValue b0 issue_name = getValue b1 issue_name)
                then mkIssue (weight issue_obj + alpha self * (1.0 - t * 3))
                             (value_weights issue_obj)
                else issue_obj))
            (issues self))
       self).
Proof.
  intros Hoffers. unfold update_issue_weights, py_bind, py_get. simpl.
  rewrite decide_False by (rewrite Hoffers, length_app; simpl; lia).
  rewrite Hoffers, py_last_two_app. unfold for_issues.
  erewrite (dict_for_total _ (fun _ _ => tt)
              (fun '(issue_name, issue_obj) =>
                 (issue_name,
                  if decide (getValue b0 issue_name = getValue b1 issue_name)
                  then mkIssue (weight issue_obj + alpha self * (1.0 - t * 3))
                               (value_weights issue_obj)
                  else issue_obj))).
  - f_equal. by induction (issues self).
  - intros k v []. unfold update_issue_weight. simpl. by case_decide.
  - done.
Qed.

Lemma update_issue_weights_logged self (t : float) (curr_bid : @Bid Value) :
  update_issue_weights t (set_offers (offers self ++ [curr_bid]) self)
  = (Ok tt,
     mkOpponentModel (domain self) (alpha self) (gamma self) (offers self ++ [curr_bid])
       match last (offers self) with
       | None => issues self
       | Some last_bid =>
           map (fun '(issue_name, issue_obj) =>
                  (issue_name,
                   if decide (getValue last_bid issue_name = getValue curr_bid issue_name)
                   then mkIssue (weight issue_obj + alpha self * (1.0 - t * 3))
                                (value_weights issue_obj)
                   else issue_obj))
               (issues self)
       end
       (q_table self)).
Proof.
  destruct (last (offers self)) as [last_bid|] eqn:Hlast.
  - apply last_Some in Hlast as [earlier Hlog].
    rewrite (update_issue_weights_two _ t earlier last_bid curr_bid).
    + done.
    + simpl. by rewrite Hlog, <- app_assoc.
  - apply last_None in Hlast.
    unfold update_issue_weights, py_bind, py_get. simpl.
    rewrite decide_True by (rewrite Hlast; simpl; lia). done.
Qed.

(** X1. [update] with both bids present, on a domain whose first issue
    declares at least one value, returns normally after three steps: the
    current bid is appended to the offer log; the weight of every issue on
    which the offer logged last before the call and the current bid agree
    grows by [alpha * (1.0 - t * 3)] (no weight changes when the log was
    empty); and the Q-table entry keyed by the previous bid is rewritten by
    the Q-learning rule, from the table as it was before the call. The bid
    compared with the current one is the last logged offer, not
    [prev_bid]. *)
Theorem update_with_both_bids self (t : float) (prev_bid curr_bid : @Bid Value)
    (reward learning_rate discount_factor : float)
    (issue : string) (values : list Value) (others : @Domain Value) :
  domain self = (issue, values) :: others ->
  values <> [] ->
  let reweighted :=
    match last (offers self) with
    | None => issues self
    | Some last_bid =>
        map (fun '(issue_name, issue_obj) =>
               (issue_name,
                if decide (getValue last_bid issue_name = getValue curr_bid issue_name)
                then mkIssue (weight issue_obj + alpha self * (1.0 - t * 3))
                             (value_weights issue_obj)
                else issue_obj))
            (issues self)
    end in
  let prev_key :=
    ((getValue prev_bid "price", getValue prev_bid "quantity"), getValue prev_bid issue) in
  let curr_state := (getValue curr_bid "price", getValue curr_bid "quantity") in
  let read key := default 0.0 (q_table self !! key) in
  exists max_q_value,
    py_max (map (fun a => read (curr_state, Some a)) values) = Ok max_q_value /\
    update t (Some prev_bid) (Some curr_bid) reward learning_rate discount_factor self
    = (Ok tt,
       mkOpponentModel (domain self) (alpha self) (gamma self)
         (offers self ++ [curr_bid]) reweighted
         (<[prev_key :=
              (1 - learning_rate) * read prev_key
              + learning_rate * (reward + discount_factor * max_q_value)]>
            (q_table self))).
Proof.
  intros Hdom Hne reweighted prev_key curr_state read.
  destruct values as [|a0 more]; [done|].
  eexists. split; [reflexivity|].
  unfold update, py_bind, py_modify.
  rewrite update_issue_weights_logged.
  by erewrite q_learning_update_eval by exact Hdom.
Qed.

(** X2. [update] is not atomic. On a model whose domain has no issue,
    [update] with both bids raises [IndexError] (from
    [list(self.domain.getIssues())[0]]), but only after it has logged the
    current bid and adjusted the issue weights; the Q-table is as it
    was. *)
Theorem update_raises_after_logging self (t : float) (prev_bid curr_bid : @Bid Value)
    (reward learning_rate discount_factor : float) :
  domain self = [] ->
  update t (Some prev_bid) (Some curr_bid) reward learning_rate discount_factor self
  = (Raise IndexError,
     mkOpponentModel (domain self) (alpha self) (gamma self) (offers self ++ [curr_bid])
       match last (offers self) with
       | None => issues self
       | Some last_bid =>
           map (fun '(issue_name, issue_obj) =>
                  (issue_name,
                   if decide (getValue last_bid issue_name = getValue curr_bid issue_name)
                   then mkIssue (weight issue_obj + alpha self * (1.0 - t * 3))
                                (value_weights issue_obj)
                   else issue_obj))
               (issues self)
       end
       (q_table self)).
Proof.
  intros Hdom. unfold update, py_bind, py_modify.
  rewrite update_issue_weights_logged.
  unfold q_learning_update, py_bind, py_get, py_lift, first_issue_value,
    get_state_representation, getIssues. simpl. by rewrite Hdom.
Qed.

(** X3. [q_learning_update] returns normally exactly when both bids
    are present and the domain's first issue declares at least one value.
    Otherwise it raises and leaves the model as it was: [AttributeError]
    for a missing previous bid, [IndexError] on a domain without issues,
    [AttributeError] for a missing current bid, and [ValueError] ([max] of
    an empty sequence) when the first issue declares no value. *)
Theorem q_learning_update_raises self (prev_bid curr_bid : option (@Bid Value))
    (reward learning_rate discount_factor : float) :
  let out := q_learning_update prev_bid curr_bid reward learning_rate discount_factor self in
  (out.1 = Ok tt <->
   is_Some prev_bid /\ is_Some curr_bid /\
   exists issue a0 more others, domain self = (issue, a0 :: more) :: others) /\
  (out.1 <> Ok tt -> out.2 = self) /\
  (prev_bid = None -> out.1 = Raise AttributeError) /\
  (is_Some prev_bid -> domain self = [] -> out.1 = Raise IndexError) /\
  (is_Some prev_bid -> domain self <> [] -> curr_bid = None ->
   out.1 = Raise AttributeError) /\
  (is_Some prev_bid -> is_Some curr_bid ->
   (exists issue others, domain self = (issue, []) :: others) ->
   out.1 = Raise ValueError).
Proof.
  unfold q_learning_update, py_bind, py_get, py_lift, py_modify, first_issue_value,
    get_state_representation, getValues, getIssues, dict_getitem.
  destruct prev_bid as [prev|]; simpl.
  2:{ repeat split; try done; intros; destruct_and?;
        repeat match goal with Hs : is_Some None |- _ => by destruct Hs end. }
  destruct (domain self) as [|[issue values] others] eqn:Hdom; simpl.
  { repeat split; try done; intros; destruct_and?;
      repeat match goal with
             | Hs : is_Some None |- _ => by destruct Hs
             | He : ex _ |- _ => destruct He
             end; done. }
  destruct curr_bid as [curr|]; simpl.
  2:{ repeat split; try done; intros; destruct_and?;
        repeat match goal with Hs : is_Some None |- _ => by destruct Hs end. }
  rewrite decide_True by done.
  destruct values as [|a0 more]; simpl.
  - repeat split; try done; intros; destruct_and?;
      repeat match goal with
             | He : ex _ |- _ => destruct He
             end; done.
  - repeat split; try done; intros; destruct_and?;
      repeat match goal with
             | He : ex _ |- _ => destruct He
             end; try done.
    by eexists _, _, _, _.
Qed.

(** X4. [q_learning_update] reads from the two bids only the previous
    bid's values on "price", on "quantity" and on the domain's first issue,
    and the current bid's values on "price" and "quantity": bids that agree
    there give the same result and the same model, whatever they say on
    any other issue. *)
Theorem q_learning_update_reads_three_values self
    (prev_bid prev_bid' curr_bid curr_bid' : @Bid Value)
    (reward learning_rate discount_factor : float) :
  getValue prev_bid "price" = getValue prev_bid' "price" ->
  getValue prev_bid "quantity" = getValue prev_bid' "quantity" ->
  (forall issue, head (getIssues (domain self)) = Some issue ->
                 getValue prev_bid issue = getValue prev_bid' issue) ->
  getValue curr_bid "price" = getValue curr_bid' "price" ->
  getValue curr_bid "quantity" = getValue curr_bid' "quantity" ->
  q_learning_update (Some prev_bid) (Some curr_bid)
                    reward learning_rate discount_factor self
  = q_learning_update (Some prev_bid') (Some curr_bid')
                      reward learning_rate discount_factor self.
Proof.
  intros Hp Hq Ha Hcp Hcq.
  unfold q_learning_update, py_bind, py_get, py_lift, py_modify, first_issue_value,
    get_state_representation, getValues, getIssues, dict_getitem in *.
  simpl. rewrite Hp, Hq, Hcp, Hcq.
  destruct (domain self) as [|[issue values] others]; simpl in *; [done|].
  by rewrite (Ha issue eq_refl).
Qed.
(** [get_utility] reads the issue table and nothing else. *)
Lemma get_utility_reads_issues self self' (bid : option (@Bid Value)) :
  issues self' = issues self -> (get_utility bid self').1 = (get_utility bid self).1.
Proof.
  intros Hissues. destruct bid as [bid|]; [|done].
  unfold get_utility, for_issues. rewrite Hissues.
  by destruct (dict_for (add_issue_utility bid) (issues self) 0.0).
Qed.

(** X22. The Q-table never enters a utility: [get_utility] gives the
    same result on models with the same issue table; [q_learning_update]
    leaves the utility of every bid as it was, returned or raised; and so
    does an [update] that finds the offer log empty, the first one of a
    model. *)
Theorem utility_ignores_q_table self :
  (forall self' (bid : option (@Bid Value)),
      issues self' = issues self ->
      (get_utility bid self').1 = (get_utility bid self).1) /\
  (forall (prev_bid curr_bid bid : option (@Bid Value))
          (reward learning_rate discount_factor : float),
      (get_utility bid (q_learning_update prev_bid curr_bid
                                          reward learning_rate discount_factor self).2).1
      = (get_utility bid self).1) /\
  (forall (t : float) (prev_bid curr_bid bid : option (@Bid Value))
          (reward learning_rate discount_factor : float),
      offers self = [] ->
      (get_utility bid (update t prev_bid curr_bid
                               reward learning_rate discount_factor self).2).1
      = (get_utility bid self).1).
Proof.
  split; [|split].
  - intros self' bid. apply get_utility_reads_issues.
  - intros. apply get_utility_reads_issues.
    apply (q_learning_update_frame_rest self prev_bid curr_bid
             reward learning_rate discount_factor).
  - intros t prev_bid curr_bid bid reward learning_rate discount_factor Hlog.
    apply get_utility_reads_issues.
    destruct prev_bid as [prev|], curr_bid as [curr|]; try done.
    unfold update, py_bind, py_modify.
    rewrite update_issue_weights_logged, Hlog. simpl.
    match goal with
    | |- issues (q_learning_update ?p ?c ?r ?l ?d ?s).2 = _ =>
        by rewrite (proj1 (q_learning_update_frame_rest s p c r l d))
    end.
Qed.
(** One [update], returned or raised: what it logs and what it keeps. *)
Lemma update_frame self (t : float) (prev_bid curr_bid : option (@Bid Value))
    (reward learning_rate discount_factor : float) :
  let self' := (update t prev_bid curr_bid reward learning_rate discount_factor self).2 in
  domain self' = domain self /\ alpha self' = alpha self /\ gamma self' = gamma self /\
  offers self'
  = offers self ++ match prev_bid, curr_bid with
                   | Some _, Some curr => [curr]
                   | _, _ => []
                   end /\
  map (fun entry => (entry.1, value_weights entry.2)) (issues self')
  = map (fun entry => (entry.1, value_weights entry.2)) (issues self).
Proof.
  destruct prev_bid as [prev|], curr_bid as [curr|]; simpl;
    try (by rewrite app_nil_r).
  unfold update, py_bind, py_modify.
  rewrite update_issue_weights_logged.
  match goal with
  | |- context [q_learning_update ?p ?c ?r ?l ?d ?s] =>
      pose proof (q_learning_update_frame_rest s p c r l d)
        as (Hissues & Hoffers & Hdomain & Halpha & Hgamma)
  end.
  simpl in *. rewrite Hissues, Hoffers, Hdomain, Halpha, Hgamma.
  do 4 (split; [done|]).
  destruct (last (offers self)) as [last_bid|]; [|done].
  rewrite map_map. apply map_ext. intros [name obj]. simpl. by case_decide.
Qed.

(** X23. Across any sequence of [update] calls, returning or raising,
    the model keeps its domain, [alpha] and [gamma]; its issues keep their
    names, their order and every value weight, so nothing but issue weights
    and the Q-table is ever learnt; and the offer log grows by exactly the
    current bids of the calls that had both bids, in call order, those of
    calls that raised included. *)
Theorem run_updates_frame self (calls : list (@UpdateCall Value)) :
  let self' := run_updates calls self in
  domain self' = domain self /\ alpha self' = alpha self /\ gamma self' = gamma self /\
  offers self'
  = offers self
    ++ omap (fun call => match call_prev_bid call with
                         | Some _ => call_curr_bid call
                         | None => None
                         end) calls /\
  map (fun entry => (entry.1, value_weights entry.2)) (issues self')
  = map (fun entry => (entry.1, value_weights entry.2)) (issues self).
Proof.
  revert self. induction calls as [|call rest IH]; intros self.
  { unfold run_updates. simpl. by rewrite app_nil_r. }
  change (run_updates (call :: rest) self)
    with (run_updates rest
            (update (call_time call) (call_prev_bid call) (call_curr_bid call)
                    (call_reward call) (call_learning_rate call)
                    (call_discount_factor call) self).2).
  destruct (IH (update (call_time call) (call_prev_bid call) (call_curr_bid call)
                       (call_reward call) (call_learning_rate call)
                       (call_discount_factor call) self).2)
    as (Hdomain & Halpha & Hgamma & Hoffers & Hvalues).
  destruct (update_frame self (call_time call) (call_prev_bid call) (call_curr_bid call)
              (call_reward call) (call_learning_rate call) (call_discount_factor call))
    as (Hdomain1 & Halpha1 & Hgamma1 & Hoffers1 & Hvalues1).
  cbv zeta.
  split; [congruence|]. split; [congruence|]. split; [congruence|].
  split; [|congruence].
  rewrite Hoffers, Hoffers1, <- app_assoc. f_equal.
  destruct (call_prev_bid call) as [prev|] eqn:Hprev,
           (call_curr_bid call) as [curr|] eqn:Hcurr;
    simpl; by rewrite Hprev, ?Hcurr.
Qed.
End UpdateFacts.

(** ** Construction *)

Section ConstructionFacts.
Context {Value : Type} `{Countable Value}.
Implicit Types (self : @OpponentModel Value _ _).

Lemma Issue_init_fold_keys (values : list Value) (d : dict Value float) (v : Value) :
  v ∈ (fold_left (fun d value => dict_set d value (0.0 + 1e-10)) values d).*1
  <-> v ∈ values \/ v ∈ d.*1.
Proof.
  revert d. induction values as [|v0 rest IH]; intros d; simpl.
  - split; [by right|]. intros [Hin|Hin]; [by apply elem_of_nil in Hin|done].
  - rewrite IH, dict_set_keys, elem_of_cons. tauto.
Qed.

Lemma Issue_init_fold_NoDup (values : list Value) (d : dict Value float) :
  NoDup d.*1 ->
  NoDup (fold_left (fun d value => dict_set d value (0.0 + 1e-10)) values d).*1.
Proof.
  revert d. induction values as [|v0 rest IH]; intros d Hnd; simpl; [done|].
  apply IH. by apply dict_set_NoDup.
Qed.

Lemma Issue_init_fold_distinct (values : list Value) (d : dict Value float) :
  NoDup (d.*1 ++ values) ->
  fold_left (fun d value => dict_set d value (0.0 + 1e-10)) values d
  = d ++ map (fun v => (v, 1e-10)) values.
Proof.
  revert d. induction values as [|v0 rest IH]; intros d Hnd; simpl.
  - by rewrite app_nil_r.
  - assert (Hfresh : v0 ∉ d.*1).
    { apply NoDup_app in Hnd as (_ & Hdisj & _). intros Hin.
      apply (Hdisj v0 Hin). left. }
    rewrite dict_set_fresh by done. rewrite IH.
    + by rewrite <- app_assoc.
    + rewrite fmap_app, <- app_assoc. exact Hnd.
Qed.

(** X5. [Issue(values)] has weight 1.0 and holds one value weight per
    distinct value, each [0.0 + 1e-10], which is the float 1e-10; for
    values enumerated without repetition the mapping lists them in
    enumeration order. *)
Theorem Issue_init_spec (values : list Value) :
  weight (Issue_init values) = 1.0 /\
  NoDup (value_weights (Issue_init values)).*1 /\
  (forall v, v ∈ (value_weights (Issue_init values)).*1 <-> v ∈ values) /\
  Forall (fun '(_, w) => w = 1e-10) (value_weights (Issue_init values)) /\
  (NoDup values ->
   value_weights (Issue_init values) = map (fun v => (v, 1e-10)) values).
Proof.
  split; [done|]. split; [|split; [|split]].
  - apply Issue_init_fold_NoDup. constructor.
  - intros v. unfold Issue_init. simpl. rewrite Issue_init_fold_keys.
    split; [intros [Hin|Hin]; [done|by apply elem_of_nil in Hin]|by left].
  - apply Issue_init_value_weights.
  - intros Hnd. unfold Issue_init. simpl. by rewrite Issue_init_fold_distinct.
Qed.

Lemma issues_of_domain (entries : @Domain Value) (d : dict string (@Issue Value)) :
  NoDup (d.*1 ++ entries.*1) ->
  fold_left (fun d '(issue, values) => dict_set d issue (Issue_init values)) entries d
  = d ++ map (fun '(issue, values) => (issue, Issue_init values)) entries.
Proof.
  revert d. induction entries as [|[issue values] rest IH]; intros d Hnd; simpl.
  - by rewrite app_nil_r.
  - assert (Hfresh : issue ∉ d.*1).
    { apply NoDup_app in Hnd as (_ & Hdisj & _). intros Hin.
      apply (Hdisj issue Hin). left. }
    rewrite dict_set_fresh by done. rewrite IH.
    + by rewrite <- app_assoc.
    + rewrite fmap_app, <- app_assoc. exact Hnd.
Qed.

Lemma normalize_values_loop_ValueError (entries : @Domain Value) (total : float) :
  Exists (fun '(_, values) => values = []) entries ->
  exists table,
    dict_for normalize_values
             (map (fun '(issue, values) => (issue, Issue_init values)) entries) total
    = (Raise ValueError, table).
Proof.
  revert total. induction entries as [|[issue values] rest IH]; intros total Hex.
  { by apply Exists_nil in Hex. }
  destruct values as [|v0 more].
  { simpl. by eexists. }
  apply Exists_cons in Hex as [Hhead|Htail]; [done|].
  simpl map. cbn [dict_for].
  rewrite normalize_values_ok.
  - destruct (IH (total + weight (Issue_init (v0 :: more))) Htail) as [table Hloop].
    rewrite Hloop. by eexists.
  - by apply Issue_init_nonempty.
  - by rewrite Issue_init_max.
Qed.

(** X6. On a domain (issue names pairwise distinct) in which some
    issue declares no value the constructor raises [ValueError]:
    [normalize] takes [max] of that issue's empty mapping. *)
Theorem OpponentModel_init_empty_value_set (domain0 : @Domain Value) (a g : float) :
  NoDup (getIssues domain0) ->
  Exists (fun '(_, values) => values = []) domain0 ->
  OpponentModel_init domain0 a g = Raise ValueError.
Proof.
  intros Hnd Hex. unfold OpponentModel_init, getIssuesValues.
  rewrite issues_of_domain by exact Hnd. simpl.
  unfold normalize, py_bind, for_issues. simpl.
  destruct (normalize_values_loop_ValueError domain0 0.0 Hex) as [table Hloop].
  by rewrite Hloop.
Qed.

Lemma sum_fresh_weights (entries : @Domain Value) (total : float) :
  fold_left (fun total '(_, issue_obj) => total + weight issue_obj)
            (map (fun '(issue, values) => (issue, Issue_init values)) entries) total
  = fold_left (fun total _ => total + 1.0) entries total.
Proof.
  revert total. induction entries as [|[issue values] rest IH]; intros total; [done|].
  simpl. by rewrite IH.
Qed.

Lemma normalized_fresh_issue (total : float) (values : list Value) :
  values <> [] ->
  normalized_issue total (Issue_init values)
  = mkIssue (1.0 / total)
            (map (fun v => (v, 1.0)) (value_weights (Issue_init values)).*1).
Proof.
  intros Hne. unfold normalized_issue. rewrite Issue_init_max by done.
  f_equal. pose proof (Issue_init_value_weights values) as Hall.
  generalize dependent (value_weights (Issue_init values)). intros vw Hall.
  induction Hall as [|[v w] rest Hw _ IH]; [done|].
  simpl. f_equal; [by subst|exact IH].
Qed.

(** X7. On a domain (issue names pairwise distinct) whose every issue
    declares a value, the constructor returns the model with the domain,
    [alpha] and [gamma] it was given, an empty offer log, an empty Q-table
    and one issue record per issue, in domain order: every issue has the
    same weight, 1.0 divided by the float sum of one 1.0 per issue, and
    every value weight is 1.0. *)
Theorem OpponentModel_init_fresh (domain0 : @Domain Value) (a g : float) :
  NoDup (getIssues domain0) ->
  Forall (fun '(_, values) => values <> []) domain0 ->
  let total := fold_left (fun total _ => total + 1.0) domain0 0.0 in
  OpponentModel_init domain0 a g
  = Ok (mkOpponentModel domain0 a g []
          (map (fun '(issue, values) =>
                  (issue,
                   mkIssue (1.0 / total)
                           (map (fun v => (v, 1.0)) (value_weights (Issue_init values)).*1)))
               domain0)
          ∅).
Proof.
  intros Hnd Hne total. unfold OpponentModel_init, getIssuesValues.
  rewrite issues_of_domain by exact Hnd. simpl.
  rewrite normalize_eval; simpl.
  - f_equal. unfold set_q_table, set_issues. simpl. f_equal.
    unfold sum_issue_weights. rewrite sum_fresh_weights. fold total.
    rewrite map_map. apply map_ext_Forall.
    eapply Forall_impl; [exact Hne|]. intros [issue values] Hv.
    by rewrite normalized_fresh_issue.
  - apply Forall_map. eapply Forall_impl; [exact Hne|]. intros [issue values] Hv. simpl.
    split; [by apply Issue_init_nonempty|]. by rewrite Issue_init_max.
  - destruct domain0 as [|[issue values] rest]; [by left|right].
    apply is_positive_nonzero. unfold sum_issue_weights.
    apply sum_unit_weights_positive; [|by left].
    apply Forall_map. apply Forall_forall. by intros [i vs] _.
Qed.
End ConstructionFacts.

(** ** [Issue.update], partial bids and failing [normalize] *)

Section IssueFacts.
Context {Value : Type} `{Countable Value}.
Implicit Types (self : @OpponentModel Value _ _).

(** X8. [Issue.update(None)] changes nothing; [Issue.update(v)] for a
    value that has no weight raises [KeyError] and changes nothing; for a
    value with weight [old] it returns having set that weight to
    [old + 1.0]: the values listed and their order, every other value
    weight and the issue weight are as before, and [get_utility(v)] is
    then [weight * (old + 1.0)]. *)
Theorem Issue_update_spec (issue_obj : @Issue Value) :
  Issue_update None issue_obj = (Ok tt, issue_obj) /\
  (forall v, dict_get (value_weights issue_obj) v = None ->
             Issue_update (Some v) issue_obj = (Raise KeyError, issue_obj)) /\
  (forall v old,
      dict_get (value_weights issue_obj) v = Some old ->
      let issue_obj' :=
        mkIssue (weight issue_obj) (dict_set (value_weights issue_obj) v (old + 1.0)) in
      Issue_update (Some v) issue_obj = (Ok tt, issue_obj') /\
      (value_weights issue_obj').*1 = (value_weights issue_obj).*1 /\
      dict_get (value_weights issue_obj') v = Some (old + 1.0) /\
      (forall v', v' <> v ->
                  dict_get (value_weights issue_obj') v'
                  = dict_get (value_weights issue_obj) v') /\
      Issue_get_utility issue_obj' (Some v) = Ok (weight issue_obj * (old + 1.0))).
Proof.
  split; [done|]. split.
  - intros v Hnone. unfold Issue_update, py_bind, py_get, py_lift, dict_getitem.
    by rewrite Hnone.
  - intros v old Hold issue_obj'. split; [|split; [|split; [|split]]].
    + unfold Issue_update, py_bind, py_get, py_lift, py_modify, dict_getitem.
      by rewrite Hold.
    + simpl. apply dict_set_present.
      apply dict_get_Some_elem_of in Hold.
      apply list_elem_of_fmap. by exists (v, old).
    + simpl. apply dict_get_set_eq.
    + intros v' Hne. simpl. by apply dict_get_set_ne.
    + unfold Issue_get_utility, dict_getitem. simpl. by rewrite dict_get_set_eq.
Qed.

Lemma get_utility_loop_partial (bid : @Bid Value) (table : dict string (@Issue Value))
    (total : float) :
  (forall issue_name issue_obj v,
      (issue_name, issue_obj) ∈ table ->
      getValue bid issue_name = Some v ->
      is_Some (dict_get (value_weights issue_obj) v)) ->
  dict_for (add_issue_utility bid) table total
  = (Ok (fold_left
           (fun total '(issue_name, issue_obj) =>
              total + match getValue bid issue_name with
                      | Some v => weight issue_obj
                                  * default 0.0 (dict_get (value_weights issue_obj) v)
                      | None => 0.0
                      end)
           table total),
     table).
Proof.
  revert total. induction table as [|[name obj] rest IH]; intros total Hall; [done|].
  simpl. unfold add_issue_utility at 1, Issue_get_utility, dict_getitem.
  destruct (getValue bid name) as [v|] eqn:Hv.
  - destruct (Hall name obj v) as [w Hw]; [left|done|].
    rewrite Hw. simpl. rewrite IH; [done|].
    intros n o v' Hin. apply Hall. by right.
  - rewrite IH; [done|]. intros n o v' Hin. apply Hall. by right.
Qed.

Lemma sum_of_zeros {A} (l : list A) :
  fold_left (fun total _ => total + 0.0) l 0.0 = 0.0.
Proof. induction l as [|x rest IH]; [done|]. simpl. exact IH. Qed.

(** X9. [get_utility] on a bid returns normally exactly when every
    value the bid gives to an issue of the model has a weight in that
    issue; it then returns the sum, in issue order from 0.0, of
    [weight * value_weight] for the issues the bid mentions and of 0.0 for
    those it does not, and leaves the model as it was. A bid that mentions
    no issue of the model has utility 0.0. *)
Theorem get_utility_partial_bid self (bid : @Bid Value) :
  let known :=
    forall issue_name issue_obj v,
      (issue_name, issue_obj) ∈ issues self ->
      getValue bid issue_name = Some v ->
      is_Some (dict_get (value_weights issue_obj) v) in
  ((exists u, (get_utility (Some bid) self).1 = Ok u) <-> known) /\
  (known ->
   get_utility (Some bid) self
   = (Ok (fold_left
            (fun total '(issue_name, issue_obj) =>
               total + match getValue bid issue_name with
                       | Some v => weight issue_obj
                                   * default 0.0 (dict_get (value_weights issue_obj) v)
                       | None => 0.0
                       end)
            (issues self) 0.0),
      self)) /\
  ((forall issue_name, issue_name ∈ (issues self).*1 -> getValue bid issue_name = None) ->
   get_utility (Some bid) self = (Ok 0.0, self)).
Proof.
  intros known.
  assert (Hknown : known ->
            get_utility (Some bid) self
            = (Ok (fold_left
                     (fun total '(issue_name, issue_obj) =>
                        total + match getValue bid issue_name with
                                | Some v => weight issue_obj
                                            * default 0.0 (dict_get (value_weights issue_obj) v)
                                | None => 0.0
                                end)
                     (issues self) 0.0),
               self)).
  { intros Hall. unfold get_utility, for_issues.
    rewrite get_utility_loop_partial by exact Hall. by rewrite set_issues_id. }
  split; [|split; [exact Hknown|]].
  - split; [|intros Hall; rewrite Hknown by done; by eexists].
    intros [u Hu] name obj v Hin Hv.
    destruct (dict_get (value_weights obj) v) as [w|] eqn:Hw; [done|].
    exfalso.
    pose proof (get_utility_loop_KeyError bid (issues self) 0.0
                  (ex_intro _ name (ex_intro _ obj (ex_intro _ v (conj Hin (conj Hv Hw))))))
      as Hraise.
    unfold get_utility, for_issues in Hu.
    destruct (dict_for (add_issue_utility bid) (issues self) 0.0) as [r table].
    simpl in *. congruence.
  - intros Hnone. rewrite Hknown.
    + f_equal. f_equal.
      assert (Hgen : forall (table : dict string (@Issue Value)) total,
                 (forall issue_name, issue_name ∈ table.*1 -> getValue bid issue_name = None) ->
                 fold_left
                   (fun total '(issue_name, issue_obj) =>
                      total + match getValue bid issue_name with
                              | Some v => weight issue_obj
                                          * default 0.0 (dict_get (value_weights issue_obj) v)
                              | None => 0.0
                              end) table total
                 = fold_left (fun total _ => total + 0.0) table total).
      { induction table as [|[name obj] rest IH]; intros total Hall; [done|].
        simpl. rewrite (Hall name) by left. apply IH.
        intros n Hin. apply Hall. by right. }
      rewrite Hgen by exact Hnone. apply sum_of_zeros.
    + intros name obj v Hin Hv. rewrite Hnone in Hv; [done|].
      apply list_elem_of_fmap. by exists (name, obj).
Qed.

(** X10. [normalize] is not atomic. When every issue holds a value
    weight and no largest value weight is zero, but the issue weights add
    up to zero, it raises [ZeroDivisionError] after the first loop has
    divided all value weights by their issue's maximum: the model left
    behind has the new value weights and the issue weights, offers and
    Q-table of before. *)
Theorem normalize_raises_after_value_weights self :
  Forall (fun '(_, issue_obj) =>
            value_weights issue_obj <> [] /\
            (max_value_weight issue_obj =? 0) = false) (issues self) ->
  issues self <> [] ->
  (sum_issue_weights (issues self) =? 0) = true ->
  normalize self
  = (Raise ZeroDivisionError,
     mkOpponentModel (domain self) (alpha self) (gamma self) (offers self)
       (map (fun '(issue_name, issue_obj) =>
               (issue_name,
                mkIssue (weight issue_obj)
                        (map (fun '(value, w) => (value, w / max_value_weight issue_obj))
                             (value_weights issue_obj))))
            (issues self))
       (q_table self)).
Proof.
  intros Hall Hne Hzero. unfold normalize, py_bind, for_issues.
  rewrite normalize_first_loop by done. simpl.
  fold (sum_issue_weights (issues self)).
  destruct (issues self) as [|[name obj] rest]; [done|].
  simpl. unfold normalize_issue_weight at 1, py_truediv. simpl. by rewrite Hzero.
Qed.

Lemma normalize_values_raises (name : string) (issue_obj : @Issue Value) (total : float)
    (e : PyExc) :
  (normalize_values name issue_obj total).1 = Raise e ->
  e = ValueError \/ e = ZeroDivisionError.
Proof.
  unfold normalize_values.
  destruct (py_max (value_weights issue_obj).*2) as [max_val|e'] eqn:Hmax.
  - pose proof (dict_for_raises (fun e => e = ZeroDivisionError)
                  (normalize_value_weight max_val) (value_weights issue_obj) tt) as Hloop.
    destruct (dict_for (normalize_value_weight max_val) (value_weights issue_obj) tt)
      as [[[]|e'] vw]; simpl in *; [done|].
    intros [= <-]. right. apply Hloop; [|done].
    intros k v a e0. unfold normalize_value_weight, py_truediv.
    destruct (max_val =? 0); simpl; [by intros [= <-]|done].
  - simpl. intros [= <-]. left.
    destruct (value_weights issue_obj); simpl in Hmax; congruence.
Qed.

(** X11. Whether it returns or raises, [normalize] changes nothing but
    weights: domain, [alpha], [gamma], offer log and Q-table, the issue
    names and their order, and the values listed under each issue are as
    before. The only exceptions it raises are [ValueError] and
    [ZeroDivisionError]. *)
Theorem normalize_frame self :
  let out := normalize self in
  (out.1 = Ok tt \/ out.1 = Raise ValueError \/ out.1 = Raise ZeroDivisionError) /\
  domain out.2 = domain self /\ alpha out.2 = alpha self /\ gamma out.2 = gamma self /\
  offers out.2 = offers self /\ q_table out.2 = q_table self /\
  (issues out.2).*1 = (issues self).*1 /\
  map (fun entry => (value_weights entry.2).*1) (issues out.2)
  = map (fun entry => (value_weights entry.2).*1) (issues self).
Proof.
  unfold normalize, py_bind, for_issues.
  pose proof (dict_for_keys normalize_values (issues self) 0.0) as Hkeys1.
  pose proof (dict_for_preserves (fun issue_obj : @Issue Value => (value_weights issue_obj).*1)
                normalize_values (issues self) 0.0
                (fun k v a => normalize_values_keys k v a)) as Hvalues1.
  pose proof (dict_for_raises (fun e => e = ValueError \/ e = ZeroDivisionError)
                normalize_values (issues self) 0.0) as Hraise1.
  destruct (dict_for normalize_values (issues self) 0.0) as [[total|e] table1];
    simpl in *.
  - pose proof (dict_for_keys (normalize_issue_weight total) table1 tt) as Hkeys2.
    pose proof (dict_for_preserves (fun issue_obj : @Issue Value => (value_weights issue_obj).*1)
                  (normalize_issue_weight total) table1 tt
                  (fun k v a => normalize_issue_weight_keys total k v a)) as Hvalues2.
    pose proof (dict_for_raises (fun e => e = ZeroDivisionError)
                  (normalize_issue_weight total) table1 tt) as Hraise2.
    destruct (dict_for (normalize_issue_weight total) table1 tt) as [[[]|e] table2];
      simpl in *.
    + repeat split; try done; [by left|congruence|congruence].
    + repeat split; try done; [|congruence|congruence].
      right. right. f_equal. apply Hraise2; [|done].
      intros k v a e0. unfold normalize_issue_weight, py_truediv.
      destruct (total =? 0); simpl; [by intros [= <-]|done].
  - repeat split; try done.
    right. destruct (Hraise1 e) as [->| ->]; auto.
    intros k v a e0. apply normalize_values_raises.
Qed.
End IssueFacts.

(** ** Normalized value weights *)

Section NormalizeFacts.
Context {Value : Type} `{Countable Value}.
Implicit Types (self : @OpponentModel Value _ _).

Lemma normalize_issue_weight_value_weights (total : float) (name : string)
    (issue_obj : @Issue Value) (u : unit) :
  value_weights (normalize_issue_weight total name issue_obj u).2 = value_weights issue_obj.
Proof.
  unfold normalize_issue_weight. by destruct (py_truediv (weight issue_obj) total).
Qed.

Lemma snd_divided (c : float) (vw : dict Value float) :
  (map (fun '(value, w) => (value, w / c)) vw).*2 = map (fun x => x / c) vw.*2.
Proof. induction vw as [|[v w] rest IH]; [done|]. simpl. f_equal. exact IH. Qed.

Lemma Forall_divided (P Q : float -> Prop) (c : float) (vw : dict Value float) :
  (forall w, P w -> Q (w / c)) ->
  Forall (fun '(_, w) => P w) vw ->
  Forall (fun '(_, w) => Q w) (map (fun '(value, w) => (value, w / c)) vw).
Proof.
  intros Hstep. induction 1 as [|[v w] rest Hw _ IH]; simpl; constructor; auto.
Qed.

Lemma Forall_values (P : float -> Prop) (vw : dict Value float) :
  Forall (fun '(_, w) => P w) vw <-> Forall P vw.*2.
Proof.
  induction vw as [|[v w] rest IH]; simpl.
  - split; constructor.
  - rewrite !Forall_cons, IH. done.
Qed.

(** X12. When [normalize] returns on a model whose value weights were
    all finite and not negative, every value weight afterwards is finite
    and lies between 0.0 and 1.0: rounding never takes a quotient above
    1.0. *)
Theorem normalize_value_weights_range self :
  (normalize self).1 = Ok tt ->
  Forall (fun '(_, issue_obj) =>
            Forall (fun '(_, w) => isfinite w = true /\ (w <? 0) = false)
                   (value_weights issue_obj))
         (issues self) ->
  Forall (fun '(_, issue_obj) =>
            Forall (fun '(_, w) =>
                      isfinite w = true /\ (w <? 0) = false /\ (1.0 <? w) = false)
                   (value_weights issue_obj))
         (issues (normalize self).2).
Proof.
  intros Hok Hall.
  apply normalize_returns_iff in Hok as [Hdef Htotal].
  rewrite normalize_eval by done. simpl.
  apply Forall_map.
  apply Forall_forall. intros [name obj] Hin.
  pose proof (proj1 (Forall_forall _ _) Hdef _ Hin) as [Hne Hnz].
  pose proof (proj1 (Forall_forall _ _) Hall _ Hin) as Hobj.
  simpl in *. unfold max_value_weight in *.
  destruct (py_max (value_weights obj).*2) as [m|e] eqn:Hmax.
  2:{ destruct (value_weights obj); [done|discriminate]. }
  destruct (py_max_spec _ m Hmax) as [Hm Hub].
  apply Forall_values in Hobj.
  pose proof (proj1 (Forall_forall _ _) Hobj m Hm) as [Hmfin Hmnn].
  assert (Hpos : (0 <? m) = true) by (by apply fltb_positive).
  apply (Forall_divided (fun w => isfinite w = true /\ (w <? 0) = false /\ (m <? w) = false)).
  - intros w (Hwfin & Hwnn & Hwle). by apply fdiv_unit_interval.
  - apply Forall_values. apply Forall_forall. intros w Hw.
    destruct (proj1 (Forall_forall _ _) Hobj w Hw) as [Hwfin Hwnn].
    split; [done|]. split; [done|].
    by apply (proj1 (Forall_forall _ _) Hub).
Qed.

(** [normalize] leaves value weights whose largest is exactly 1.0 as
    they are, whether it returns or raises. *)
Lemma normalize_unit_maximum self :
  Forall (fun '(_, issue_obj) => py_max (value_weights issue_obj).*2 = Ok 1.0)
         (issues self) ->
  map (fun entry => value_weights entry.2) (issues (normalize self).2)
  = map (fun entry => value_weights entry.2) (issues self).
Proof.
  intros Hall. unfold normalize, py_bind, for_issues.
  rewrite normalize_first_loop.
  2:{ eapply Forall_impl; [exact Hall|]. intros [name obj] Hmax.
      unfold max_value_weight. rewrite Hmax. split; [|done].
      intros Hnil. by rewrite Hnil in Hmax. }
  simpl.
  match goal with
  | |- context [dict_for ?body ?table tt] =>
      pose proof (dict_for_preserves (fun issue_obj : @Issue Value => value_weights issue_obj)
                    body table tt) as Hsecond;
      destruct (dict_for body table tt) as [r table2]
  end.
  simpl in *. rewrite Hsecond by (intros; apply normalize_issue_weight_value_weights).
  rewrite map_map. apply map_ext_Forall.
  eapply Forall_impl; [exact Hall|]. intros [name obj] Hmax. simpl.
  unfold max_value_weight. rewrite Hmax.
  clear. induction (value_weights obj) as [|[v w] rest IH]; [done|].
  simpl. by rewrite fdiv_1_r, IH.
Qed.

(** After [normalize] every issue whose value weights were finite with
    a positive maximum has largest value weight exactly 1.0, whether the
    call returns or raises while dividing the issue weights. *)
Lemma normalize_gives_unit_maximum self :
  Forall (fun '(_, issue_obj) =>
            Forall (fun '(_, w) => isfinite w = true) (value_weights issue_obj) /\
            (0 <? max_value_weight issue_obj) = true)
         (issues self) ->
  Forall (fun '(_, issue_obj) => py_max (value_weights issue_obj).*2 = Ok 1.0)
         (issues (normalize self).2).
Proof.
  intros Hall. unfold normalize, py_bind, for_issues.
  rewrite normalize_first_loop.
  2:{ eapply Forall_impl; [exact Hall|]. intros [name obj] [_ Hpos].
      split; [|by apply positive_nonzero].
      intros Hnil. unfold max_value_weight in Hpos. by rewrite Hnil in Hpos. }
  simpl.
  match goal with
  | |- context [dict_for ?body ?table tt] =>
      pose proof (dict_for_Forall
                    (fun entry : string * @Issue Value =>
                       py_max (value_weights entry.2).*2 = Ok 1.0)
                    body table tt) as Hsecond;
      destruct (dict_for body table tt) as [r table2]
  end.
  simpl in *.
  eapply Forall_impl; [apply Hsecond|by intros [name obj]].
  - intros k v a Hv. simpl. by rewrite normalize_issue_weight_value_weights.
  - apply Forall_map. eapply Forall_impl; [exact Hall|].
    intros [name obj] [Hfin Hpos]. simpl. rewrite snd_divided.
    apply py_max_normalized; [|by apply Forall_values|done].
    unfold max_value_weight in *.
    destruct (py_max (value_weights obj).*2); [done|discriminate].
Qed.

(** X13. On value weights [normalize] is idempotent: when the value
    weights of every issue are finite with a positive maximum, a second
    [normalize] leaves every value weight as the first one left it (the
    maximum is then exactly 1.0 and dividing by 1.0 is exact), whether or
    not the calls raise while dividing the issue weights. *)
Theorem normalize_twice_value_weights self :
  Forall (fun '(_, issue_obj) =>
            Forall (fun '(_, w) => isfinite w = true) (value_weights issue_obj) /\
            (0 <? max_value_weight issue_obj) = true)
         (issues self) ->
  map (fun entry => value_weights entry.2) (issues (normalize (normalize self).2).2)
  = map (fun entry => value_weights entry.2) (issues (normalize self).2).
Proof.
  intros Hall. apply normalize_unit_maximum. by apply normalize_gives_unit_maximum.
Qed.
End NormalizeFacts.

(** ** Snapshot paths *)

Section PathFacts.

Lemma string_app_nil_r (s : string) : s +:+ "" = s.
Proof.
  induction s as [|c s IH]; [done|].
  change (String c (s +:+ "") = String c s). by f_equal.
Qed.

Lemma rsplit_slash_no_slash (s : string) :
  "/"%char ∉ String.list_ascii_of_string s -> rsplit_slash s = None.
Proof.
  induction s as [|c s IH]; simpl; [done|].
  intros Hnot. apply not_elem_of_cons in Hnot as [Hc Hs].
  rewrite IH by done.
  destruct (Ascii.eqb_spec c "/"%char) as [->|_]; done.
Qed.

Lemma list_ascii_of_string_app (s t : string) :
  String.list_ascii_of_string (s +:+ t) = String.list_ascii_of_string s ++ String.list_ascii_of_string t.
Proof. induction s as [|c s IH]; simpl; [done|]. by rewrite IH. Qed.

Lemma rsplit_slash_app (s t head tail : string) :
  rsplit_slash t = Some (head, tail) ->
  rsplit_slash (s +:+ t) = Some (s +:+ head, tail).
Proof. intros Ht. induction s as [|c s IH]; simpl; [done|]. by rewrite IH. Qed.

(** The snapshot of an opponent whose name holds no slash lies directly
    in the storage directory. *)
Lemma dirname_snapshot_path (storage_dir opponent_agent : string) :
  "/"%char ∉ String.list_ascii_of_string opponent_agent ->
  dirname (snapshot_path storage_dir opponent_agent) = storage_dir.
Proof.
  intros Hnot. unfold dirname, snapshot_path.
  rewrite (rsplit_slash_app storage_dir _ "" (opponent_agent +:+ "_data.pkl")).
  - cbv beta iota. apply string_app_nil_r.
  - change ("/" +:+ opponent_agent +:+ "_data.pkl")
      with (String "/"%char (opponent_agent +:+ "_data.pkl")).
    cbn [rsplit_slash]. rewrite rsplit_slash_no_slash; [reflexivity|].
    rewrite list_ascii_of_string_app. intros Hin.
    apply elem_of_app in Hin as [Hin|Hin]; [done|].
    cbn in Hin. repeat (apply elem_of_cons in Hin as [Hin|Hin]; [discriminate Hin|]).
    by apply elem_of_nil in Hin.
Qed.
End PathFacts.

(** ** The learning model on disk *)

Section PersistenceFacts.
Context {Value PyObject : Type}.
Implicit Types (w : @World Value PyObject).

(** What [load_data] with both keys returns is read off the node at the
    snapshot path. *)
Lemma load_data_result w (storage_dir opponent_agent : string) :
  (load_data (Some storage_dir) (Some opponent_agent) w).1
  = match fs_of w !! snapshot_path storage_dir opponent_agent with
    | None => Ok ∅
    | Some Directory => Raise IsADirectoryError
    | Some (RegularFile content) => pickle_load content
    end.
Proof.
  unfold load_data, py_bind, on_self, on_fs, py_modify, os_path_exists, open_rb,
    py_lift, py_get, py_ret. simpl.
  destruct (fs_of w !! snapshot_path storage_dir opponent_agent) as [[content|]|] eqn:Hpath.
  - rewrite bool_decide_eq_true_2 by (by eexists). simpl. rewrite Hpath. simpl.
    by destruct (pickle_load content).
  - rewrite bool_decide_eq_true_2 by (by eexists). simpl. by rewrite Hpath.
  - by rewrite bool_decide_eq_false_2 by (by intros [? ?]).
Qed.

Lemma load_data_state w (storage_dir opponent_agent : option string) :
  let out := load_data storage_dir opponent_agent w in
  out.2 = mkWorld (set_data match out.1 with Ok loaded => loaded | Raise _ => ∅ end
                            (self_of w))
                  (fs_of w).
Proof.
  unfold load_data, py_bind, on_self, on_fs, py_modify, os_path_exists, open_rb,
    py_lift, py_get, py_ret.
  destruct storage_dir as [dir|], opponent_agent as [name|]; simpl; try done.
  destruct (fs_of w !! snapshot_path dir name) as [[content|]|] eqn:Hpath.
  - rewrite bool_decide_eq_true_2 by (by eexists). simpl. rewrite Hpath. simpl.
    by destruct (pickle_load content).
  - rewrite bool_decide_eq_true_2 by (by eexists). simpl. by rewrite Hpath.
  - by rewrite bool_decide_eq_false_2 by (by intros [? ?]).
Qed.

(** X14. On a disk whose snapshot path is free, a directory, or a file
    holding the pickle of a mapping, [load_data] never writes to the disk
    and never touches the bid logs. After the call, returned or raised,
    the object's data is what was returned, or empty when it raised: the
    data held before is gone in either case. Calling it again with the
    same arguments gives the same result and the same state. *)
Theorem load_data_frame w (storage_dir opponent_agent : option string) :
  (forall dir name content,
      storage_dir = Some dir -> opponent_agent = Some name ->
      fs_of w !! snapshot_path dir name = Some (RegularFile content) ->
      exists held, content = PickleOf held) ->
  let out := load_data storage_dir opponent_agent w in
  fs_of out.2 = fs_of w /\
  received_bids (self_of out.2) = received_bids (self_of w) /\
  my_bids (self_of out.2) = my_bids (self_of w) /\
  data (self_of out.2) = match out.1 with Ok loaded => loaded | Raise _ => ∅ end /\
  load_data storage_dir opponent_agent out.2 = out.
Proof.
  intros _. cbv zeta.
  pose proof (load_data_state w storage_dir opponent_agent) as Hstate.
  cbv zeta in Hstate.
  assert (Hres : forall w', fs_of w' = fs_of w ->
                            (load_data storage_dir opponent_agent w').1
                            = (load_data storage_dir opponent_agent w).1).
  { intros w' Hfs. destruct storage_dir as [dir|], opponent_agent as [name|]; try done.
    by rewrite !load_data_result, Hfs. }
  destruct (load_data storage_dir opponent_agent w) as [r1 w1]. simpl in *. subst w1.
  simpl. do 4 (split; [done|]).
  match goal with
  | |- load_data _ _ ?w' = _ =>
      pose proof (load_data_state w' storage_dir opponent_agent) as Hagain;
      pose proof (Hres w' eq_refl) as Hsame;
      destruct (load_data storage_dir opponent_agent w') as [r2 w2]
  end.
  simpl in *. by subst.
Qed.

(** X15. With both keys, [load_data] returns the mapping whose pickle
    is at the snapshot path, whoever wrote it, and stores it in the
    object; when a directory sits at the snapshot path it raises
    [IsADirectoryError] and leaves the object's data empty. *)
Theorem load_data_of_snapshot w (storage_dir opponent_agent : string) :
  let path := snapshot_path storage_dir opponent_agent in
  (forall saved,
      fs_of w !! path = Some (RegularFile (PickleOf saved)) ->
      load_data (Some storage_dir) (Some opponent_agent) w
      = (Ok saved, mkWorld (set_data saved (self_of w)) (fs_of w))) /\
  (fs_of w !! path = Some Directory ->
   load_data (Some storage_dir) (Some opponent_agent) w
   = (Raise IsADirectoryError, mkWorld (set_data ∅ (self_of w)) (fs_of w))).
Proof.
  intros path.
  pose proof (load_data_state w (Some storage_dir) (Some opponent_agent)) as Hstate.
  pose proof (load_data_result w storage_dir opponent_agent) as Hres.
  fold path in Hres. simpl in Hstate.
  destruct (load_data (Some storage_dir) (Some opponent_agent) w) as [r w'].
  simpl in *. split.
  - intros saved Hfile. rewrite Hfile in Hres. simpl in Hres. by subst.
  - intros Hdir. rewrite Hdir in Hres. by subst.
Qed.

(** The node at the snapshot path once [save_data] has returned: the
    pickle of the object's data. *)
Lemma save_data_snapshot w (storage_dir opponent_agent : string) :
  let out := save_data (Some storage_dir) (Some opponent_agent) w in
  out.1 = Ok tt ->
  fs_of out.2 !! snapshot_path storage_dir opponent_agent
  = Some (RegularFile (PickleOf (data (self_of w)))).
Proof.
  unfold save_data, py_bind, on_fs, open_wb, pickle_dump, py_modify, py_get. simpl.
  destruct (fs_of w !! snapshot_path storage_dir opponent_agent) as [[content|]|] eqn:Hpath;
    simpl.
  - intros _. unfold FileSystem. by rewrite lookup_insert_eq.
  - done.
  - destruct (fs_of w !! dirname (snapshot_path storage_dir opponent_agent))
      as [[content|]|]; simpl; try done.
    intros _. unfold FileSystem. by rewrite lookup_insert_eq.
Qed.

(** [save_data] never assigns to the object. *)
Lemma save_data_self w (storage_dir opponent_agent : option string) :
  self_of (save_data storage_dir opponent_agent w).2 = self_of w.
Proof.
  destruct opponent_agent as [name|], storage_dir as [dir|]; try done.
  unfold save_data, py_bind, on_fs, open_wb, pickle_dump, py_modify, py_get. simpl.
  destruct (fs_of w !! snapshot_path dir name) as [[content|]|]; simpl; try done.
  by destruct (fs_of w !! dirname (snapshot_path dir name)) as [[content|]|].
Qed.

(** X16. [save_data] never changes the object, whether it returns or
    raises; when it has returned with both keys given, the node at the
    snapshot path is a regular file that holds the pickle of the object's
    data, whatever was there before. *)
Theorem save_data_frame w (storage_dir opponent_agent : option string) :
  let out := save_data storage_dir opponent_agent w in
  self_of out.2 = self_of w /\
  (forall dir name,
      storage_dir = Some dir -> opponent_agent = Some name ->
      out.1 = Ok tt ->
      fs_of out.2 !! snapshot_path dir name
      = Some (RegularFile (PickleOf (data (self_of w))))).
Proof.
  split; [apply save_data_self|].
  intros dir name -> -> Hok. by apply save_data_snapshot.
Qed.


(** X18. [save_data] never creates the storage directory. For an
    opponent name without a slash and a storage directory other than the
    empty string (with which the snapshot path would name a file of the
    root directory), the snapshot lies directly in the storage directory,
    and when the call has returned, the storage directory was there as a
    directory unless the snapshot existed already, the object is as it
    was, and [load_data] with the same keys returns the saved data. *)
Theorem save_then_load_in_storage_dir w (storage_dir opponent_agent : string) w1 :
  "/"%char ∉ String.list_ascii_of_string opponent_agent ->
  storage_dir <> "" ->
  save_data (Some storage_dir) (Some opponent_agent) w = (Ok tt, w1) ->
  dirname (snapshot_path storage_dir opponent_agent) = storage_dir /\
  (fs_of w !! snapshot_path storage_dir opponent_agent = None ->
   fs_of w !! storage_dir = Some Directory) /\
  self_of w1 = self_of w /\
  (load_data (Some storage_dir) (Some opponent_agent) w1).1 = Ok (data (self_of w)).
Proof.
  intros Hname _ Hsave.
  pose proof (dirname_snapshot_path storage_dir opponent_agent Hname) as Hparent.
  split; [exact Hparent|]. split; [|split].
  - intros Hnone. revert Hsave.
    unfold save_data, py_bind, on_fs, open_wb. simpl.
    rewrite Hnone, Hparent.
    by destruct (fs_of w !! storage_dir) as [[content|]|].
  - pose proof (save_data_self w (Some storage_dir) (Some opponent_agent)) as Hself.
    by rewrite Hsave in Hself.
  - pose proof (save_data_snapshot w storage_dir opponent_agent) as Hnode.
    cbv zeta in Hnode. rewrite Hsave in Hnode. simpl in Hnode.
    rewrite load_data_result. by rewrite Hnode.
Qed.

(** X19. A later [save_data] replaces the snapshot. When a first call
    has returned, the object's data has been replaced by a newer mapping
    and a second call under the same keys has returned, the node at the
    snapshot path, which held the pickle of the first mapping, holds the
    pickle of the newer one alone, and [load_data] returns the newer one. *)
Theorem save_data_overwrites w (storage_dir opponent_agent : string)
    (newer : @LearnedData PyObject) w1 w3 :
  let path := snapshot_path storage_dir opponent_agent in
  save_data (Some storage_dir) (Some opponent_agent) w = (Ok tt, w1) ->
  save_data (Some storage_dir) (Some opponent_agent)
            (mkWorld (set_data newer (self_of w1)) (fs_of w1))
  = (Ok tt, w3) ->
  fs_of w1 !! path = Some (RegularFile (PickleOf (data (self_of w)))) /\
  fs_of w3 !! path = Some (RegularFile (PickleOf newer)) /\
  (load_data (Some storage_dir) (Some opponent_agent) w3).1 = Ok newer.
Proof.
  intros path Hfirst Hsecond.
  pose proof (save_data_snapshot w storage_dir opponent_agent) as Hnode1.
  pose proof (save_data_snapshot (mkWorld (set_data newer (self_of w1)) (fs_of w1))
                storage_dir opponent_agent) as Hnode3.
  cbv zeta in Hnode1, Hnode3. rewrite Hfirst in Hnode1. rewrite Hsecond in Hnode3.
  simpl in Hnode1, Hnode3. fold path in Hnode1, Hnode3.
  split; [by apply Hnode1|]. split; [by apply Hnode3|].
  rewrite load_data_result. fold path. by rewrite Hnode3.
Qed.

Lemma session_state w (calls : list (@Call Value)) :
  session calls w
  = mkWorld
      (mkLearningModel
         (received_bids (self_of w)
          ++ omap (fun call => match call with ReceiveBid b => b | SaveBid _ => None end) calls)
         (my_bids (self_of w)
          ++ omap (fun call => match call with SaveBid b => Some b | ReceiveBid _ => None end)
                  calls)
         (data (self_of w)))
      (fs_of w).
Proof.
  revert w. induction calls as [|[[b|]|b] rest IH]; intros w; unfold session in *; simpl.
  - rewrite !app_nil_r. by destruct w as [[] ?].
  - rewrite IH. simpl. by rewrite <- app_assoc.
  - by rewrite IH.
  - rewrite IH. simpl. by rewrite <- app_assoc.
Qed.

(** X20. [receive_bid] and [save_bid] always return. Over a session of
    such calls, [received_bids] grows by the bids received that are not
    [None], in order, and [my_bids] by every bid saved, [None] included;
    the data mapping and the disk are as before. *)
Theorem session_logs w (calls : list (@Call Value)) :
  let w' := session calls w in
  Forall (fun call => forall w0 : @World Value PyObject, (run_call call w0).1 = Ok tt) calls /\
  received_bids (self_of w')
  = received_bids (self_of w)
    ++ omap (fun call => match call with ReceiveBid b => b | SaveBid _ => None end) calls /\
  my_bids (self_of w')
  = my_bids (self_of w)
    ++ omap (fun call => match call with SaveBid b => Some b | ReceiveBid _ => None end) calls /\
  data (self_of w') = data (self_of w) /\
  fs_of w' = fs_of w.
Proof.
  cbv zeta. rewrite session_state. simpl. split; [|done].
  apply Forall_forall. intros [[b|]|b] _ w0; reflexivity.
Qed.

(** [save_data] reads the object's data and the disk, nothing else. *)
Lemma save_data_reads w1 w2 (storage_dir opponent_agent : option string) :
  data (self_of w1) = data (self_of w2) -> fs_of w1 = fs_of w2 ->
  (save_data storage_dir opponent_agent w1).1 = (save_data storage_dir opponent_agent w2).1 /\
  fs_of (save_data storage_dir opponent_agent w1).2
  = fs_of (save_data storage_dir opponent_agent w2).2.
Proof.
  intros Hdata Hfs.
  destruct opponent_agent as [name|], storage_dir as [dir|]; try done.
  unfold save_data, py_bind, on_fs, open_wb, pickle_dump, py_modify, py_get. simpl.
  rewrite Hfs.
  destruct (fs_of w2 !! snapshot_path dir name) as [[content|]|]; simpl;
    [by rewrite Hdata|done|].
  destruct (fs_of w2 !! dirname (snapshot_path dir name)) as [[content|]|]; simpl;
    try done.
  by rewrite Hdata.
Qed.

(** X21. What a session logs never reaches the disk: [save_data] after
    any sequence of [receive_bid] and [save_bid] calls returns or raises as
    it would have before them and leaves the same disk, because it pickles
    the data mapping only and those calls never write to it. A model fresh
    from its constructor therefore saves an empty mapping, whatever bids
    it saw. *)
Theorem snapshot_ignores_session w (calls : list (@Call Value))
    (storage_dir opponent_agent : option string) :
  let before := save_data storage_dir opponent_agent w in
  let after := save_data storage_dir opponent_agent (session calls w) in
  after.1 = before.1 /\
  fs_of after.2 = fs_of before.2 /\
  (self_of w = LearningModel_init ->
   forall dir name,
     storage_dir = Some dir -> opponent_agent = Some name -> after.1 = Ok tt ->
     fs_of after.2 !! snapshot_path dir name = Some (RegularFile (PickleOf ∅))).
Proof.
  cbv zeta.
  destruct (save_data_reads (session calls w) w storage_dir opponent_agent)
    as [Hres Hfs]; [by rewrite session_state..|].
  split; [exact Hres|]. split; [exact Hfs|].
  intros Hnew dir name -> -> Hok. rewrite Hfs. rewrite Hres in Hok.
  pose proof (save_data_snapshot w dir name) as Hnode. cbv zeta in Hnode.
  rewrite (Hnode Hok). by rewrite Hnew.
Qed.

End PersistenceFacts.

(** * The scenarios *)

(** The scenario models are states the code reaches. *)
Example fresh_model_constructed :
  OpponentModel_init trade_domain 0.1 0.9 = Ok fresh_model.
Proof. vm_compute. reflexivity. Qed.

Example stalled_model_reached :
  match OpponentModel_init trade_domain 0.25 0.9 with
  | Ok self =>
      (update 1.0 (Some bid_20_2) (Some bid_20_2) 0.0 1.0 0.0
         (update 1.0 (Some bid_20_2) (Some bid_20_2) 0.0 1.0 0.0 self).2).2
      = stalled_model
  | Raise _ => False
  end.
Proof. vm_compute. reflexivity. Qed.

(** [Issue.update], which no method of the opponent model calls, is
    what would move a value weight away from 1.0. *)
Example Issue_update_adds_one :
  Issue_update (Some 20%Z) (mkIssue 0.5 [(10%Z, 1.0); (20%Z, 1.0); (30%Z, 1.0)])
  = (Ok tt, mkIssue 0.5 [(10%Z, 1.0); (20%Z, 2.0); (30%Z, 1.0)]).
Proof. vm_compute. reflexivity. Qed.

Example saturated_model_reached :
  (update 0.5 (Some bid_20_2) (Some bid_20_2) 1e308 1.0 0.9
     (update 0.5 (Some bid_20_2) (Some bid_20_2) 1e308 1.0 0.9 fresh_model).2).2
  = saturated_model.
Proof. vm_compute. reflexivity. Qed.

(** Every issue of a two-issue table holds a weight for the value a bid
    gives it. *)
Ltac solve_bid_covers :=
  let name := fresh "name" in
  let obj := fresh "obj" in
  let Hin := fresh "Hin" in
  intros name obj Hin;
  repeat (apply elem_of_cons in Hin as [Hin|Hin];
          [injection Hin as -> ->; eexists _, _; split; vm_compute; reflexivity|]);
  by apply elem_of_nil in Hin.

(** ** C1 *)

Example learned_model_reached :
  (update 0.1 (Some bid_20_2) (Some bid_30_2) 1.0 0.5 0.9
     (update 0.1 (Some bid_10_1) (Some bid_20_2) 0.5 0.5 0.9 fresh_model).2).2
  = learned_model.
Proof. vm_compute. reflexivity. Qed.

(** On the learned model, from the offer (10, 1) to the offer (20, 2):
    the prior entry is 0.25, the candidates for the state (20, 2) are 0.0,
    0.5 and 0.0, and the largest of them is the second. *)
Lemma q_learning_update_rule_witness :
  domain learned_model = ("price", [10; 20; 30]%Z) :: [("quantity", [1; 2; 3]%Z)] /\
  [10; 20; 30]%Z <> [] /\
  default 0.0 (q_table learned_model !! ((Some 10%Z, Some 1%Z), Some 10%Z)) = 0.25 /\
  map (fun a => default 0.0 (q_table learned_model !! ((Some 20%Z, Some 2%Z), Some a)))
      [10; 20; 30]%Z
  = [0.0; 0.5; 0.0] /\
  exists max_q_value,
    max_q_value = 0.5 /\
    q_learning_update (Some bid_10_1) (Some bid_20_2) 1.0 0.5 0.9 learned_model
    = (Ok tt,
       mkOpponentModel trade_domain 0.1 0.9 [bid_20_2; bid_30_2]
         [("price", mkIssue 0.5 [(10%Z, 1.0); (20%Z, 1.0); (30%Z, 1.0)]);
          ("quantity", mkIssue (0.5 + 0.1 * (1.0 - 0.1 * 3))
                               [(1%Z, 1.0); (2%Z, 1.0); (3%Z, 1.0)])]
         (<[((Some 10%Z, Some 1%Z), Some 10%Z) :=
              (1 - 0.5) * 0.25 + 0.5 * (1.0 + 0.9 * max_q_value)]>
            (q_table learned_model))) /\
    q_table (q_learning_update (Some bid_10_1) (Some bid_20_2) 1.0 0.5 0.9 learned_model).2
      !! ((Some 10%Z, Some 1%Z), Some 10%Z)
    = Some ((1 - 0.5) * 0.25 + 0.5 * (1.0 + 0.9 * 0.5)) /\
    q_table (q_learning_update (Some bid_10_1) (Some bid_20_2) 1.0 0.5 0.9 learned_model).2
      !! ((Some 20%Z, Some 2%Z), Some 20%Z)
    = Some 0.5.
Proof.
  split; [reflexivity|]. split; [discriminate|]. split; [reflexivity|].
  split; [reflexivity|].
  destruct (q_learning_update_rule learned_model bid_10_1 bid_20_2 1.0 0.5 0.9
              "price" [10; 20; 30]%Z [("quantity", [1; 2; 3]%Z)] eq_refl
              ltac:(discriminate))
    as (max_q_value & _ & _ & Hscan & Hrun & Hnew & Hrest).
  assert (Hmax : max_q_value = 0.5) by exact Hscan.
  exists max_q_value. split; [exact Hmax|]. split; [exact Hrun|].
  rewrite Hrun. subst max_q_value. split; [exact Hnew|].
  rewrite Hrest by discriminate. reflexivity.
Defined.

(** ** C2 *)

(** C2. [normalize] divides every issue weight by the accumulated
    total and has no guard for a total of zero. On the stalled model,
    which two calls of [update] reach from the constructor (see
    [stalled_model_reached]), the total is 0.0: the call raises
    [ZeroDivisionError] and leaves issue weights that add up to 0.0, not
    to the 1.0 that the docstring of [normalize] requires. Where the total
    is not zero the call does what the docstring says: on the learned
    model (weights 0.5 and 0.57) and on the counted model (value weights
    up to 4.0) it returns with issue weights that add up to exactly 1.0
    and with largest value weights exactly 1.0. *)
Theorem normalize_unguarded_total :
  ((normalize stalled_model).1 = Raise ZeroDivisionError /\
   sum_issue_weights (issues (normalize stalled_model).2) = 0.0 /\
   (abs (sum_issue_weights (issues (normalize stalled_model).2) - 1.0) <? 1e-9) = false) /\
  ((normalize learned_model).1 = Ok tt /\
   sum_issue_weights (issues learned_model) = 0.0 + 0.5 + (0.5 + 0.1 * (1.0 - 0.1 * 3)) /\
   sum_issue_weights (issues (normalize learned_model).2) = 1.0 /\
   map (fun entry => max_value_weight entry.2) (issues (normalize learned_model).2)
   = [1.0; 1.0]) /\
  ((normalize counted_model).1 = Ok tt /\
   map (fun entry => max_value_weight entry.2) (issues counted_model) = [3.0; 4.0] /\
   sum_issue_weights (issues (normalize counted_model).2) = 1.0 /\
   map (fun entry => max_value_weight entry.2) (issues (normalize counted_model).2)
   = [1.0; 1.0]).
Proof. vm_compute. repeat split; reflexivity. Qed.

(** Even when [normalize] returns, the new weights need not add up to
    1.0: two weights of 1e308 add up to infinity and both become 0.0. *)
Remark normalize_overflowing_total :
  let self :=
    set_issues [("price", mkIssue 1e308 [(10%Z, 1.0)]);
                ("quantity", mkIssue 1e308 [(1%Z, 1.0)])] fresh_model in
  (normalize self).1 = Ok tt /\
  sum_issue_weights (issues (normalize self).2) = 0.0.
Proof. vm_compute. split; reflexivity. Qed.

(** A negative largest value weight turns the smaller ones into
    quotients above 1.0. *)
Remark normalize_negative_maximum :
  let self := set_issues [("price", mkIssue 1.0 [(10%Z, -1.0); (20%Z, -2.0)])] fresh_model in
  (normalize self).1 = Ok tt /\
  max_value_weight (default (mkIssue 0.0 []) (dict_get (issues (normalize self).2) "price"))
  = 2.0.
Proof. vm_compute. split; reflexivity. Qed.

(** ** C3 *)

(** On the fresh model nothing is logged and nothing changes; on the
    trained model the last two offers agree on the quantity alone, whose
    weight grows from 0.5 to [0.5 + 0.1 * (1 - 3 * 0.1)]. *)
Lemma update_issue_weights_spec_witness :
  (length (offers fresh_model) < 2)%nat /\
  update_issue_weights 0.1 fresh_model = (Ok tt, fresh_model) /\
  offers trained_model = [] ++ [bid_20_2; bid_30_2] /\
  update_issue_weights 0.1 trained_model
  = (Ok tt,
     mkOpponentModel trade_domain 0.1 0.9 [bid_20_2; bid_30_2]
       [("price", mkIssue 0.5 [(10%Z, 1.0); (20%Z, 1.0); (30%Z, 1.0)]);
        ("quantity", mkIssue (0.5 + 0.1 * (1 - 3 * 0.1))
                             [(1%Z, 1.0); (2%Z, 1.0); (3%Z, 1.0)])]
       (q_table trained_model)) /\
  (weight (mkIssue (0.5 + 0.1 * (1 - 3 * 0.1)) [(1%Z, 1.0); (2%Z, 1.0); (3%Z, 1.0)])
   =? 0.5) = false.
Proof.
  assert (Hshort : (length (offers fresh_model) < 2)%nat) by (simpl; lia).
  split; [exact Hshort|]. split; [|split; [reflexivity|split; [|reflexivity]]].
  - exact (proj1 (update_issue_weights_spec fresh_model 0.1) Hshort).
  - exact (proj2 (update_issue_weights_spec trained_model 0.1) [] bid_20_2 bid_30_2 eq_refl).
Defined.

(** ** C4 *)

Lemma get_utility_spec_witness :
  (forall issue_name issue_obj,
      (issue_name, issue_obj) ∈ issues fresh_model ->
      exists v w, getValue bid_20_2 issue_name = Some v /\
                  dict_get (value_weights issue_obj) v = Some w) /\
  get_utility (Some bid_20_2) fresh_model
  = (Ok (0.0 + 0.5 * 1.0 + 0.5 * 1.0), fresh_model).
Proof.
  assert (Hcov : forall issue_name issue_obj,
             (issue_name, issue_obj) ∈ issues fresh_model ->
             exists v w, getValue bid_20_2 issue_name = Some v /\
                         dict_get (value_weights issue_obj) v = Some w)
    by solve_bid_covers.
  split; [exact Hcov|].
  exact (proj2 (get_utility_spec fresh_model) bid_20_2 Hcov).
Defined.

(** ** C5 *)



(** ** C6 *)

(** On a disk that lacks the storage directory, [save_data] raises
    [FileNotFoundError] and writes nothing; [load_data] then finds no
    snapshot and returns an empty mapping, not the one held. *)
Lemma save_then_load_missing_directory :
  save_data (Some "/srv/store") (Some "bob") bare_world
  = (Raise FileNotFoundError, bare_world) /\
  (load_data (Some "/srv/store") (Some "bob") bare_world).1 = Ok ∅ /\
  (∅ : @LearnedData Z) <> data (self_of bare_world).
Proof.
  repeat split; try (vm_compute; reflexivity).
  intros Heq. apply (f_equal (fun m : gmap string Z => m !! "agreements")) in Heq.
  vm_compute in Heq. discriminate.
Qed.

(** On a disk that holds the storage directory, [save_data] returns;
    a learning model fresh from its constructor, holding no data, then
    loads the saved facts from the disk that was left. *)
Lemma save_then_load_witness :
  let w1 :=
    mkWorld (self_of stored_world)
            ({[ "/srv/store" := Directory;
                "/srv/store/bob_data.pkl" := RegularFile (PickleOf learned_facts) ]}) in
  let w2 : @World Z Z := mkWorld LearningModel_init (fs_of w1) in
  save_data (Some "/srv/store") (Some "bob") stored_world = (Ok tt, w1) /\
  data (self_of w2) = ∅ /\
  load_data (Some "/srv/store") (Some "bob") w2
  = (Ok learned_facts, mkWorld (mkLearningModel [] [] learned_facts) (fs_of w1)).
Proof.
  assert (Hsave : save_data (Some "/srv/store") (Some "bob") stored_world
                  = (Ok tt,
                     mkWorld (self_of stored_world)
                       ({[ "/srv/store" := Directory;
                           "/srv/store/bob_data.pkl"
                             := RegularFile (PickleOf learned_facts) ]})))
    by (vm_compute; reflexivity).
  split; [exact Hsave|]. split; [reflexivity|].
  exact (save_then_load stored_world "/srv/store" "bob" _ Hsave
           (@mkWorld Z Z LearningModel_init
              ({[ "/srv/store" := Directory;
                  "/srv/store/bob_data.pkl" := RegularFile (PickleOf learned_facts) ]}))
           eq_refl).
Defined.

(** ** C7 *)

Lemma persistence_without_keys_or_snapshot_witness :
  fs_of bare_world !! snapshot_path "/srv/store" "bob" = None /\
  load_data (Some "/srv/store") (Some "bob") bare_world
  = (Ok ∅, mkWorld (set_data ∅ (self_of bare_world)) (fs_of bare_world)).
Proof.
  split; [vm_compute; reflexivity|].
  apply (proj2 (proj2 (persistence_without_keys_or_snapshot bare_world))).
  right. right. exists "/srv/store", "bob". repeat split.
Defined.

(** ** C8 *)

(** The lookup of the undeclared price 40 fails with [KeyError]; no
    exception of a class named [MissingValueError] is raised. *)
Lemma get_utility_raises_KeyError :
  get_utility (Some bid_40_2) fresh_model = (Raise KeyError, fresh_model) /\
  (get_utility (Some bid_40_2) fresh_model).1 <> Raise (OtherError "MissingValueError").
Proof. split; [vm_compute; reflexivity|]. vm_compute. discriminate. Qed.

Lemma get_utility_unknown_value_witness :
  (exists issue_name issue_obj v,
      (issue_name, issue_obj) ∈ issues fresh_model /\
      getValue bid_40_2 issue_name = Some v /\
      dict_get (value_weights issue_obj) v = None) /\
  get_utility (Some bid_40_2) fresh_model = (Raise KeyError, fresh_model).
Proof.
  assert (Hbad : exists issue_name issue_obj v,
             (issue_name, issue_obj) ∈ issues fresh_model /\
             getValue bid_40_2 issue_name = Some v /\
             dict_get (value_weights issue_obj) v = None).
  { exists "price", (mkIssue 0.5 [(10%Z, 1.0); (20%Z, 1.0); (30%Z, 1.0)]), 40%Z.
    split; [left|split; vm_compute; reflexivity]. }
  split; [exact Hbad|].
  exact (get_utility_unknown_value fresh_model bid_40_2 Hbad).
Defined.

(** ** C9 *)

Lemma value_weights_stay_one_witness :
  Forall (fun '(_, values) => values <> []) trade_domain /\
  (exists self, OpponentModel_init trade_domain 0.1 0.9 = Ok self) /\
  OpponentModel_init trade_domain 0.1 0.9 = Ok fresh_model /\
  constructed fresh_model /\
  constructed (normalize fresh_model).2 /\
  assigns_declared_values (domain fresh_model) bid_20_2 /\
  get_utility (Some bid_20_2) fresh_model
  = (Ok (sum_issue_weights (issues fresh_model)), fresh_model).
Proof.
  assert (Hdomain : Forall (fun '(_, values) => values <> []) trade_domain)
    by (repeat (apply Forall_cons; split; [done|]); apply Forall_nil_2).
  pose proof (proj1 (@value_weights_stay_one Z _ _) trade_domain 0.1 0.9 Hdomain)
    as Hreturns.
  pose proof (proj1 (proj2 (@value_weights_stay_one Z _ _)) trade_domain 0.1 0.9 fresh_model
                fresh_model_constructed) as [_ Hcons].
  pose proof (proj2 (proj2 (@value_weights_stay_one Z _ _)) fresh_model Hcons)
    as (_ & _ & _ & Hnorm & _ & Hutil).
  assert (Hbid : assigns_declared_values (domain fresh_model) bid_20_2).
  { intros name values Hin.
    repeat (apply elem_of_cons in Hin as [Hin|Hin];
            [injection Hin as -> ->; eexists; split;
             [vm_compute; reflexivity|right; left]|]).
    by apply elem_of_nil in Hin. }
  split; [exact Hdomain|]. split; [exact Hreturns|].
  split; [exact fresh_model_constructed|].
  split; [exact Hcons|]. split; [exact Hnorm|]. split; [exact Hbid|].
  by apply Hutil.
Defined.

(** ** Further properties: the scenarios they hold in *)

Example shipping_model_constructed :
  OpponentModel_init shipping_domain 0.1 0.9 = Ok shipping_model.
Proof. vm_compute. reflexivity. Qed.

Example empty_model_constructed : OpponentModel_init [] 0.1 0.9 = Ok empty_model.
Proof. vm_compute. reflexivity. Qed.

Lemma update_with_both_bids_witness :
  domain trained_model = ("price", [10; 20; 30]%Z) :: [("quantity", [1; 2; 3]%Z)] /\
  [10; 20; 30]%Z <> [] /\
  exists max_q_value,
    py_max (map (fun a => default 0.0 (q_table trained_model !! ((Some 20%Z, Some 2%Z), Some a)))
                [10; 20; 30]%Z) = Ok max_q_value /\
    update 0.1 (Some bid_10_1) (Some bid_20_2) 1.0 0.5 0.9 trained_model
    = (Ok tt,
       mkOpponentModel trade_domain 0.1 0.9 [bid_20_2; bid_30_2; bid_20_2]
         [("price", mkIssue 0.5 [(10%Z, 1.0); (20%Z, 1.0); (30%Z, 1.0)]);
          ("quantity", mkIssue (0.5 + 0.1 * (1.0 - 0.1 * 3))
                               [(1%Z, 1.0); (2%Z, 1.0); (3%Z, 1.0)])]
         (<[((Some 10%Z, Some 1%Z), Some 10%Z) :=
              (1 - 0.5) * default 0.0 (q_table trained_model !! ((Some 10%Z, Some 1%Z), Some 10%Z))
              + 0.5 * (1.0 + 0.9 * max_q_value)]> (q_table trained_model))).
Proof.
  split; [reflexivity|]. split; [discriminate|].
  exact (update_with_both_bids trained_model 0.1 bid_10_1 bid_20_2 1.0 0.5 0.9
           "price" [10; 20; 30]%Z [("quantity", [1; 2; 3]%Z)] eq_refl ltac:(discriminate)).
Defined.

Lemma update_raises_after_logging_witness :
  domain empty_model = [] /\
  update 0.5 (Some bid_10_1) (Some bid_20_2) 1.0 0.5 0.9 empty_model
  = (Raise IndexError, mkOpponentModel [] 0.1 0.9 [bid_20_2] [] ∅).
Proof.
  split; [reflexivity|].
  exact (update_raises_after_logging empty_model 0.5 bid_10_1 bid_20_2 1.0 0.5 0.9 eq_refl).
Defined.

Lemma q_learning_update_raises_witness :
  (q_learning_update None (Some bid_20_2) 1.0 0.5 0.9 fresh_model).1 = Raise AttributeError /\
  (q_learning_update (Some bid_10_1) (Some bid_20_2) 1.0 0.5 0.9 empty_model).1
  = Raise IndexError /\
  (q_learning_update (Some bid_10_1) None 1.0 0.5 0.9 fresh_model).1 = Raise AttributeError /\
  (q_learning_update (Some bid_10_1) None 1.0 0.5 0.9 fresh_model).2 = fresh_model.
Proof.
  pose proof (q_learning_update_raises fresh_model None (Some bid_20_2) 1.0 0.5 0.9)
    as (_ & _ & Hprev & _).
  pose proof (q_learning_update_raises empty_model (Some bid_10_1) (Some bid_20_2) 1.0 0.5 0.9)
    as (_ & _ & _ & Hindex & _).
  pose proof (q_learning_update_raises fresh_model (Some bid_10_1) None 1.0 0.5 0.9)
    as (_ & Hsame & _ & _ & Hcurr & _).
  split; [exact (Hprev eq_refl)|]. split; [apply Hindex; [by eexists|reflexivity]|].
  assert (Hraise : (q_learning_update (Some bid_10_1) None 1.0 0.5 0.9 fresh_model).1
                   = Raise AttributeError)
    by (apply Hcurr; [by eexists|discriminate|reflexivity]).
  split; [exact Hraise|]. apply Hsame. rewrite Hraise. discriminate.
Defined.

Lemma q_learning_update_reads_three_values_witness :
  getValue bid_10_1_fast "price" = getValue bid_10_1_fast "price" /\
  getValue bid_20_2_fast "quantity" = getValue bid_20_2 "quantity" /\
  bid_10_1_fast <> bid_10_1_slow /\
  q_learning_update (Some bid_10_1_fast) (Some bid_20_2_fast) 1.0 0.5 0.9 shipping_model
  = q_learning_update (Some bid_10_1_slow) (Some bid_20_2) 1.0 0.5 0.9 shipping_model.
Proof.
  split; [reflexivity|]. split; [vm_compute; reflexivity|]. split.
  { intros Heq. apply (f_equal (fun bid : gmap string Z => bid !! "delivery")) in Heq.
    vm_compute in Heq. discriminate. }
  apply (q_learning_update_reads_three_values shipping_model
           bid_10_1_fast bid_10_1_slow bid_20_2_fast bid_20_2 1.0 0.5 0.9);
    try (vm_compute; reflexivity).
  intros issue [= <-]. vm_compute. reflexivity.
Defined.

Lemma Issue_init_spec_witness :
  NoDup [10; 20; 30]%Z /\
  value_weights (Issue_init [10; 20; 30]%Z) = [(10%Z, 1e-10); (20%Z, 1e-10); (30%Z, 1e-10)] /\
  NoDup (value_weights (Issue_init [10; 20; 10]%Z)).*1.
Proof.
  assert (Hnd : NoDup [10; 20; 30]%Z).
  { repeat (constructor; [rewrite ?elem_of_cons, elem_of_nil; lia|]). constructor. }
  split; [exact Hnd|]. split.
  - exact (proj2 (proj2 (proj2 (proj2 (Issue_init_spec [10; 20; 30]%Z)))) Hnd).
  - exact (proj1 (proj2 (Issue_init_spec [10; 20; 10]%Z))).
Defined.

Lemma OpponentModel_init_empty_value_set_witness :
  NoDup (getIssues hollow_domain) /\
  Exists (fun '(_, values) => values = []) hollow_domain /\
  OpponentModel_init hollow_domain 0.1 0.9 = Raise ValueError.
Proof.
  assert (Hnd : NoDup (getIssues hollow_domain)).
  { repeat (constructor; [rewrite ?elem_of_cons, elem_of_nil; intuition discriminate|]).
    constructor. }
  assert (Hex : Exists (fun '(_, values) => values = []) hollow_domain).
  { apply Exists_cons. right. apply Exists_cons. by left. }
  split; [exact Hnd|]. split; [exact Hex|].
  exact (OpponentModel_init_empty_value_set hollow_domain 0.1 0.9 Hnd Hex).
Defined.

Lemma OpponentModel_init_fresh_witness :
  NoDup (getIssues shipping_domain) /\
  Forall (fun '(_, values) => values <> []) shipping_domain /\
  OpponentModel_init shipping_domain 0.1 0.9 = Ok shipping_model.
Proof.
  assert (Hnd : NoDup (getIssues shipping_domain)).
  { repeat (constructor; [rewrite ?elem_of_cons, elem_of_nil; intuition discriminate|]).
    constructor. }
  assert (Hne : Forall (fun '(_, values) => values <> []) shipping_domain)
    by (repeat (apply Forall_cons; split; [done|]); apply Forall_nil_2).
  split; [exact Hnd|]. split; [exact Hne|].
  exact (OpponentModel_init_fresh shipping_domain 0.1 0.9 Hnd Hne).
Defined.

Lemma Issue_update_spec_witness :
  dict_get [(10%Z, 1.0); (20%Z, 1.0); (30%Z, 1.0)] 20%Z = Some 1.0 /\
  Issue_update (Some 20%Z) (mkIssue 0.5 [(10%Z, 1.0); (20%Z, 1.0); (30%Z, 1.0)])
  = (Ok tt, mkIssue 0.5 [(10%Z, 1.0); (20%Z, 1.0 + 1.0); (30%Z, 1.0)]) /\
  dict_get [(10%Z, 1.0); (20%Z, 1.0); (30%Z, 1.0)] 40%Z = None /\
  Issue_update (Some 40%Z) (mkIssue 0.5 [(10%Z, 1.0); (20%Z, 1.0); (30%Z, 1.0)])
  = (Raise KeyError, mkIssue 0.5 [(10%Z, 1.0); (20%Z, 1.0); (30%Z, 1.0)]).
Proof.
  pose proof (Issue_update_spec (mkIssue 0.5 [(10%Z, 1.0); (20%Z, 1.0); (30%Z, 1.0)]))
    as (_ & Hmissing & Hknown).
  split; [reflexivity|]. split; [exact (proj1 (Hknown 20%Z 1.0 eq_refl))|].
  split; [reflexivity|]. exact (Hmissing 40%Z eq_refl).
Defined.

Lemma get_utility_partial_bid_witness :
  (forall issue_name issue_obj v,
      (issue_name, issue_obj) ∈ issues fresh_model ->
      getValue ({[ "price" := 20%Z ]} : @Bid Z) issue_name = Some v ->
      is_Some (dict_get (value_weights issue_obj) v)) /\
  get_utility (Some ({[ "price" := 20%Z ]} : @Bid Z)) fresh_model
  = (Ok (0.0 + 0.5 * 1.0 + 0.0), fresh_model) /\
  get_utility (Some (∅ : @Bid Z)) fresh_model = (Ok 0.0, fresh_model).
Proof.
  pose proof (get_utility_partial_bid fresh_model ({[ "price" := 20%Z ]} : @Bid Z))
    as (_ & Hknown & _).
  pose proof (get_utility_partial_bid fresh_model (∅ : @Bid Z)) as (_ & _ & Hnone).
  assert (Hcov : forall issue_name issue_obj v,
             (issue_name, issue_obj) ∈ issues fresh_model ->
             getValue ({[ "price" := 20%Z ]} : @Bid Z) issue_name = Some v ->
             is_Some (dict_get (value_weights issue_obj) v)).
  { intros name obj v Hin.
    repeat (apply elem_of_cons in Hin as [Hin|Hin];
            [injection Hin as -> ->; vm_compute; intros [= <-]; by eexists
            |]); try by apply elem_of_nil in Hin.
    all: injection Hin as -> ->; vm_compute; discriminate. }
  split; [exact Hcov|]. split; [exact (Hknown Hcov)|].
  apply Hnone. intros name _. reflexivity.
Defined.

(** On the spent model the call raises after it has divided the value
    weights 1.0, 3.0, 2.0 by 3.0 and 1.0, 4.0, 1.0 by 4.0. *)
Lemma normalize_raises_after_value_weights_witness :
  Forall (fun '(_, issue_obj) =>
            value_weights issue_obj <> [] /\
            (max_value_weight issue_obj =? 0) = false) (issues spent_model) /\
  issues spent_model <> [] /\
  (sum_issue_weights (issues spent_model) =? 0) = true /\
  normalize spent_model
  = (Raise ZeroDivisionError,
     mkOpponentModel trade_domain 0.25 0.9 [bid_20_2; bid_20_2]
       [("price", mkIssue 0.0 [(10%Z, 1.0 / 3.0); (20%Z, 3.0 / 3.0); (30%Z, 2.0 / 3.0)]);
        ("quantity", mkIssue 0.0 [(1%Z, 1.0 / 4.0); (2%Z, 4.0 / 4.0); (3%Z, 1.0 / 4.0)])]
       (q_table spent_model)) /\
  (1.0 / 3.0 <? 1.0) = true.
Proof.
  assert (Hall : Forall (fun '(_, issue_obj) =>
                           value_weights issue_obj <> [] /\
                           (max_value_weight issue_obj =? 0) = false)
                        (issues spent_model)).
  { repeat (apply Forall_cons; split; [split; [done|vm_compute; reflexivity]|]).
    apply Forall_nil_2. }
  assert (Hne : issues spent_model <> []) by discriminate.
  assert (Hzero : (sum_issue_weights (issues spent_model) =? 0) = true)
    by (vm_compute; reflexivity).
  split; [exact Hall|]. split; [exact Hne|]. split; [exact Hzero|].
  split; [|reflexivity].
  exact (normalize_raises_after_value_weights spent_model Hall Hne Hzero).
Defined.

Lemma normalize_value_weights_range_witness :
  (normalize counted_model).1 = Ok tt /\
  Forall (fun '(_, issue_obj) =>
            Forall (fun '(_, w) => isfinite w = true /\ (w <? 0) = false)
                   (value_weights issue_obj))
         (issues counted_model) /\
  Forall (fun '(_, issue_obj) =>
            Forall (fun '(_, w) =>
                      isfinite w = true /\ (w <? 0) = false /\ (1.0 <? w) = false)
                   (value_weights issue_obj))
         (issues (normalize counted_model).2).
Proof.
  assert (Hok : (normalize counted_model).1 = Ok tt) by (vm_compute; reflexivity).
  assert (Hall : Forall (fun '(_, issue_obj) =>
                           Forall (fun '(_, w) => isfinite w = true /\ (w <? 0) = false)
                                  (value_weights issue_obj))
                        (issues counted_model)).
  { repeat (apply Forall_cons; split;
            [repeat (apply Forall_cons; split; [split; vm_compute; reflexivity|]);
             apply Forall_nil_2|]).
    apply Forall_nil_2. }
  split; [exact Hok|]. split; [exact Hall|].
  exact (normalize_value_weights_range counted_model Hok Hall).
Defined.

Lemma normalize_twice_value_weights_witness :
  Forall (fun '(_, issue_obj) =>
            Forall (fun '(_, w) => isfinite w = true) (value_weights issue_obj) /\
            (0 <? max_value_weight issue_obj) = true)
         (issues counted_model) /\
  map (fun entry => value_weights entry.2) (issues (normalize (normalize counted_model).2).2)
  = map (fun entry => value_weights entry.2) (issues (normalize counted_model).2).
Proof.
  assert (Hall : Forall (fun '(_, issue_obj) =>
                           Forall (fun '(_, w) => isfinite w = true)
                                  (value_weights issue_obj) /\
                           (0 <? max_value_weight issue_obj) = true)
                        (issues counted_model)).
  { repeat (apply Forall_cons; split;
            [split; [repeat (apply Forall_cons; split; [vm_compute; reflexivity|]);
                     apply Forall_nil_2
                    |vm_compute; reflexivity]|]).
    apply Forall_nil_2. }
  split; [exact Hall|].
  exact (normalize_twice_value_weights counted_model Hall).
Defined.

(** On the blocked world, whose object holds the learned facts and
    whose snapshot path is a directory, the call raises, the data is
    reset and a second call does the same. *)
Lemma load_data_frame_witness :
  let out := load_data (Some "/srv/store") (Some "bob") blocked_world in
  fs_of blocked_world !! snapshot_path "/srv/store" "bob" = Some Directory /\
  data (self_of blocked_world) = learned_facts /\
  out.1 = Raise IsADirectoryError /\
  fs_of out.2 = fs_of blocked_world /\
  data (self_of out.2) = ∅ /\
  load_data (Some "/srv/store") (Some "bob") out.2 = out.
Proof.
  assert (Hdir : fs_of blocked_world !! snapshot_path "/srv/store" "bob" = Some Directory)
    by (vm_compute; reflexivity).
  assert (Hnode : forall dir name content,
             Some "/srv/store" = Some dir -> Some "bob" = Some name ->
             fs_of blocked_world !! snapshot_path dir name = Some (RegularFile content) ->
             exists held : @LearnedData Z, content = PickleOf held).
  { intros dir name content [= <-] [= <-] Hfile. rewrite Hdir in Hfile. discriminate Hfile. }
  destruct (load_data_frame blocked_world (Some "/srv/store") (Some "bob") Hnode)
    as (Hfs & _ & _ & Hdata & Hagain).
  split; [exact Hdir|]. split; [reflexivity|]. split; [vm_compute; reflexivity|].
  split; [exact Hfs|]. split; [exact Hdata|]. exact Hagain.
Defined.

Lemma load_data_of_snapshot_witness :
  fs_of visited_world !! snapshot_path "/srv/store" "bob"
  = Some (RegularFile (PickleOf learned_facts)) /\
  load_data (Some "/srv/store") (Some "bob") visited_world
  = (Ok learned_facts,
     mkWorld (set_data learned_facts (self_of visited_world)) (fs_of visited_world)) /\
  fs_of blocked_world !! snapshot_path "/srv/store" "bob" = Some Directory /\
  load_data (Some "/srv/store") (Some "bob") blocked_world
  = (Raise IsADirectoryError,
     mkWorld (set_data ∅ (self_of blocked_world)) (fs_of blocked_world)).
Proof.
  assert (Hfile : fs_of visited_world !! snapshot_path "/srv/store" "bob"
                  = Some (RegularFile (PickleOf learned_facts)))
    by (vm_compute; reflexivity).
  assert (Hdir : fs_of blocked_world !! snapshot_path "/srv/store" "bob" = Some Directory)
    by (vm_compute; reflexivity).
  split; [exact Hfile|].
  split; [exact (proj1 (load_data_of_snapshot visited_world "/srv/store" "bob") _ Hfile)|].
  split; [exact Hdir|].
  exact (proj2 (load_data_of_snapshot blocked_world "/srv/store" "bob") Hdir).
Defined.

(** On the visited world, whose snapshot holds the learned facts, a
    model that holds another mapping saves it in their place. *)
Lemma save_data_frame_witness :
  let newer : @LearnedData Z := {[ "agreements" := 4%Z ]} in
  let w : @World Z Z := mkWorld (mkLearningModel [bid_20_2] [] newer) (fs_of visited_world) in
  let out := save_data (Some "/srv/store") (Some "bob") w in
  fs_of w !! snapshot_path "/srv/store" "bob" = Some (RegularFile (PickleOf learned_facts)) /\
  out.1 = Ok tt /\
  self_of out.2 = self_of w /\
  fs_of out.2 !! snapshot_path "/srv/store" "bob" = Some (RegularFile (PickleOf newer)).
Proof.
  cbv zeta.
  assert (Hok : (save_data (Some "/srv/store") (Some "bob")
                   (@mkWorld Z Z (mkLearningModel [bid_20_2] [] {[ "agreements" := 4%Z ]})
                             (fs_of visited_world))).1 = Ok tt)
    by (vm_compute; reflexivity).
  destruct (save_data_frame
              (@mkWorld Z Z (mkLearningModel [bid_20_2] [] {[ "agreements" := 4%Z ]})
                        (fs_of visited_world))
              (Some "/srv/store") (Some "bob")) as (Hself & Hnode).
  split; [vm_compute; reflexivity|]. split; [exact Hok|]. split; [exact Hself|].
  exact (Hnode "/srv/store" "bob" eq_refl eq_refl Hok).
Defined.

(** On the stored world no snapshot exists, the storage directory
    does, and the round trip succeeds. *)
Lemma save_then_load_in_storage_dir_witness :
  let w1 : @World Z Z :=
    mkWorld (self_of stored_world)
            {[ "/srv/store" := Directory;
               "/srv/store/bob_data.pkl" := RegularFile (PickleOf learned_facts) ]} in
  ("/"%char ∉ String.list_ascii_of_string "bob") /\
  "/srv/store" <> "" /\
  save_data (Some "/srv/store") (Some "bob") stored_world = (Ok tt, w1) /\
  dirname (snapshot_path "/srv/store" "bob") = "/srv/store" /\
  fs_of stored_world !! snapshot_path "/srv/store" "bob" = None /\
  fs_of stored_world !! "/srv/store" = Some Directory /\
  self_of w1 = self_of stored_world /\
  (load_data (Some "/srv/store") (Some "bob") w1).1 = Ok learned_facts.
Proof.
  cbv zeta.
  assert (Hname : "/"%char ∉ String.list_ascii_of_string "bob").
  { cbn. rewrite !elem_of_cons, elem_of_nil. intros [Hc|[Hc|[Hc|[]]]]; discriminate Hc. }
  assert (Hdir : "/srv/store" <> "") by discriminate.
  assert (Hnone : fs_of stored_world !! snapshot_path "/srv/store" "bob" = None)
    by (vm_compute; reflexivity).
  match goal with
  | |- _ /\ _ /\ ?saved /\ _ => assert (Hsave : saved) by (vm_compute; reflexivity)
  end.
  destruct (save_then_load_in_storage_dir stored_world "/srv/store" "bob" _ Hname Hdir Hsave)
    as (Hparent & Hthere & Hself & Hload).
  split; [exact Hname|]. split; [exact Hdir|]. split; [exact Hsave|].
  split; [exact Hparent|]. split; [exact Hnone|]. split; [exact (Hthere Hnone)|].
  split; [exact Hself|]. exact Hload.
Defined.

(** On the stored world: the learned facts are saved, then three becomes
    four and the snapshot follows. *)
Lemma save_data_overwrites_witness :
  let path := snapshot_path "/srv/store" "bob" in
  let newer : @LearnedData Z := {[ "agreements" := 4%Z ]} in
  let w1 : @World Z Z :=
    mkWorld (self_of stored_world)
            {[ "/srv/store" := Directory; path := RegularFile (PickleOf learned_facts) ]} in
  let w3 : @World Z Z :=
    mkWorld (set_data newer (self_of stored_world))
            {[ "/srv/store" := Directory; path := RegularFile (PickleOf newer) ]} in
  save_data (Some "/srv/store") (Some "bob") stored_world = (Ok tt, w1) /\
  save_data (Some "/srv/store") (Some "bob")
            (mkWorld (set_data newer (self_of w1)) (fs_of w1)) = (Ok tt, w3) /\
  newer <> learned_facts /\
  fs_of w1 !! path = Some (RegularFile (PickleOf learned_facts)) /\
  fs_of w3 !! path = Some (RegularFile (PickleOf newer)) /\
  (load_data (Some "/srv/store") (Some "bob") w3).1 = Ok newer.
Proof.
  cbv zeta.
  match goal with
  | |- ?first /\ ?second /\ _ =>
      assert (Hfirst : first) by (vm_compute; reflexivity);
      assert (Hsecond : second) by (vm_compute; reflexivity)
  end.
  split; [exact Hfirst|]. split; [exact Hsecond|]. split.
  - intros Heq. apply (f_equal (fun m : gmap string Z => m !! "agreements")) in Heq.
    vm_compute in Heq. discriminate.
  - exact (save_data_overwrites stored_world "/srv/store" "bob" _ _ _ Hfirst Hsecond).
Defined.

Lemma snapshot_ignores_session_witness :
  let calls := [ReceiveBid (Some bid_20_2); SaveBid (Some bid_10_1); ReceiveBid None] in
  let after := save_data (Some "/srv/store") (Some "bob") (session calls new_world) in
  self_of new_world = LearningModel_init /\
  after.1 = Ok tt /\
  received_bids (self_of after.2) = [bid_20_2] /\
  fs_of after.2 !! snapshot_path "/srv/store" "bob" = Some (RegularFile (PickleOf ∅)).
Proof.
  cbv zeta.
  assert (Hok : (save_data (Some "/srv/store") (Some "bob")
                   (session [ReceiveBid (Some bid_20_2); SaveBid (Some bid_10_1);
                             ReceiveBid None] new_world)).1 = Ok tt)
    by (vm_compute; reflexivity).
  split; [reflexivity|]. split; [exact Hok|]. split; [vm_compute; reflexivity|].
  exact (proj2 (proj2 (snapshot_ignores_session new_world
                         [ReceiveBid (Some bid_20_2); SaveBid (Some bid_10_1);
                          ReceiveBid None]
                         (Some "/srv/store") (Some "bob")))
           eq_refl "/srv/store" "bob" eq_refl eq_refl Hok).
Defined.

Lemma utility_ignores_q_table_witness :
  offers fresh_model = [] /\
  (get_utility (Some bid_30_2)
               (update 0.5 (Some bid_10_1) (Some bid_20_2) 1.0 0.5 0.9 fresh_model).2).1
  = (get_utility (Some bid_30_2) fresh_model).1 /\
  q_table (update 0.5 (Some bid_10_1) (Some bid_20_2) 1.0 0.5 0.9 fresh_model).2
  <> q_table fresh_model.
Proof.
  split; [reflexivity|]. split.
  - exact (proj2 (proj2 (utility_ignores_q_table fresh_model))
             0.5 (Some bid_10_1) (Some bid_20_2) (Some bid_30_2) 1.0 0.5 0.9 eq_refl).
  - intros Heq.
    apply (f_equal (fun q : gmap (@QKey Z) float =>
                      bool_decide (is_Some (q !! ((Some 10%Z, Some 1%Z), Some 10%Z)))))
      in Heq.
    vm_compute in Heq. discriminate.
Defined.

